(** * OpSy: a shallow embedding of the scheduler and its synchronisation
      primitives

    The development follows the C++ sources of OpSy (Scheduler.cpp,
    Scheduler.hpp, Task.hpp/.cpp, PriorityMutex.hpp/.cpp,
    ConditionVariable.hpp/.cpp, CriticalSection.hpp/.cpp, EmbeddedList.hpp,
    IsrPriority.hpp, Config.hpp, opsy.hpp).

    - Objects live in stores indexed by their address: [tasks] for the
      task control blocks, [conditions] for the condition variables and
      [mutexes] for the mutexes handed to [wait].  A pointer is an
      [option] of such an address.
    - The static members of [Scheduler] and the few Cortex-M registers the
      kernel reads or writes form the record [State].
    - Every function of the kernel is a computation in the monad [M]: it
      reads the build kind (debug: [NDEBUG] undefined, so [assert] is
      live), threads the state, and may stop on a failed [assert], on
      [std::optional::value()] of an empty optional, or on a null pointer.
    - The stack of a task is a memory of words by byte address, [m_stack];
      [m_stackPointer] is an address in it.  [start] builds the first
      frame and the first context there, and [setReturnValue] writes [r0]
      of the frame it reaches from [m_stackPointer].
    - An [EmbeddedList] is represented by the sequence of the nodes linked
      from [m_first] through [m_next]; a node is linked at most once in a
      list of its kind.  The observation hooks ([Hooks::...]) are empty in
      the sources and are left out.
    - The links themselves ([m_previous], [m_next], [m_first], [m_size])
      are modelled in [Nodes], a memory of nodes and lists by address; the
      predicate [represents] relates this memory to the sequences. *)

From stdpp Require Import gmap list sorting.
From Stdlib Require Import ZArith Lia.

Local Open Scope Z_scope.

(** ** Fixed-width integers *)

Definition wrap_u8 (x : Z) : Z := x mod 2 ^ 8.
Definition wrap_u32 (x : Z) : Z := x mod 2 ^ 32.
(** Two's complement interpretation of a 32-bit word ([int32_t]). *)
Definition wrap_i32 (x : Z) : Z := (x + 2 ^ 31) mod 2 ^ 32 - 2 ^ 31.

Definition INT32_MIN : Z := - 2 ^ 31.
Definition INT32_MAX : Z := 2 ^ 31 - 1.

(** ** Config.hpp *)

Definition kPriorityBits : Z := 4.
Definition kPreemptionBits : Z := 2.
Definition kOpsyPreemption : Z := 1.
(** [duration] counts milliseconds in an [int32_t]; [time_point] is
    [std::chrono::time_point<int64_t, duration>], whose representation is
    the representation of [duration]. *)
Definition Startup : Z := 0.

(** ** IsrPriority.hpp *)

Module IsrPriority.
Definition kMaxPreemptionBits : Z := 8.

Definition FromPreemptSub (PreemptBits preempt sub : Z) : Z :=
  wrap_u8
    (Z.lor
       (Z.shiftl (Z.land preempt (Z.shiftl 1 PreemptBits - 1))
                 (kMaxPreemptionBits - PreemptBits))
       (Z.land sub (Z.shiftl 1 (kMaxPreemptionBits - PreemptBits) - 1))).

Definition maskedValue (PriorityBits value : Z) : Z :=
  Z.land value
    (wrap_u8 (Z.shiftl (Z.shiftl 1 PriorityBits - 1)
                       (kMaxPreemptionBits - PriorityBits))).
End IsrPriority.

(** [maskedValue<kPreemptionBits>()], the only instance the kernel uses. *)
Definition masked (p : Z) : Z := IsrPriority.maskedValue kPreemptionBits p.

(** ** Addresses of the kernel objects *)

Abbreviation TaskId := positive.
Abbreviation CvId := positive.
Abbreviation MutexId := positive.

(** The value of a pointer in a register. *)
Definition address (p : positive) : Z := Z.pos p.
Definition pointer (r : Z) : option positive :=
  match r with Z.pos p => Some p | _ => None end.

(** The records have primitive projections: a projection computes on a
    constructor only, and a record equals the constructor applied to its
    projections. *)
#[local] Set Primitive Projections.

(** ** Task.hpp: the task control block *)

(** [std::cv_status] *)
Module cv_status.
Definition no_timeout : Z := 0.
Definition timeout : Z := 1.
End cv_status.

(** The functions whose address [start] writes on a stack. *)
Inductive Code := taskStarter | terminateTask.

(** [StackItem]: a word of a stack.  Two kinds of words have a value that
    is fixed outside these sources: the pattern [Dummy], which a debug
    build fills a stack with, and the address of a function (plus an
    offset in bytes).  A word that nothing has written yet has no known
    value either. *)
Inductive StackItem :=
| Word (v : Z)
| Dummy
| CodePointer (f : Code) (offset : Z)
| Unwritten.

#[global] Instance StackItem_inhabited : Inhabited StackItem := populate Unwritten.

Record TaskControlBlock := mkTCB {
  m_stackBase : Z;   (* StackItem* const *)
  m_stackSize : Z;   (* in StackItem units *)
  m_active : bool;   (* std::atomic_bool *)
  m_stackPointer : Z;
  m_priority : Z;   (* Priority : uint8_t, lower is more important *)
  m_lastStarted : Z;   (* time_point *)
  m_waitUntil : option Z;   (* std::optional<time_point> *)
  m_name : Z;   (* const char* *)
  m_entry : option nat;   (* Callback<void(void)>, None when invalid *)
  m_waiting : option CvId;   (* ConditionVariable* *)
  m_mutex : option MutexId;   (* Mutex* *)
  m_stack : gmap Z StackItem   (* the memory [m_stackBase] and
                                  [m_stackPointer] point into, by address
                                  in bytes: [Task::m_stack] *)
}.

Definition Lowest : Z := 255.

(** [TaskControlBlock(stackBase, stackSize)] with the member initialisers. *)
Definition newTCB (stackBase stackSize : Z) : TaskControlBlock :=
  mkTCB stackBase stackSize false 0 Lowest Startup None 0 None None None ∅.

#[global] Instance TaskControlBlock_inhabited : Inhabited TaskControlBlock :=
  populate (newTCB 0 0).

Definition set_m_active (v : bool) (t : TaskControlBlock) : TaskControlBlock :=
  mkTCB (m_stackBase t) (m_stackSize t) v (m_stackPointer t) (m_priority t)
    (m_lastStarted t) (m_waitUntil t) (m_name t) (m_entry t) (m_waiting t)
    (m_mutex t) (m_stack t).
Definition set_m_stackPointer (v : Z) (t : TaskControlBlock) : TaskControlBlock :=
  mkTCB (m_stackBase t) (m_stackSize t) (m_active t) v (m_priority t)
    (m_lastStarted t) (m_waitUntil t) (m_name t) (m_entry t) (m_waiting t)
    (m_mutex t) (m_stack t).
Definition set_m_priority (v : Z) (t : TaskControlBlock) : TaskControlBlock :=
  mkTCB (m_stackBase t) (m_stackSize t) (m_active t) (m_stackPointer t) v
    (m_lastStarted t) (m_waitUntil t) (m_name t) (m_entry t) (m_waiting t)
    (m_mutex t) (m_stack t).
Definition set_m_lastStarted (v : Z) (t : TaskControlBlock) : TaskControlBlock :=
  mkTCB (m_stackBase t) (m_stackSize t) (m_active t) (m_stackPointer t)
    (m_priority t) v (m_waitUntil t) (m_name t) (m_entry t) (m_waiting t)
    (m_mutex t) (m_stack t).
Definition set_m_waitUntil (v : option Z) (t : TaskControlBlock) : TaskControlBlock :=
  mkTCB (m_stackBase t) (m_stackSize t) (m_active t) (m_stackPointer t)
    (m_priority t) (m_lastStarted t) v (m_name t) (m_entry t) (m_waiting t)
    (m_mutex t) (m_stack t).
Definition set_m_name (v : Z) (t : TaskControlBlock) : TaskControlBlock :=
  mkTCB (m_stackBase t) (m_stackSize t) (m_active t) (m_stackPointer t)
    (m_priority t) (m_lastStarted t) (m_waitUntil t) v (m_entry t)
    (m_waiting t) (m_mutex t) (m_stack t).
Definition set_m_entry (v : option nat) (t : TaskControlBlock) : TaskControlBlock :=
  mkTCB (m_stackBase t) (m_stackSize t) (m_active t) (m_stackPointer t)
    (m_priority t) (m_lastStarted t) (m_waitUntil t) (m_name t) v
    (m_waiting t) (m_mutex t) (m_stack t).
Definition set_m_waiting (v : option CvId) (t : TaskControlBlock) : TaskControlBlock :=
  mkTCB (m_stackBase t) (m_stackSize t) (m_active t) (m_stackPointer t)
    (m_priority t) (m_lastStarted t) (m_waitUntil t) (m_name t) (m_entry t) v
    (m_mutex t) (m_stack t).
Definition set_m_mutex (v : option MutexId) (t : TaskControlBlock) : TaskControlBlock :=
  mkTCB (m_stackBase t) (m_stackSize t) (m_active t) (m_stackPointer t)
    (m_priority t) (m_lastStarted t) (m_waitUntil t) (m_name t) (m_entry t)
    (m_waiting t) v (m_stack t).
Definition set_m_stack (v : gmap Z StackItem) (t : TaskControlBlock) : TaskControlBlock :=
  mkTCB (m_stackBase t) (m_stackSize t) (m_active t) (m_stackPointer t)
    (m_priority t) (m_lastStarted t) (m_waitUntil t) (m_name t) (m_entry t)
    (m_waiting t) (m_mutex t) v.

(** ** PriorityMutex.hpp, CriticalSection.hpp, ConditionVariable.hpp *)

Record PriorityMutex := mkMutex {
  m_locked : bool;
  m_previousLock : Z;             (* IsrPriority *)
  m_criticalSection : bool;       (* CriticalSection::m_valid *)
  mutex_priority : option Z       (* std::optional<IsrPriority> m_priority *)
}.

(** [PriorityMutex(priority)] *)
Definition newMutex (priority : option Z) : PriorityMutex :=
  {| m_locked := false; m_previousLock := 0; m_criticalSection := false;
     mutex_priority := priority |}.

#[global] Instance PriorityMutex_inhabited : Inhabited PriorityMutex :=
  populate (newMutex None).

Record ConditionVariable := mkCV {
  m_mutex_cv : PriorityMutex;     (* Mutex m_mutex *)
  m_waitingList : list TaskId     (* EmbeddedList<TaskControlBlock, TaskLists::Waiting> *)
}.

(** [ConditionVariable(priority)] *)
Definition newCV (priority : option Z) : ConditionVariable :=
  {| m_mutex_cv := newMutex priority; m_waitingList := [] |}.

#[global] Instance ConditionVariable_inhabited : Inhabited ConditionVariable :=
  populate (newCV None).

(** ** The state: the static members of [Scheduler], the objects, and the
    Cortex-M registers the kernel uses *)

Record State := mkState {
  s_isStarted : bool;
  s_ticks : Z;  (* time_point *)
  s_allTasks : list TaskId;  (* EmbeddedList<TaskControlBlock, TaskLists::Handle> *)
  s_timeouts : list TaskId;  (* EmbeddedList<TaskControlBlock, TaskLists::Timeout> *)
  s_ready : list TaskId;  (* EmbeddedList<TaskControlBlock, TaskLists::Waiting> *)
  s_idling : bool;
  s_mayNeedSwitch : bool;
  s_idle : Z;  (* IdleTaskControlBlock*, 0 when null *)
  s_previousTask : option TaskId;
  s_currentTask : option TaskId;
  s_nextTask : option TaskId;
  s_criticalSection : bool;
  idle_stackPointer : Z;  (* s_idle->m_stackPointer *)
  tasks : gmap TaskId TaskControlBlock;
  conditions : gmap CvId ConditionVariable;
  mutexes : gmap MutexId PriorityMutex;
  basepri : Z;  (* BASEPRI *)
  primask : bool;  (* PRIMASK *)
  isr : option Z;  (* None in thread mode (IPSR = 0), else the priority of the active exception *)
  pendSv : bool;  (* PendSV pending bit of ICSR *)
  systick : option Z;  (* reload value once the tick is enabled *)
  cortexType : Z;  (* part number field of CPUID *)
  SystemCoreClock : Z
}.

Definition set_s_isStarted (v : bool) (s : State) : State :=
  mkState v (s_ticks s) (s_allTasks s) (s_timeouts s) (s_ready s) (s_idling s)
    (s_mayNeedSwitch s) (s_idle s) (s_previousTask s) (s_currentTask s)
    (s_nextTask s) (s_criticalSection s) (idle_stackPointer s) (tasks s)
    (conditions s) (mutexes s) (basepri s) (primask s) (isr s) (pendSv s)
    (systick s) (cortexType s) (SystemCoreClock s).
Definition set_s_ticks (v : Z) (s : State) : State :=
  mkState (s_isStarted s) v (s_allTasks s) (s_timeouts s) (s_ready s)
    (s_idling s) (s_mayNeedSwitch s) (s_idle s) (s_previousTask s)
    (s_currentTask s) (s_nextTask s) (s_criticalSection s)
    (idle_stackPointer s) (tasks s) (conditions s) (mutexes s) (basepri s)
    (primask s) (isr s) (pendSv s) (systick s) (cortexType s)
    (SystemCoreClock s).
Definition set_s_allTasks (v : list TaskId) (s : State) : State :=
  mkState (s_isStarted s) (s_ticks s) v (s_timeouts s) (s_ready s)
    (s_idling s) (s_mayNeedSwitch s) (s_idle s) (s_previousTask s)
    (s_currentTask s) (s_nextTask s) (s_criticalSection s)
    (idle_stackPointer s) (tasks s) (conditions s) (mutexes s) (basepri s)
    (primask s) (isr s) (pendSv s) (systick s) (cortexType s)
    (SystemCoreClock s).
Definition set_s_timeouts (v : list TaskId) (s : State) : State :=
  mkState (s_isStarted s) (s_ticks s) (s_allTasks s) v (s_ready s)
    (s_idling s) (s_mayNeedSwitch s) (s_idle s) (s_previousTask s)
    (s_currentTask s) (s_nextTask s) (s_criticalSection s)
    (idle_stackPointer s) (tasks s) (conditions s) (mutexes s) (basepri s)
    (primask s) (isr s) (pendSv s) (systick s) (cortexType s)
    (SystemCoreClock s).
Definition set_s_ready (v : list TaskId) (s : State) : State :=
  mkState (s_isStarted s) (s_ticks s) (s_allTasks s) (s_timeouts s) v
    (s_idling s) (s_mayNeedSwitch s) (s_idle s) (s_previousTask s)
    (s_currentTask s) (s_nextTask s) (s_criticalSection s)
    (idle_stackPointer s) (tasks s) (conditions s) (mutexes s) (basepri s)
    (primask s) (isr s) (pendSv s) (systick s) (cortexType s)
    (SystemCoreClock s).
Definition set_s_idling (v : bool) (s : State) : State :=
  mkState (s_isStarted s) (s_ticks s) (s_allTasks s) (s_timeouts s)
    (s_ready s) v (s_mayNeedSwitch s) (s_idle s) (s_previousTask s)
    (s_currentTask s) (s_nextTask s) (s_criticalSection s)
    (idle_stackPointer s) (tasks s) (conditions s) (mutexes s) (basepri s)
    (primask s) (isr s) (pendSv s) (systick s) (cortexType s)
    (SystemCoreClock s).
Definition set_s_mayNeedSwitch (v : bool) (s : State) : State :=
  mkState (s_isStarted s) (s_ticks s) (s_allTasks s) (s_timeouts s)
    (s_ready s) (s_idling s) v (s_idle s) (s_previousTask s) (s_currentTask s)
    (s_nextTask s) (s_criticalSection s) (idle_stackPointer s) (tasks s)
    (conditions s) (mutexes s) (basepri s) (primask s) (isr s) (pendSv s)
    (systick s) (cortexType s) (SystemCoreClock s).
Definition set_s_idle (v : Z) (s : State) : State :=
  mkState (s_isStarted s) (s_ticks s) (s_allTasks s) (s_timeouts s)
    (s_ready s) (s_idling s) (s_mayNeedSwitch s) v (s_previousTask s)
    (s_currentTask s) (s_nextTask s) (s_criticalSection s)
    (idle_stackPointer s) (tasks s) (conditions s) (mutexes s) (basepri s)
    (primask s) (isr s) (pendSv s) (systick s) (cortexType s)
    (SystemCoreClock s).
Definition set_s_previousTask (v : option TaskId) (s : State) : State :=
  mkState (s_isStarted s) (s_ticks s) (s_allTasks s) (s_timeouts s)
    (s_ready s) (s_idling s) (s_mayNeedSwitch s) (s_idle s) v
    (s_currentTask s) (s_nextTask s) (s_criticalSection s)
    (idle_stackPointer s) (tasks s) (conditions s) (mutexes s) (basepri s)
    (primask s) (isr s) (pendSv s) (systick s) (cortexType s)
    (SystemCoreClock s).
Definition set_s_currentTask (v : option TaskId) (s : State) : State :=
  mkState (s_isStarted s) (s_ticks s) (s_allTasks s) (s_timeouts s)
    (s_ready s) (s_idling s) (s_mayNeedSwitch s) (s_idle s) (s_previousTask s)
    v (s_nextTask s) (s_criticalSection s) (idle_stackPointer s) (tasks s)
    (conditions s) (mutexes s) (basepri s) (primask s) (isr s) (pendSv s)
    (systick s) (cortexType s) (SystemCoreClock s).
Definition set_s_nextTask (v : option TaskId) (s : State) : State :=
  mkState (s_isStarted s) (s_ticks s) (s_allTasks s) (s_timeouts s)
    (s_ready s) (s_idling s) (s_mayNeedSwitch s) (s_idle s) (s_previousTask s)
    (s_currentTask s) v (s_criticalSection s) (idle_stackPointer s) (tasks s)
    (conditions s) (mutexes s) (basepri s) (primask s) (isr s) (pendSv s)
    (systick s) (cortexType s) (SystemCoreClock s).
Definition set_s_criticalSection (v : bool) (s : State) : State :=
  mkState (s_isStarted s) (s_ticks s) (s_allTasks s) (s_timeouts s)
    (s_ready s) (s_idling s) (s_mayNeedSwitch s) (s_idle s) (s_previousTask s)
    (s_currentTask s) (s_nextTask s) v (idle_stackPointer s) (tasks s)
    (conditions s) (mutexes s) (basepri s) (primask s) (isr s) (pendSv s)
    (systick s) (cortexType s) (SystemCoreClock s).
Definition set_idle_stackPointer (v : Z) (s : State) : State :=
  mkState (s_isStarted s) (s_ticks s) (s_allTasks s) (s_timeouts s)
    (s_ready s) (s_idling s) (s_mayNeedSwitch s) (s_idle s) (s_previousTask s)
    (s_currentTask s) (s_nextTask s) (s_criticalSection s) v (tasks s)
    (conditions s) (mutexes s) (basepri s) (primask s) (isr s) (pendSv s)
    (systick s) (cortexType s) (SystemCoreClock s).
Definition set_tasks (v : gmap TaskId TaskControlBlock) (s : State) : State :=
  mkState (s_isStarted s) (s_ticks s) (s_allTasks s) (s_timeouts s)
    (s_ready s) (s_idling s) (s_mayNeedSwitch s) (s_idle s) (s_previousTask s)
    (s_currentTask s) (s_nextTask s) (s_criticalSection s)
    (idle_stackPointer s) v (conditions s) (mutexes s) (basepri s) (primask s)
    (isr s) (pendSv s) (systick s) (cortexType s) (SystemCoreClock s).
Definition set_conditions (v : gmap CvId ConditionVariable) (s : State) : State :=
  mkState (s_isStarted s) (s_ticks s) (s_allTasks s) (s_timeouts s)
    (s_ready s) (s_idling s) (s_mayNeedSwitch s) (s_idle s) (s_previousTask s)
    (s_currentTask s) (s_nextTask s) (s_criticalSection s)
    (idle_stackPointer s) (tasks s) v (mutexes s) (basepri s) (primask s)
    (isr s) (pendSv s) (systick s) (cortexType s) (SystemCoreClock s).
Definition set_mutexes (v : gmap MutexId PriorityMutex) (s : State) : State :=
  mkState (s_isStarted s) (s_ticks s) (s_allTasks s) (s_timeouts s)
    (s_ready s) (s_idling s) (s_mayNeedSwitch s) (s_idle s) (s_previousTask s)
    (s_currentTask s) (s_nextTask s) (s_criticalSection s)
    (idle_stackPointer s) (tasks s) (conditions s) v (basepri s) (primask s)
    (isr s) (pendSv s) (systick s) (cortexType s) (SystemCoreClock s).
Definition set_basepri (v : Z) (s : State) : State :=
  mkState (s_isStarted s) (s_ticks s) (s_allTasks s) (s_timeouts s)
    (s_ready s) (s_idling s) (s_mayNeedSwitch s) (s_idle s) (s_previousTask s)
    (s_currentTask s) (s_nextTask s) (s_criticalSection s)
    (idle_stackPointer s) (tasks s) (conditions s) (mutexes s) v (primask s)
    (isr s) (pendSv s) (systick s) (cortexType s) (SystemCoreClock s).
Definition set_primask (v : bool) (s : State) : State :=
  mkState (s_isStarted s) (s_ticks s) (s_allTasks s) (s_timeouts s)
    (s_ready s) (s_idling s) (s_mayNeedSwitch s) (s_idle s) (s_previousTask s)
    (s_currentTask s) (s_nextTask s) (s_criticalSection s)
    (idle_stackPointer s) (tasks s) (conditions s) (mutexes s) (basepri s) v
    (isr s) (pendSv s) (systick s) (cortexType s) (SystemCoreClock s).
Definition set_isr (v : option Z) (s : State) : State :=
  mkState (s_isStarted s) (s_ticks s) (s_allTasks s) (s_timeouts s)
    (s_ready s) (s_idling s) (s_mayNeedSwitch s) (s_idle s) (s_previousTask s)
    (s_currentTask s) (s_nextTask s) (s_criticalSection s)
    (idle_stackPointer s) (tasks s) (conditions s) (mutexes s) (basepri s)
    (primask s) v (pendSv s) (systick s) (cortexType s) (SystemCoreClock s).
Definition set_pendSv (v : bool) (s : State) : State :=
  mkState (s_isStarted s) (s_ticks s) (s_allTasks s) (s_timeouts s)
    (s_ready s) (s_idling s) (s_mayNeedSwitch s) (s_idle s) (s_previousTask s)
    (s_currentTask s) (s_nextTask s) (s_criticalSection s)
    (idle_stackPointer s) (tasks s) (conditions s) (mutexes s) (basepri s)
    (primask s) (isr s) v (systick s) (cortexType s) (SystemCoreClock s).
Definition set_systick (v : option Z) (s : State) : State :=
  mkState (s_isStarted s) (s_ticks s) (s_allTasks s) (s_timeouts s)
    (s_ready s) (s_idling s) (s_mayNeedSwitch s) (s_idle s) (s_previousTask s)
    (s_currentTask s) (s_nextTask s) (s_criticalSection s)
    (idle_stackPointer s) (tasks s) (conditions s) (mutexes s) (basepri s)
    (primask s) (isr s) (pendSv s) v (cortexType s) (SystemCoreClock s).
Definition set_cortexType (v : Z) (s : State) : State :=
  mkState (s_isStarted s) (s_ticks s) (s_allTasks s) (s_timeouts s)
    (s_ready s) (s_idling s) (s_mayNeedSwitch s) (s_idle s) (s_previousTask s)
    (s_currentTask s) (s_nextTask s) (s_criticalSection s)
    (idle_stackPointer s) (tasks s) (conditions s) (mutexes s) (basepri s)
    (primask s) (isr s) (pendSv s) (systick s) v (SystemCoreClock s).
Definition set_SystemCoreClock (v : Z) (s : State) : State :=
  mkState (s_isStarted s) (s_ticks s) (s_allTasks s) (s_timeouts s)
    (s_ready s) (s_idling s) (s_mayNeedSwitch s) (s_idle s) (s_previousTask s)
    (s_currentTask s) (s_nextTask s) (s_criticalSection s)
    (idle_stackPointer s) (tasks s) (conditions s) (mutexes s) (basepri s)
    (primask s) (isr s) (pendSv s) (systick s) (cortexType s) v.

(** ** The monad of kernel code *)

Inductive Failure :=
| AssertionFailed      (* assert(...) fired: a debug build halts *)
| BadOptionalAccess    (* std::optional::value() on an empty optional *)
| NullPointer          (* a null pointer was dereferenced *)
| OutOfFuel            (* a loop did not finish within its bound *)
| UnknownValue.        (* the value of a word that these sources do not fix
                          was needed *)

Inductive Outcome (A : Type) :=
| Done (a : A) (s : State)
| Failed (f : Failure).
Arguments Done {A} a s.
Arguments Failed {A} f.

(** A computation reads the build kind ([true] for a debug build) and the
    state. *)
Definition M (A : Type) : Type := bool → State → Outcome A.

#[global] Instance M_ret : MRet M := λ A a _ s, Done a s.
#[global] Instance M_bind : MBind M := λ A B k m debug s,
  match m debug s with
  | Done a s' => k a debug s'
  | Failed f => Failed f
  end.

Definition gets {A} (f : State → A) : M A := λ _ s, Done (f s) s.
Definition modify (f : State → State) : M unit := λ _ s, Done tt (f s).
Definition fail {A} (f : Failure) : M A := λ _ _, Failed f.

(** [assert(b)]: nothing in a release build. *)
Definition assert_ (b : bool) : M unit := λ debug s,
  if b then Done tt s
  else if debug then Failed AssertionFailed else Done tt s.

(** [#ifndef NDEBUG] *)
Definition ifndef_NDEBUG : M bool := λ debug s, Done debug s.

(** [o.value()] *)
Definition value {A} (o : option A) : M A :=
  match o with Some a => mret a | None => fail BadOptionalAccess end.

(** [*p] *)
Definition deref {A} (p : option A) : M A :=
  match p with Some a => mret a | None => fail NullPointer end.

Definition when (b : bool) (m : M unit) : M unit := if b then m else mret tt.

(** A [while] loop, unrolled at most [fuel] times; [a] is the value of the
    local variable the body updates. *)
Fixpoint while {A} (fuel : nat) (cond : M bool) (body : A → M A) (a : A) : M A :=
  match fuel with
  | O => fail OutOfFuel
  | S fuel' =>
      b ← cond;
      if b : bool then a' ← body a; while fuel' cond body a' else mret a
  end.

(** Access to the objects. *)
Definition task (t : TaskId) : M TaskControlBlock := gets (λ s, tasks s !!! t).
Definition update_task (t : TaskId) (f : TaskControlBlock → TaskControlBlock) : M unit :=
  modify (λ s, set_tasks (<[t := f (tasks s !!! t)]> (tasks s)) s).

Definition condition (cv : CvId) : M ConditionVariable :=
  gets (λ s, conditions s !!! cv).
Definition set_waitingList (cv : CvId) (l : list TaskId) : M unit :=
  modify (λ s, set_conditions
    (<[cv := mkCV (m_mutex_cv (conditions s !!! cv)) l]> (conditions s)) s).

(** A mutex is either an object of its own or the [m_mutex] member of a
    condition variable. *)
Inductive MutexRef :=
| MutexAt (m : MutexId)
| MutexOf (cv : CvId).

Definition mutex (r : MutexRef) : M PriorityMutex :=
  match r with
  | MutexAt m => gets (λ s, mutexes s !!! m)
  | MutexOf cv => gets (λ s, m_mutex_cv (conditions s !!! cv))
  end.
Definition set_mutex (r : MutexRef) (v : PriorityMutex) : M unit :=
  match r with
  | MutexAt m => modify (λ s, set_mutexes (<[m := v]> (mutexes s)) s)
  | MutexOf cv => modify (λ s, set_conditions
      (<[cv := mkCV v (m_waitingList (conditions s !!! cv))]> (conditions s)) s)
  end.

(** ** CortexM.hpp *)

Module CortexM.
Definition kPrigroupMax : Z := 7.
Definition kLowestPriority : Z := 255.
Definition M4 : Z := 3108.   (* 0xc24 *)
Definition M7 : Z := 3111.   (* 0xc27 *)

Definition minSub (PreemptBits : Z) : Z :=
  wrap_u8 (Z.shiftl 1 (kPrigroupMax + 1 - PreemptBits) - 1).
Definition minPreempt (PreemptBits : Z) : Z :=
  wrap_u8 (Z.shiftl 1 PreemptBits - 1).
Definition SystickReloadMask : Z := Z.shiftl 1 24 - 1.

Definition getType : M Z := gets cortexType.
(** [ipsr() == 0] *)
Definition inThreadMode : M bool := gets (λ s, bool_decide (isr s = None)).
Definition currentPriority : M (option Z) := gets isr.

Definition setBasepri (priority : Z) : M Z :=
  previous ← gets basepri;
  modify (set_basepri priority);;
  mret (wrap_u8 previous).

Definition disableInterrupts : M unit := modify (set_primask true).
Definition enableInterrupts : M unit := modify (set_primask false).
Definition isPrimask : M bool := gets primask.
Definition triggerPendSv : M unit := modify (set_pendSv true).
Definition clearPendSv : M unit := modify (set_pendSv false).

Definition enableSystick (reload : Z) : M unit :=
  assert_ (negb (reload =? 0));;
  assert_ (reload - 1 <=? SystickReloadMask);;
  modify (set_systick (Some (reload - 1))).
End CortexM.

(** ** EmbeddedList.hpp, on sequences *)

Module EmbeddedList.
Definition comparator : Type := TaskControlBlock → TaskControlBlock → M bool.

Definition push_front (item : TaskId) (l : list TaskId) : list TaskId :=
  item :: l.

(** [erase(item)] unlinks the node.  The source follows the links of the
    node and does not look for it in the list: the sequence without the
    item is what the list holds afterwards when the node is linked in this
    list, and the list is left as it is when the node has no link at all
    (both facts are proved on the links in the section on [Nodes]).  A node
    that is linked in another list of its kind, as a task of [s_ready] is
    for a waiting list, is outside what this function tells: the theorems
    that reach [erase] with such a node say so in their hypotheses. *)
Definition erase (item : TaskId) (l : list TaskId) : list TaskId :=
  filter (λ x, x ≠ item) l.

(** [insertWhen(predicate, item)]: in front when the list is empty or
    [predicate(item, *m_first)] holds; else after the last node that the
    loop walks over, the loop stopping at the end of the list or at the
    first node [current] with [predicate(item, *current)].  The item is
    linked by [push_front] or [insert], which assert that its node is free:
    the sequence tells what the list holds for an item whose node has no
    link, the case in which the assertion holds ([Nodes.insertWhen] keeps
    the assertion). *)
Fixpoint insertWhen (predicate : comparator) (item : TaskId)
    (l : list TaskId) : M (list TaskId) :=
  match l with
  | [] => mret (push_front item [])
  | current :: rest =>
      x ← task item;
      y ← task current;
      b ← predicate x y;
      if b : bool then mret (push_front item l)
      else l' ← insertWhen predicate item rest; mret (current :: l')
  end.
End EmbeddedList.

(** ** Task.hpp: comparison of two tasks, return value of a wait *)

(** [TaskControlBlock::priorityIsLower]: [true] if [left] is more important
    than [right]. *)
Definition priorityIsLower (left right : TaskControlBlock) : bool :=
  if m_priority left >? m_priority right then false
  else if m_priority left <? m_priority right then true
  else m_lastStarted left <? m_lastStarted right.

(** [m_active.exchange(v)] *)
Definition exchange_active (t : TaskId) (v : bool) : M bool :=
  tcb ← task t;
  update_task t (set_m_active v);;
  mret (m_active tcb).

Definition isStarted (t : TaskId) : M bool := gets (λ s, m_active (tasks s !!! t)).

(** [sizeof(StackFrame)], [sizeof(Context)] and [sizeof(FpContext)], in
    [StackItem]s; the members of [StackFrame] are r0, r1, r2, r3, r12, lr,
    pc and psr, the first two members of [Context] are lr and control. *)
Definition sizeof_StackFrame : Z := 8.
Definition sizeof_Context : Z := 10.
Definition sizeof_FpContext : Z := 16.

Definition kFpFlag : Z := 16.   (* 0b10000 *)

(** The word at an address of the stack of a task, read and written. *)
Definition load (t : TaskId) (ptr : Z) : M StackItem :=
  gets (λ s, m_stack (tasks s !!! t) !!! ptr).
Definition write_item (ptr : Z) (v : StackItem) (tcb : TaskControlBlock) :
    TaskControlBlock :=
  set_m_stack (<[ptr := v]> (m_stack tcb)) tcb.
Definition store (t : TaskId) (ptr : Z) (v : StackItem) : M unit :=
  update_task t (write_item ptr v).

(** The value of a word that is read as a number. *)
Definition word (i : StackItem) : M Z :=
  match i with Word v => mret v | _ => fail UnknownValue end.

(** [TaskControlBlock::setReturnValue]: [r0] of the frame that lies above
    the context saved at [m_stackPointer]. *)
Definition setReturnValue (t : TaskId) (value : Z) : M unit :=
  tcb ← task t;
  let ptr := m_stackPointer tcb in
  when (ptr =? 0) (fail NullPointer);;
  i ← load t ptr;
  lr ← word i;
  let ptr := if Z.land lr kFpFlag =? 0
             then ptr + 4 * (sizeof_Context + sizeof_FpContext)
             else ptr + 4 * sizeof_Context in
  store t ptr (Word value).

(** ** Scheduler.hpp / Scheduler.cpp, first part *)

Definition kServiceCallPriority : Z :=
  IsrPriority.FromPreemptSub kPreemptionBits kOpsyPreemption 0.
Definition kSystickPriority : Z :=
  IsrPriority.FromPreemptSub kPreemptionBits kOpsyPreemption
    (CortexM.minSub kPreemptionBits).
Definition kPendSvPriority : Z :=
  IsrPriority.FromPreemptSub kPreemptionBits
    (CortexM.minPreempt kPreemptionBits) (CortexM.minSub kPreemptionBits).

Definition has_value {A} (o : option A) : bool :=
  match o with Some _ => true | None => false end.

(** [Scheduler::wakeupAfter] *)
Definition wakeupAfter (left right : TaskControlBlock) : M bool :=
  assert_ (has_value (m_waitUntil left) && has_value (m_waitUntil right));;
  mret (default Startup (m_waitUntil left) <? default Startup (m_waitUntil right)).

(** [s_ready.insertWhen(TaskControlBlock::priorityIsLower, item)] *)
Definition ready_insertWhen (item : TaskId) : M unit :=
  l ← gets s_ready;
  l' ← EmbeddedList.insertWhen (λ x y, mret (priorityIsLower x y)) item l;
  modify (set_s_ready l').

(** [s_timeouts.insertWhen(wakeupAfter, item)] *)
Definition timeouts_insertWhen (item : TaskId) : M unit :=
  l ← gets s_timeouts;
  l' ← EmbeddedList.insertWhen wakeupAfter item l;
  modify (set_s_timeouts l').

(** [Scheduler::doSwitch] *)
Definition doSwitch : M bool :=
  started ← gets s_isStarted;
  assert_ started;;
  cur ← gets s_currentTask;
  cs ← gets s_criticalSection;
  assert_ (bool_decide (cur ≠ None) || negb cs);;
  if cs : bool then
    modify (set_s_mayNeedSwitch true);;
    mret false
  else
    next ← gets s_nextTask;
    match next with
    | Some n =>
        assert_ (bool_decide (cur ≠ next));;
        ready_insertWhen n;;
        modify (set_s_nextTask None)
    | None => mret tt
    end;;
    current ← gets s_currentTask;
    match current with
    | Some c =>
        ready_insertWhen c;;
        modify (set_s_currentTask None)
    | None => mret tt
    end;;
    ready ← gets s_ready;
    match ready with
    | [] =>
        CortexM.triggerPendSv;;
        mret true
    | front :: rest =>
        modify (set_s_nextTask (Some front));;
        modify (set_s_ready rest);;
        if bool_decide (Some front = current) then
          modify (set_s_currentTask (Some front));;
          modify (set_s_nextTask None);;
          mret false
        else
          CortexM.triggerPendSv;;
          mret true
    end.

(** [Scheduler::triggerSoftSwitch] *)
Definition triggerSoftSwitch : M unit :=
  previous ← CortexM.setBasepri kServiceCallPriority;
  modify (set_s_mayNeedSwitch false);;
  assert_ (previous =? 0);;
  doSwitch;;
  CortexM.setBasepri previous;;
  mret tt.

(** [Scheduler::addTask] *)
Definition addTask (t : TaskId) : M unit :=
  modify (λ s, set_s_allTasks (EmbeddedList.push_front t (s_allTasks s)) s);;
  ready_insertWhen t;;
  started ← gets s_isStarted;
  when started triggerSoftSwitch.

(** [Scheduler::criticalSection]: the result is the [m_valid] member of the
    handle it returns. *)
Definition Scheduler_criticalSection : M bool :=
  cs ← gets s_criticalSection;
  if cs : bool then mret false
  else modify (set_s_criticalSection true);; mret true.

(** [Scheduler::criticalSectionEnd] *)
Definition criticalSectionEnd : M unit :=
  cs ← gets s_criticalSection;
  assert_ cs;;
  modify (set_s_criticalSection false);;
  m ← gets s_mayNeedSwitch;
  when m triggerSoftSwitch.

(** [CriticalSection::~CriticalSection] of a handle whose [m_valid] is
    [valid]. *)
Definition CriticalSection_destroy (valid : bool) : M unit :=
  when valid criticalSectionEnd.

(** [Scheduler::now] *)
Definition now : M Z :=
  started ← gets s_isStarted;
  cp ← CortexM.currentPriority;
  assert_ (started && (kSystickPriority <=? default CortexM.kLowestPriority cp));;
  gets s_ticks.

(** ** PriorityMutex.cpp *)

Module Mutex.
Definition update (r : MutexRef) (f : PriorityMutex → PriorityMutex) : M unit :=
  m ← mutex r; set_mutex r (f m).

Definition set_locked (v : bool) (m : PriorityMutex) : PriorityMutex :=
  mkMutex v (m_previousLock m) (m_criticalSection m) (mutex_priority m).
Definition set_previousLock (v : Z) (m : PriorityMutex) : PriorityMutex :=
  mkMutex (m_locked m) v (m_criticalSection m) (mutex_priority m).
Definition set_criticalSection (v : bool) (m : PriorityMutex) : PriorityMutex :=
  mkMutex (m_locked m) (m_previousLock m) v (mutex_priority m).

(** [m_criticalSection = std::move(section)]: the move assignment of
    [CriticalSection]; the moved-from temporary is then destroyed
    invalid. *)
Definition assign_criticalSection (r : MutexRef) (section : bool) : M unit :=
  m ← mutex r;
  assert_ (negb (m_criticalSection m));;
  update r (set_criticalSection section).

(** [auto tmp = std::move(m_criticalSection)]: the result is [tmp.m_valid]. *)
Definition take_criticalSection (r : MutexRef) : M bool :=
  m ← mutex r;
  update r (set_criticalSection false);;
  mret (m_criticalSection m).

(** [PriorityMutex::lock] *)
Definition lock (r : MutexRef) : M unit :=
  m ← mutex r;
  match mutex_priority m with
  | Some p =>
      if p =? 0 then
        pm ← CortexM.isPrimask;
        assert_ (negb pm);;
        CortexM.disableInterrupts
      else
        cp ← CortexM.currentPriority;
        match cp with
        | None =>
            section ← Scheduler_criticalSection;
            assign_criticalSection r section
        | Some c => assert_ (masked p <=? masked c)
        end;;
        previous ← CortexM.setBasepri (masked p);
        update r (set_previousLock previous);;
        assert_ (masked previous <=? masked p)
  | None =>
      thread ← CortexM.inThreadMode;
      assert_ thread;;
      section ← Scheduler_criticalSection;
      assign_criticalSection r section
  end;;
  update r (set_locked true).

(** The block under [#ifndef NDEBUG] shared by [unlock] and
    [releaseFromServiceCall]. *)
Definition restoreBasepri (m : PriorityMutex) (p : Z) : M unit :=
  dbg ← ifndef_NDEBUG;
  if dbg : bool then
    was ← CortexM.setBasepri (m_previousLock m);
    assert_ (masked was =? masked p)
  else
    CortexM.setBasepri (m_previousLock m);; mret tt.

(** [PriorityMutex::unlock] *)
Definition unlock (r : MutexRef) : M unit :=
  m ← mutex r;
  if negb (m_locked m) then mret tt
  else
    match mutex_priority m with
    | Some p =>
        if p =? 0 then
          pm ← CortexM.isPrimask;
          assert_ pm;;
          CortexM.enableInterrupts
        else
          restoreBasepri m p;;
          tmp ← take_criticalSection r;
          CriticalSection_destroy tmp
    | None =>
        thread ← CortexM.inThreadMode;
        assert_ thread;;
        tmp ← take_criticalSection r;
        CriticalSection_destroy tmp
    end.

(** [PriorityMutex::reLockFromPendSv] *)
Definition reLockFromPendSv (r : MutexRef) (section : bool) : M Z :=
  assign_criticalSection r section;;
  m ← mutex r;
  match mutex_priority m with
  | Some p =>
      assert_ (negb (p =? 0));;
      update r (set_previousLock 0)
  | None => mret tt
  end;;
  update r (set_locked true);;
  mret (masked (default 0 (mutex_priority m))).

(** [PriorityMutex::releaseFromServiceCall] *)
Definition releaseFromServiceCall (r : MutexRef) : M unit :=
  m ← mutex r;
  assert_ (m_locked m);;
  match mutex_priority m with
  | Some p =>
      if p =? 0 then
        pm ← CortexM.isPrimask;
        assert_ pm;;
        CortexM.enableInterrupts
      else restoreBasepri m p
  | None => mret tt
  end.

(** [CriticalSection::disable] on [m_criticalSection] *)
Definition disable_criticalSection (r : MutexRef) : M unit :=
  m ← mutex r;
  assert_ (m_criticalSection m);;
  update r (set_criticalSection false).
End Mutex.

(** ** ConditionVariable.cpp: the waiting list *)

(** [ConditionVariable::addWaiting] *)
Definition addWaiting (cv : CvId) (t : TaskId) : M unit :=
  c ← condition cv;
  l' ← EmbeddedList.insertWhen (λ x y, mret (priorityIsLower x y)) t
         (m_waitingList c);
  set_waitingList cv l'.

(** [ConditionVariable::removeWaiting] *)
Definition removeWaiting (cv : CvId) (t : TaskId) : M unit :=
  c ← condition cv;
  set_waitingList cv (EmbeddedList.erase t (m_waitingList c)).

(** ** Scheduler.cpp, second part *)

(** [Scheduler::wakeUp] *)
Definition wakeUp (t : TaskId) (cv : CvId) : M unit :=
  previous ← CortexM.setBasepri kServiceCallPriority;
  tcb ← task t;
  assert_ (bool_decide (m_waiting tcb = Some cv));;
  removeWaiting cv t;;
  update_task t (set_m_waiting None);;
  setReturnValue t cv_status.no_timeout;;
  when (has_value (m_waitUntil tcb))
    (update_task t (set_m_waitUntil None);;
     modify (λ s, set_s_timeouts (EmbeddedList.erase t (s_timeouts s)) s));;
  ready_insertWhen t;;
  doSwitch;;
  CortexM.setBasepri previous;;
  mret tt.

(** [Scheduler::updatePriority] *)
Definition updatePriority (t : TaskId) (newPriority : Z) : M unit :=
  previous ← CortexM.setBasepri kServiceCallPriority;
  update_task t (set_m_priority newPriority);;
  started ← isStarted t;
  when started
    (cur ← gets s_currentTask;
     next ← gets s_nextTask;
     if bool_decide (Some t = cur) || bool_decide (Some t = next) then
       doSwitch;; mret tt
     else
       tcb ← task t;
       match m_waiting tcb with
       | Some cv =>
           removeWaiting cv t;;
           addWaiting cv t
       | None =>
           if negb (has_value (m_waitUntil tcb)) then
             modify (λ s, set_s_ready (EmbeddedList.erase t (s_ready s)) s);;
             ready_insertWhen t;;
             ready ← gets s_ready;
             match ready with
             | front :: _ => when (bool_decide (front = t)) (doSwitch;; mret tt)
             | [] => assert_ false;; fail NullPointer
             end
           else mret tt
       end);;
  CortexM.setBasepri previous;;
  mret tt.

(** [Scheduler::pendSvHandler]: [psp] is the stack pointer of the context
    that was running, the result packs the stack pointer to restore and,
    in its high half, the priority mask of a re-acquired mutex. *)
Definition pendSvHandler (psp : Z) : M Z :=
  CortexM.clearPendSv;;
  previous ← gets s_previousTask;
  match previous with
  | Some p => update_task p (set_m_stackPointer psp)
  | None => mret tt
  end;;
  idling ← gets s_idling;
  when idling (modify (set_idle_stackPointer psp));;
  next ← gets s_nextTask;
  match next with
  | None =>
      modify (set_s_idling true);;
      modify (set_s_previousTask None);;
      gets idle_stackPointer
  | Some n =>
      modify (set_s_idling false);;
      modify (set_s_previousTask (Some n));;
      modify (set_s_currentTask (Some n));;
      tcb ← task n;
      ticks ← gets s_ticks;
      update_task n (set_m_lastStarted ticks);;
      modify (set_s_nextTask None);;
      result ← match m_mutex tcb with
               | Some m =>
                   mask ← Mutex.reLockFromPendSv (MutexAt m) true;
                   modify (set_s_criticalSection true);;
                   update_task n (set_m_mutex None);;
                   mret (Z.lor (m_stackPointer tcb) (Z.shiftl mask 32))
               | None => mret (m_stackPointer tcb)
               end;
      started ← isStarted n;
      assert_ started;;
      mret result
  end.

(** The registers of the stacked frame that the service calls read. *)
Record StackFrame := mkFrame { r0 : Z; r1 : Z; r2 : Z }.

Inductive ServiceCallNumber := Terminate | Sleep | Switch | Wait | OtherCall.

(** [Scheduler::serviceCallHandler]; the result is [taskSwitch], which the
    source hands to [Hooks::exitServiceCall]. *)
Definition serviceCallHandler (frame : StackFrame)
    (parameter : ServiceCallNumber) (isThread : bool) : M bool :=
  match parameter with
  | OtherCall => assert_ false;; mret false
  | Terminate =>
      assert_ (negb (r0 frame =? 0));;
      t ← deref (pointer (r0 frame));
      was ← exchange_active t false;
      if negb was then mret false
      else
        tcb ← task t;
        modify (λ s, set_s_allTasks (EmbeddedList.erase t (s_allTasks s)) s);;
        when (has_value (m_waitUntil tcb))
          (modify (λ s, set_s_timeouts (EmbeddedList.erase t (s_timeouts s)) s);;
           update_task t (set_m_waitUntil None));;
        match m_waiting tcb with
        | Some cv =>
            removeWaiting cv t;;
            update_task t (set_m_waiting None)
        | None => mret tt
        end;;
        cur ← gets s_currentTask;
        if bool_decide (Some t = cur) then
          cs ← gets s_criticalSection;
          assert_ (negb cs);;
          modify (set_s_currentTask None);;
          modify (set_s_previousTask None);;
          doSwitch
        else mret false
  | Sleep =>
      assert_ isThread;;
      cs ← gets s_criticalSection;
      assert_ (negb cs);;
      cur ← gets s_currentTask;
      assert_ (has_value cur);;
      let delta := wrap_i32 (wrap_i32 (r0 frame) + 1) in
      assert_ (0 <=? delta);;
      c ← deref cur;
      ticks ← gets s_ticks;
      update_task c (set_m_waitUntil (Some (wrap_i32 (ticks + delta))));;
      timeouts_insertWhen c;;
      modify (set_s_currentTask None);;
      doSwitch
  | Switch =>
      assert_ isThread;;
      cs ← gets s_criticalSection;
      assert_ (negb cs);;
      doSwitch
  | Wait =>
      assert_ isThread;;
      assert_ (negb (r0 frame =? 0));;
      cur ← gets s_currentTask;
      assert_ (has_value cur);;
      cv ← deref (pointer (r0 frame));
      let timeout := wrap_i32 (r1 frame) in
      let mutex := pointer (r2 frame) in
      c ← deref cur;
      when (0 <=? timeout)
        (ticks ← gets s_ticks;
         update_task c (set_m_waitUntil (Some (wrap_i32 (ticks + timeout))));;
         timeouts_insertWhen c);;
      match mutex with
      | Some m =>
          cs ← gets s_criticalSection;
          assert_ cs;;
          update_task c (set_m_mutex (Some m));;
          Mutex.releaseFromServiceCall (MutexAt m);;
          Mutex.disable_criticalSection (MutexAt m);;
          modify (set_s_criticalSection false)
      | None => mret tt
      end;;
      addWaiting cv c;;
      update_task c (set_m_waiting (Some cv));;
      modify (set_s_currentTask None);;
      doSwitch
  end.

(** The [svc] instruction: the handler runs with the registers of the
    caller in the stacked frame, [isThread] telling whether the caller was
    in thread mode. *)
Definition svc (parameter : ServiceCallNumber) (frame : StackFrame) : M unit :=
  isThread ← CortexM.inThreadMode;
  serviceCallHandler frame parameter isThread;;
  mret tt.

(** The condition of the loop of [Scheduler::SystickHandler]. *)
Definition SystickHandler_cond : M bool :=
  timeouts ← gets s_timeouts;
  match timeouts with
  | [] => mret false
  | t :: _ =>
      tcb ← task t;
      deadline ← value (m_waitUntil tcb);
      ticks ← gets s_ticks;
      mret (deadline <=? ticks)
  end.

(** The body of that loop; it sets the local variable [dirty]. *)
Definition SystickHandler_body (dirty : bool) : M bool :=
  timeouts ← gets s_timeouts;
  match timeouts with
  | [] => assert_ false;; fail NullPointer
  | t :: rest =>
      modify (set_s_timeouts rest);;
      update_task t (set_m_waitUntil None);;
      tcb ← task t;
      match m_waiting tcb with
      | Some cv =>
          removeWaiting cv t;;
          setReturnValue t cv_status.timeout
      | None => mret tt
      end;;
      ready_insertWhen t;;
      mret true
  end.

(** [Scheduler::SystickHandler]; the result is the value the source hands
    to [Hooks::exitSystick].  Every turn of the loop unlinks the front of
    [s_timeouts] and nothing links a task there, so the length of the list
    bounds the number of turns. *)
Definition SystickHandler : M bool :=
  modify (λ s, set_s_ticks (wrap_i32 (s_ticks s + 1)) s);;
  bound ← gets (λ s, length (s_timeouts s));
  dirty ← while (S bound) SystickHandler_cond SystickHandler_body false;
  if dirty : bool then doSwitch else mret false.

(** [Scheduler::start]; the exception priorities, the vector table and
    the stack pointers it programs are outside the state. *)
Definition Scheduler_start (idle : Z) : M bool :=
  type ← CortexM.getType;
  assert_ ((type =? CortexM.M4) || (type =? CortexM.M7));;
  started ← gets s_isStarted;
  assert_ (negb started);;
  modify (set_s_isStarted true);;
  let ratio := 1000 in
  coreClock ← gets SystemCoreClock;
  modify (set_s_idle idle);;
  assert_ (coreClock mod ratio =? 0);;
  CortexM.enableSystick (coreClock / ratio);;
  doSwitch.

(** ** ConditionVariable.cpp *)

(** The two assertions at the head of [notify_one] and [notify_all]. *)
Definition notify_asserts (cv : CvId) : M unit :=
  m ← mutex (MutexOf cv);
  cp ← CortexM.currentPriority;
  assert_ (masked (default kServiceCallPriority cp)
           <=? masked (default kServiceCallPriority (mutex_priority m)));;
  assert_ (masked kServiceCallPriority
           <=? masked (default kServiceCallPriority (mutex_priority m))).

(** [ConditionVariable::notify_one]; the [std::lock_guard] unlocks on both
    ways out of the block. *)
Definition notify_one (cv : CvId) : M unit :=
  notify_asserts cv;;
  Mutex.lock (MutexOf cv);;
  c ← condition cv;
  match m_waitingList c with
  | [] => mret tt
  | t :: rest =>
      set_waitingList cv rest;;
      wakeUp t cv
  end;;
  Mutex.unlock (MutexOf cv).

(** The condition and the body of the loop of [notify_all]. *)
Definition notify_all_cond (cv : CvId) : M bool :=
  c ← condition cv;
  mret (negb (bool_decide (m_waitingList c = []))).

Definition notify_all_body (cv : CvId) (_ : unit) : M unit :=
  c ← condition cv;
  match m_waitingList c with
  | [] => assert_ false;; fail NullPointer
  | t :: rest =>
      set_waitingList cv rest;;
      wakeUp t cv
  end.

(** [ConditionVariable::notify_all]; every turn of the loop unlinks a task
    from the waiting list and links none. *)
Definition notify_all (cv : CvId) : M unit :=
  notify_asserts cv;;
  Mutex.lock (MutexOf cv);;
  c ← condition cv;
  while (S (length (m_waitingList c))) (notify_all_cond cv) (notify_all_body cv) tt;;
  Mutex.unlock (MutexOf cv).

(** The assertions at the head of the [wait] family; a mutex is passed as
    a null pointer when there is none. *)
Definition wait_asserts (cv : CvId) : M unit :=
  thread ← CortexM.inThreadMode;
  assert_ thread;;
  m ← mutex (MutexOf cv);
  assert_ (masked kServiceCallPriority
           <=? masked (default kServiceCallPriority (mutex_priority m))).

Definition mutex_address (m : option MutexId) : Z :=
  match m with Some a => address a | None => 0 end.

(** [ConditionVariable::wait()] and [wait(Mutex&)] *)
Definition wait (cv : CvId) (m : option MutexId) : M unit :=
  wait_asserts cv;;
  svc Wait (mkFrame (address cv) (wrap_u32 (-1)) (mutex_address m)).

(** [ConditionVariable::wait_for(duration)] and [wait_for(Mutex&, duration)];
    the status is read from [r0] once the task runs again. *)
Definition wait_for (cv : CvId) (m : option MutexId) (timeout : Z) : M unit :=
  wait_asserts cv;;
  svc Wait (mkFrame (address cv) (wrap_u32 timeout) (mutex_address m)).

(** [ConditionVariable::wait_until(time_point)] and
    [wait_until(Mutex&, time_point)] *)
Definition wait_until (cv : CvId) (m : option MutexId) (timeout_time : Z) : M unit :=
  n ← now;
  wait_for cv m (wrap_i32 (timeout_time - n)).

(** ** Task.cpp and opsy.hpp *)

(** [std::fill(base, base + size, v)] *)
Definition fill (base size : Z) (v : StackItem) (tcb : TaskControlBlock) :
    TaskControlBlock :=
  set_m_stack (foldr (λ i m, <[base + 4 * i := v]> m) (m_stack tcb)
                 (seqZ 0 size)) tcb.

(** What [TaskControlBlock::start] writes to the task control block and to
    its stack, between the exchange of [m_active] and [addTask]: the first
    frame and the first context of the task are built at the end of the
    stack; [this] is the address of the task control block. *)
Definition start_writes (this : Z) (entry : nat) (name : Z) (debug : bool)
    (tcb : TaskControlBlock) : TaskControlBlock :=
  let tcb := set_m_entry (Some entry) tcb in
  let tcb := set_m_name name tcb in
  let tcb := if debug then fill (m_stackBase tcb) (m_stackSize tcb) Dummy tcb
             else tcb in
  let tcb := set_m_stackPointer
               (m_stackBase tcb + 4 * (m_stackSize tcb - 1)) tcb in
  let tcb := write_item (m_stackBase tcb + 4 * (m_stackSize tcb - 1))
               (Word 0) tcb in
  let tcb := set_m_stackPointer
               (m_stackPointer tcb - 4 * sizeof_StackFrame) tcb in
  let frame := m_stackPointer tcb in
  let tcb := write_item (frame + 4 * 7) (Word (Z.shiftl 1 24)) tcb in (* psr *)
  let tcb := write_item (frame + 4 * 6) (CodePointer taskStarter 0) tcb in (* pc *)
  let tcb := write_item (frame + 4 * 5) (CodePointer terminateTask 2) tcb in (* lr *)
  let tcb := write_item frame (Word this) tcb in                   (* r0 *)
  let tcb := set_m_stackPointer
               (m_stackPointer tcb - 4 * sizeof_Context) tcb in
  let context := m_stackPointer tcb in
  let tcb := write_item (context + 4 * 1) (Word 2) tcb in      (* control *)
  write_item context (Word 4294967293) tcb.                    (* lr *)

(** [TaskControlBlock::start] *)
Definition TaskControlBlock_start (t : TaskId) (entry : nat) (name : Z) : M bool :=
  was ← exchange_active t true;
  if was : bool then mret false
  else
    dbg ← ifndef_NDEBUG;
    update_task t (start_writes (address t) entry name dbg);;
    addTask t;;
    mret true.

(** [TaskControlBlock::stop] *)
Definition stop (t : TaskId) : M bool :=
  started ← isStarted t;
  if negb started then mret false
  else svc Terminate (mkFrame (address t) 0 0);; mret true.

(** [TaskControlBlock::priority(Priority)] *)
Definition TaskControlBlock_priority (t : TaskId) (newPriority : Z) : M unit :=
  tcb ← task t;
  if newPriority =? m_priority tcb then mret tt
  else updatePriority t newPriority.

(** [sleep_for] *)
Definition sleep_for (t : Z) : M unit :=
  svc Sleep (mkFrame (wrap_u32 t) 0 0).

(** [sleep_until] *)
Definition sleep_until (tp : Z) : M unit :=
  n ← now;
  assert_ (wrap_i32 (tp - n) <? 3600000);;
  n' ← now;
  sleep_for (wrap_i32 (tp - n')).

(** ** The state at reset *)

(** No object has been touched, the scheduler statics hold their
    initialisers, the processor runs in thread mode with no interrupt
    masked. *)
Definition reset (type coreClock : Z) : State :=
  {| s_isStarted := false; s_ticks := Startup; s_allTasks := [];
     s_timeouts := []; s_ready := []; s_idling := false;
     s_mayNeedSwitch := false; s_idle := 0; s_previousTask := None;
     s_currentTask := None; s_nextTask := None; s_criticalSection := false;
     idle_stackPointer := 0; tasks := ∅; conditions := ∅; mutexes := ∅;
     basepri := 0; primask := false; isr := None; pendSv := false;
     systick := None; cortexType := type; SystemCoreClock := coreClock |}.

(** ** Notions used to state the properties *)

(** Ordered insertion with a comparison that cannot fail: the item goes
    in front of the first element it comes strictly before. *)
Fixpoint insert_ordered (before : TaskId → TaskId → bool) (item : TaskId)
    (l : list TaskId) : list TaskId :=
  match l with
  | [] => [item]
  | x :: rest =>
      if before item x then item :: l
      else x :: insert_ordered before item rest
  end.

(** The two comparators, on the tasks of a store. *)
Definition more_important (ts : gmap TaskId TaskControlBlock) (a b : TaskId) : bool :=
  priorityIsLower (ts !!! a) (ts !!! b).
Definition wakes_before (ts : gmap TaskId TaskControlBlock) (a b : TaskId) : bool :=
  default Startup (m_waitUntil (ts !!! a)) <? default Startup (m_waitUntil (ts !!! b)).

(** A list is in priority order when no element is more important than an
    element in front of it: priorities ascend and, among equal priorities,
    [m_lastStarted] ascends.  Likewise for the deadlines. *)
Definition by_priority (ts : gmap TaskId TaskControlBlock) : relation TaskId :=
  λ a b, more_important ts b a = false.
Definition by_deadline (ts : gmap TaskId TaskControlBlock) : relation TaskId :=
  λ a b, wakes_before ts b a = false.
Definition priority_ordered (ts : gmap TaskId TaskControlBlock) (l : list TaskId) : Prop :=
  StronglySorted (by_priority ts) l.
Definition deadline_ordered (ts : gmap TaskId TaskControlBlock) (l : list TaskId) : Prop :=
  StronglySorted (by_deadline ts) l.

(** The ready queue once a task pointer has been put back in it. *)
Definition requeue (ts : gmap TaskId TaskControlBlock) (t : option TaskId)
    (l : list TaskId) : list TaskId :=
  match t with
  | Some x => insert_ordered (more_important ts) x l
  | None => l
  end.

Definition pointer_list (t : option TaskId) : list TaskId :=
  match t with Some x => [x] | None => [] end.

(** Three started tasks of priorities 0, 5 and 10; the first one runs, the
    other two are ready. *)
Definition demo_task (priority : Z) : TaskControlBlock :=
  set_m_active true (set_m_priority priority (newTCB 0 64)).
Definition demo_tasks : gmap TaskId TaskControlBlock :=
  <[1%positive := demo_task 0]> (<[2%positive := demo_task 5]>
    (<[3%positive := demo_task 10]> ∅)).
Definition demo : State :=
  set_s_isStarted true (set_s_currentTask (Some 1%positive)
    (set_s_previousTask (Some 1%positive)
      (set_s_ready [2%positive; 3%positive]
        (set_s_allTasks [3%positive; 2%positive; 1%positive]
          (set_tasks demo_tasks (reset CortexM.M4 16000000)))))).

(** What [notify_one] and [notify_all] are claimed to leave alone. *)
Definition unchanged_by_notify (s s' : State) : Prop :=
  (∀ cv, m_waitingList (conditions s' !!! cv) = m_waitingList (conditions s !!! cv))
  ∧ s_ready s' = s_ready s
  ∧ s_timeouts s' = s_timeouts s
  ∧ tasks s' = tasks s
  ∧ s_previousTask s' = s_previousTask s
  ∧ s_currentTask s' = s_currentTask s
  ∧ s_nextTask s' = s_nextTask s
  ∧ pendSv s' = pendSv s
  ∧ s_mayNeedSwitch s' = s_mayNeedSwitch s
  ∧ s_criticalSection s' = s_criticalSection s.

(** What the assertions on the way through [notify_one] and [notify_all]
    check when the waiting list is empty: the handle kept in the mutex of
    the condition variable is invalid; a task-only mutex is taken from
    thread mode; a mutex with a priority is not more urgent than the
    service call, is not below the mask already in place, and is taken
    from thread mode or from a handler of its own preemption level. *)
Definition notify_contract (cv : CvId) (s : State) : Prop :=
  let m := m_mutex_cv (conditions s !!! cv) in
  m_criticalSection m = false
  ∧ match mutex_priority m with
    | None => isr s = None
    | Some p =>
        masked kServiceCallPriority ≤ masked p
        ∧ masked (wrap_u8 (basepri s)) ≤ masked p
        ∧ match isr s with
          | None => True
          | Some c => masked c = masked p
          end
    end.

(** The object a mutex reference denotes. *)
Definition mutex_at (r : MutexRef) (s : State) : PriorityMutex :=
  match r with
  | MutexAt m => mutexes s !!! m
  | MutexOf cv => m_mutex_cv (conditions s !!! cv)
  end.

(** The outcome of [doSwitch] outside a critical section, in closed form. *)
Definition doSwitch_outcome (s : State) : Outcome bool :=
  match requeue (tasks s) (s_currentTask s)
          (requeue (tasks s) (s_nextTask s) (s_ready s)) with
  | [] =>
      Done true (set_pendSv true (set_s_ready []
        (set_s_currentTask None (set_s_nextTask None s))))
  | front :: rest =>
      if bool_decide (Some front = s_currentTask s) then
        Done false (set_s_ready rest
          (set_s_currentTask (Some front) (set_s_nextTask None s)))
      else
        Done true (set_pendSv true (set_s_ready rest
          (set_s_currentTask None (set_s_nextTask (Some front) s))))
  end.

(** What [doSwitch] does not touch. *)
Definition doSwitch_keeps (s s' : State) : Prop :=
  tasks s' = tasks s ∧ conditions s' = conditions s ∧ mutexes s' = mutexes s
  ∧ s_timeouts s' = s_timeouts s ∧ s_allTasks s' = s_allTasks s
  ∧ s_ticks s' = s_ticks s ∧ s_isStarted s' = s_isStarted s
  ∧ s_criticalSection s' = s_criticalSection s
  ∧ basepri s' = basepri s ∧ primask s' = primask s ∧ isr s' = isr s
  ∧ s_previousTask s' = s_previousTask s.

(** What [Terminate] has done to the state [s] when it has unlinked the
    task [t], before it looks at [s_currentTask]. *)
Definition terminated (t : TaskId) (s s' : State) : Prop :=
  is_Some (tasks s' !! t)
  ∧ m_active (tasks s' !!! t) = false
  ∧ m_waitUntil (tasks s' !!! t) = None
  ∧ m_waiting (tasks s' !!! t) = None
  ∧ (∀ t', t' ≠ t → tasks s' !!! t' = tasks s !!! t')
  ∧ s_allTasks s' = EmbeddedList.erase t (s_allTasks s)
  ∧ s_timeouts s' = EmbeddedList.erase t (s_timeouts s)
  ∧ (∀ cv, t ∉ m_waitingList (conditions s' !!! cv))
  ∧ s_nextTask s' = s_nextTask s
  ∧ s_isStarted s' = s_isStarted s
  ∧ s_criticalSection s' = s_criticalSection s.

(** The node that links a task in the ready queue is the one that links it
    in a waiting list.  [m_waiting] may outlive the wait: the tick handler
    does not clear it when the wait times out.  [Terminate] erases the task
    from the waiting list [m_waiting] points to; the erasure on sequences
    tells what becomes of the lists when the task is in that list, or in
    no list of this kind at all, that is, not in the ready queue. *)
Definition waiting_node_at_rest (t : TaskId) (s : State) : Prop :=
  m_waiting (tasks s !!! t) ≠ None → t ∉ s_ready s.

(** The waiting lists lose the task and no other, and the ready queue is
    as it was. *)
Definition waiting_nodes_kept (t : TaskId) (s s' : State) : Prop :=
  (∀ cv, m_waitingList (conditions s' !!! cv)
         = EmbeddedList.erase t (m_waitingList (conditions s !!! cv)))
  ∧ s_ready s' = s_ready s.

(** What [assert] checks on the way through the first [Scheduler::start]. *)
Definition start_contract (s : State) : Prop :=
  (cortexType s = CortexM.M4 ∨ cortexType s = CortexM.M7)
  ∧ SystemCoreClock s mod 1000 = 0
  ∧ 0 < SystemCoreClock s / 1000 ≤ CortexM.SystickReloadMask + 1.

(** What [assert] checks on the way through [Sleep]. *)
Definition sleep_contract (isThread : bool) (s : State) : Prop :=
  isThread = true
  ∧ s_criticalSection s = false
  ∧ ∀ x, x ∈ s_timeouts s → m_waitUntil (tasks s !!! x) ≠ None.

(** The frame [setReturnValue] reaches from the stack pointer saved in a
    task: it lies above the saved context, whose first word, the link
    register at exception entry, tells whether a floating point context
    was saved too.  There is none when no stack pointer is saved or when
    that word holds no number. *)
Definition saved_frame (tcb : TaskControlBlock) : option Z :=
  if m_stackPointer tcb =? 0 then None
  else
    match m_stack tcb !!! m_stackPointer tcb with
    | Word lr =>
        Some (if Z.land lr kFpFlag =? 0
              then m_stackPointer tcb + 4 * (sizeof_Context + sizeof_FpContext)
              else m_stackPointer tcb + 4 * sizeof_Context)
    | _ => None
    end.

(** [r0] of that frame: what a task that is resumed from the stack pointer
    saved in it finds in [r0]. *)
Definition saved_r0 (tcb : TaskControlBlock) : option StackItem :=
  (λ frame, m_stack tcb !!! frame) <$> saved_frame tcb.

(** The stack of [tcb'] is the one of [tcb] but for [r0] of the saved
    frame. *)
Definition same_stack_but_r0 (tcb tcb' : TaskControlBlock) : Prop :=
  m_stackPointer tcb' = m_stackPointer tcb
  ∧ saved_frame tcb' = saved_frame tcb
  ∧ ∀ a, saved_frame tcb ≠ Some a → m_stack tcb' !!! a = m_stack tcb !!! a.

(** The state [wakeUp] hands to [doSwitch], for a task [t] woken from the
    condition variable [cv]. *)
Definition woken (t : TaskId) (cv : CvId) (s s' : State) : Prop :=
  m_waitingList (conditions s' !!! cv)
  = EmbeddedList.erase t (m_waitingList (conditions s !!! cv))
  ∧ (∀ cv', cv' ≠ cv → conditions s' !!! cv' = conditions s !!! cv')
  ∧ m_waiting (tasks s' !!! t) = None
  ∧ saved_r0 (tasks s' !!! t) = Some (Word cv_status.no_timeout)
  ∧ same_stack_but_r0 (tasks s !!! t) (tasks s' !!! t)
  ∧ m_waitUntil (tasks s' !!! t) = None
  ∧ s_timeouts s'
    = (if has_value (m_waitUntil (tasks s !!! t))
       then EmbeddedList.erase t (s_timeouts s) else s_timeouts s)
  ∧ s_ready s' = insert_ordered (more_important (tasks s')) t (s_ready s)
  ∧ m_priority (tasks s' !!! t) = m_priority (tasks s !!! t)
  ∧ m_lastStarted (tasks s' !!! t) = m_lastStarted (tasks s !!! t)
  ∧ m_active (tasks s' !!! t) = m_active (tasks s !!! t)
  ∧ (∀ t', t' ≠ t → tasks s' !!! t' = tasks s !!! t')
  ∧ s_currentTask s' = s_currentTask s
  ∧ s_nextTask s' = s_nextTask s
  ∧ basepri s' = kServiceCallPriority.

(** Task 3 of [demo] waits on the condition variable at address 7, until
    tick 50.  Its context was saved at address 100, with no floating point
    context, below the frame of its call of [wait_for], where [r0] holds
    the address of the condition variable. *)
Definition demo_waiting : State :=
  set_conditions (<[7%positive := mkCV (newMutex None) [3%positive]]> ∅)
    (set_s_timeouts [3%positive] (set_s_ready [2%positive]
      (set_tasks
         (<[3%positive :=
              set_m_stack (<[100 := Word 4294967293]> (<[140 := Word 7]> ∅))
                (set_m_stackPointer 100
                   (set_m_waiting (Some 7%positive)
                      (set_m_waitUntil (Some 50) (demo_task 10))))]>
            demo_tasks)
         demo))).

(** What [assert] checks on the way through [wait_until], [wait_for] and
    [wait], called by a task with the mutex [m] (or none). *)
Definition wait_contract (cv : CvId) (m : option MutexId) (s : State) : Prop :=
  s_isStarted s = true
  ∧ isr s = None
  ∧ masked kServiceCallPriority
    ≤ masked (default kServiceCallPriority
                (mutex_priority (m_mutex_cv (conditions s !!! cv))))
  ∧ match m with
    | None => True
    | Some mx =>
        s_criticalSection s = true
        ∧ m_locked (mutexes s !!! mx) = true
        ∧ m_criticalSection (mutexes s !!! mx) = true
        ∧ match mutex_priority (mutexes s !!! mx) with
          | None => True
          | Some p =>
              if p =? 0 then primask s = true
              else masked (wrap_u8 (basepri s)) = masked p
          end
    end.

(** The state the [Wait] handler hands to [doSwitch] when it sets no
    deadline. *)
Definition waiting_no_deadline (c : TaskId) (cv : CvId) (s s' : State) : Prop :=
  s_timeouts s' = s_timeouts s
  ∧ m_waitUntil (tasks s' !!! c) = m_waitUntil (tasks s !!! c)
  ∧ m_waiting (tasks s' !!! c) = Some cv
  ∧ m_waitingList (conditions s' !!! cv)
    ≡ₚ c :: m_waitingList (conditions s !!! cv)
  ∧ (priority_ordered (tasks s) (m_waitingList (conditions s !!! cv)) →
     priority_ordered (tasks s') (m_waitingList (conditions s' !!! cv)))
  ∧ s_ready s' = s_ready s
  ∧ s_currentTask s' = None
  ∧ s_ticks s' = s_ticks s.

(** The state the [Wait] handler hands to [doSwitch] when it sets the
    deadline [deadline]. *)
Definition waiting_with_deadline (c : TaskId) (cv : CvId) (deadline : Z)
    (s s' : State) : Prop :=
  m_waitUntil (tasks s' !!! c) = Some deadline
  ∧ s_timeouts s' = insert_ordered (wakes_before (tasks s')) c (s_timeouts s)
  ∧ m_waiting (tasks s' !!! c) = Some cv
  ∧ m_waitingList (conditions s' !!! cv)
    ≡ₚ c :: m_waitingList (conditions s !!! cv)
  ∧ s_ready s' = s_ready s
  ∧ s_currentTask s' = None
  ∧ s_ticks s' = s_ticks s.

(** The tasks in front of the timeout queue [l] whose deadline is not
    after [now]: the ones the loop of the tick handler unlinks. *)
Fixpoint expired (ts : gmap TaskId TaskControlBlock) (now : Z)
    (l : list TaskId) : list TaskId :=
  match l with
  | [] => []
  | t :: rest =>
      match m_waitUntil (ts !!! t) with
      | Some deadline =>
          if deadline <=? now then t :: expired ts now rest else []
      | None => []
      end
  end.

(** What the loop of the tick handler has done to the state [s] when it
    has unlinked the tasks [unlinked] from the timeout queue. *)
Definition promoted (unlinked : list TaskId) (s s1 : State) : Prop :=
  (∀ t, t ∈ unlinked →
     m_waitUntil (tasks s1 !!! t) = None
     ∧ m_waiting (tasks s1 !!! t) = m_waiting (tasks s !!! t)
     ∧ m_priority (tasks s1 !!! t) = m_priority (tasks s !!! t)
     ∧ m_lastStarted (tasks s1 !!! t) = m_lastStarted (tasks s !!! t)
     ∧ match m_waiting (tasks s !!! t) with
       | Some cv =>
           (t ∉ m_waitingList (conditions s1 !!! cv))
           ∧ saved_r0 (tasks s1 !!! t) = Some (Word cv_status.timeout)
           ∧ same_stack_but_r0 (tasks s !!! t) (tasks s1 !!! t)
       | None =>
           m_stackPointer (tasks s1 !!! t) = m_stackPointer (tasks s !!! t)
           ∧ m_stack (tasks s1 !!! t) = m_stack (tasks s !!! t)
       end)
  ∧ (∀ t, t ∉ unlinked → tasks s1 !!! t = tasks s !!! t)
  ∧ (∀ cv t, t ∈ m_waitingList (conditions s1 !!! cv) →
             t ∈ m_waitingList (conditions s !!! cv))
  ∧ (∀ cv t, t ∉ unlinked → t ∈ m_waitingList (conditions s !!! cv) →
             t ∈ m_waitingList (conditions s1 !!! cv))
  ∧ s_ready s1 ≡ₚ unlinked ++ s_ready s
  ∧ (priority_ordered (tasks s) (s_ready s) →
     priority_ordered (tasks s1) (s_ready s1))
  ∧ s_currentTask s1 = s_currentTask s
  ∧ s_nextTask s1 = s_nextTask s
  ∧ s_allTasks s1 = s_allTasks s
  ∧ s_isStarted s1 = s_isStarted s
  ∧ s_criticalSection s1 = s_criticalSection s.

(** One task object, not started, with a stack of 64 words at address
    4096, and a condition variable whose mutex has the priority of the
    service call, on the state at reset. *)
Definition one_task : State :=
  set_conditions
    (<[7%positive := mkCV (newMutex (Some kServiceCallPriority)) []]> ∅)
    (set_tasks (<[1%positive := newTCB 4096 64]> ∅)
       (reset CortexM.M4 16000000)).

(** A task that is notified before PendSV has switched it out.  Task 1 is
    started, the scheduler is started and PendSV runs, which resumes task 1
    from its first context, at 4276.  Task 1 calls [wait_for(100)]:
    exception entry stacks its registers at 4200, [r0] holding the address
    of the condition variable, and the handler of [Wait] requests PendSV.
    An interrupt of the preemption level of the kernel, pending by then, is
    served first, and its handler calls [notify_one].  PendSV comes next:
    its entry code saves the context of task 1 below the frame, at 4160,
    and hands that address to [pendSvHandler]; the result is the stack
    pointer the task is resumed from. *)
Definition notified_before_PendSV : M Z :=
  TaskControlBlock_start 1 1 0;;
  Scheduler_start 0;;
  pendSvHandler 0;;
  store 1 4200 (Word (address 7));;
  wait_for 7 None 100;;
  modify (set_isr (Some kServiceCallPriority));;
  notify_one 7;;
  modify (set_isr None);;
  store 1 4160 (Word 4294967293);;
  pendSvHandler 4160.

(** Three task objects, not started, on the state at reset. *)
Definition three_tasks : State :=
  set_tasks (<[1%positive := newTCB 4096 64]> (<[2%positive := newTCB 8192 64]>
              (<[3%positive := newTCB 12288 64]> ∅)))
    (reset CortexM.M4 16000000).

(** The tasks get the priorities 0, 5 and 10 and are started, the
    scheduler is started and PendSV runs, which makes task 1 the current
    one; task 1 then stops task 2 and gives it the lowest priority. *)
Definition stop_then_lower : M unit :=
  TaskControlBlock_priority 1 0;;
  TaskControlBlock_priority 2 5;;
  TaskControlBlock_priority 3 10;;
  TaskControlBlock_start 1 1 0;;
  TaskControlBlock_start 2 2 0;;
  TaskControlBlock_start 3 3 0;;
  Scheduler_start 0;;
  pendSvHandler 0;;
  stop 2;;
  TaskControlBlock_priority 2 Lowest.

(** Task 1 then sleeps, and PendSV runs. *)
Definition then_sleep : M Z :=
  stop_then_lower;;
  sleep_for 10;;
  pendSvHandler 0.

(** ** IsrPriority.hpp: the two parts of a priority *)

(** [preempt<PreemptBits>()] *)
Definition IsrPriority_preempt (PreemptBits value : Z) : Z :=
  wrap_u8 (Z.shiftr value (IsrPriority.kMaxPreemptionBits - PreemptBits)).

(** [sub<PreemptBits>()]: in [1 << ((kMaxPreemptionBits - PreemptBits)) - 1]
    the subtraction binds tighter than the shift. *)
Definition IsrPriority_sub (PreemptBits value : Z) : Z :=
  wrap_u8
    (Z.land value
       (Z.shiftl 1 (IsrPriority.kMaxPreemptionBits - PreemptBits - 1))).

(** ** EmbeddedList.hpp, on the nodes *)

Module Nodes.

(** [EmbeddedNode<Item>]: the two links an item carries for one
    [Interface]. *)
Record EmbeddedNode := mkNode {
  m_previous : option TaskId;
  m_next : option TaskId
}.

#[global] Instance EmbeddedNode_inhabited : Inhabited EmbeddedNode :=
  populate (mkNode None None).

(** The members of an [EmbeddedList]. *)
Record EmbeddedList := mkList {
  m_first : option TaskId;
  m_size : Z                      (* uint32_t *)
}.

#[global] Instance EmbeddedList_inhabited : Inhabited EmbeddedList :=
  populate (mkList None 0).

Abbreviation ListId := positive.

(** The nodes of the items for one [Interface] and the lists of that
    interface, by address. *)
Record Memory := mkMemory {
  nodes : gmap TaskId EmbeddedNode;
  lists : gmap ListId EmbeddedList
}.

Inductive Result (A : Type) :=
| Returned (a : A) (m : Memory)
| Halted (f : Failure).
Arguments Returned {A} a m.
Arguments Halted {A} f.

(** A member function reads the build kind and works on the memory. *)
Definition L (A : Type) : Type := bool → Memory → Result A.

#[global] Instance L_ret : MRet L := λ A a _ m, Returned a m.
#[global] Instance L_bind : MBind L := λ A B k c debug m,
  match c debug m with
  | Returned a m' => k a debug m'
  | Halted f => Halted f
  end.

Definition read {A} (f : Memory → A) : L A := λ _ m, Returned (f m) m.
Definition write (f : Memory → Memory) : L unit := λ _ m, Returned tt (f m).
Definition halt {A} (f : Failure) : L A := λ _ _, Halted f.

(** [assert(e)]: a release build does not evaluate [e]. *)
Definition assert_ (e : L bool) : L unit := λ debug m,
  if debug then
    match e debug m with
    | Returned b m' => if b then Returned tt m' else Halted AssertionFailed
    | Halted f => Halted f
    end
  else Returned tt m.

(** [m_ptr->] *)
Definition deref (p : option TaskId) : L TaskId :=
  match p with Some a => mret a | None => halt NullPointer end.

(** A loop whose condition reads the local variables [a]. *)
Fixpoint while {A} (fuel : nat) (cond : A → L bool) (body : A → L A) (a : A) : L A :=
  match fuel with
  | O => halt OutOfFuel
  | S fuel' =>
      b ← cond a;
      if b : bool then a' ← body a; while fuel' cond body a' else mret a
  end.

(** A walk along more links than there are nodes with a link has met a
    node twice, and goes on for ever: this many turns are enough for every
    loop that ends. *)
Definition turns : L nat := read (λ m, S (S (size (nodes m)))).

Definition node (p : TaskId) : L EmbeddedNode := read (λ m, nodes m !!! p).
Definition set_node (p : TaskId) (f : EmbeddedNode → EmbeddedNode) : L unit :=
  write (λ m, mkMemory (<[p := f (nodes m !!! p)]> (nodes m)) (lists m)).

(** *** [EmbeddedIterator]: [m_ptr] *)

Abbreviation iterator := (option TaskId).

Definition not_null (i : iterator) : L bool := mret (bool_decide (i ≠ None)).

Definition reset (i : iterator) : L unit :=
  assert_ (not_null i);;
  p ← deref i;
  set_node p (λ _, mkNode None None).

Definition set_next (i : iterator) (ptr : option TaskId) : L unit :=
  assert_ (not_null i);;
  p ← deref i;
  set_node p (λ n, mkNode (m_previous n) ptr).

Definition set_previous (i : iterator) (ptr : option TaskId) : L unit :=
  assert_ (not_null i);;
  p ← deref i;
  set_node p (λ n, mkNode ptr (m_next n)).

Definition next (i : iterator) : L (option TaskId) :=
  assert_ (not_null i);;
  p ← deref i;
  n ← node p;
  mret (m_next n).

Definition previous (i : iterator) : L (option TaskId) :=
  assert_ (not_null i);;
  p ← deref i;
  n ← node p;
  mret (m_previous n).

Definition is_free (i : iterator) : L bool :=
  assert_ (not_null i);;
  pv ← previous i;
  if bool_decide (pv = None) then
    nx ← next i;
    mret (bool_decide (nx = None))
  else mret false.

(** *** [EmbeddedList] *)

Definition comparator : Type := TaskId → TaskId → L bool.

Definition list (this : ListId) : L EmbeddedList :=
  read (λ m, lists m !!! this).
Definition set_m_first (this : ListId) (v : option TaskId) : L unit :=
  write (λ m, mkMemory (nodes m)
    (<[this := mkList v (m_size (lists m !!! this))]> (lists m))).
Definition set_m_size (this : ListId) (v : Z) : L unit :=
  write (λ m, mkMemory (nodes m)
    (<[this := mkList (m_first (lists m !!! this)) v]> (lists m))).

(** [++m_size] and [--m_size] *)
Definition increment_size (this : ListId) : L unit :=
  l ← list this;
  set_m_size this (wrap_u32 (m_size l + 1)).
Definition decrement_size (this : ListId) : L unit :=
  l ← list this;
  set_m_size this (wrap_u32 (m_size l - 1)).

Definition empty (this : ListId) : L bool :=
  assert_ (l ← list this;
           mret (xorb (bool_decide (m_first l = None))
                      (negb (m_size l =? 0))));;
  l ← list this;
  mret (bool_decide (m_first l = None)).

Definition begin (this : ListId) : L iterator :=
  l ← list this;
  mret (m_first l).

Definition end_ : L iterator := mret None.

Definition size (this : ListId) : L Z :=
  l ← list this;
  mret (m_size l).

Definition push_front (this : ListId) (item : TaskId) : L unit :=
  assert_ (is_free (Some item));;
  first ← begin this;
  set_next (Some item) first;;
  e ← empty this;
  (if e : bool then mret tt
   else b ← begin this; set_previous b (Some item));;
  set_m_first this (Some item);;
  increment_size this.

Definition pop_front (this : ListId) : L unit :=
  assert_ (e ← empty this; mret (negb e));;
  assert_ (first ← begin this;
           pv ← previous first;
           mret (bool_decide (pv = None)));;
  i ← begin this;
  nx ← next i;
  set_m_first this nx;;
  reset i;;
  decrement_size this;;
  e ← empty this;
  if e : bool then mret tt
  else b ← begin this; set_previous b None.

(** [front]: the result is the address of the item the reference it
    returns is bound to; [*m_first] reads nothing. *)
Definition front (this : ListId) : L iterator :=
  assert_ (e ← empty this; mret (negb e));;
  begin this.

Definition erase (this : ListId) (item : TaskId) : L iterator :=
  let i := Some item in
  e ← empty this;
  if e : bool then end_
  else
    pv ← previous i;
    if bool_decide (pv = None) then
      nx ← next i;
      if bool_decide (nx = None) then
        first ← begin this;
        (if bool_decide (first = i) then
           set_m_first this None;;
           decrement_size this
         else mret tt);;
        end_
      else
        nx' ← next i;
        set_m_first this nx';;
        set_next i None;;
        first ← begin this;
        set_previous first None;;
        decrement_size this;;
        begin this
    else
      nx ← next i;
      pv' ← previous i;
      set_next pv' nx;;
      (if bool_decide (nx ≠ None) then
         pv'' ← previous i;
         set_previous nx pv''
       else mret tt);;
      reset i;;
      decrement_size this;;
      mret nx.

Definition insert (this : ListId) (previous_ : iterator) (item : TaskId) :
    L iterator :=
  assert_ (is_free (Some item));;
  increment_size this;;
  e ← empty this;
  if e || bool_decide (previous_ = None) then
    push_front this item;;
    mret (Some item)
  else
    let i := Some item in
    nx ← next previous_;
    set_next i nx;;
    set_previous i previous_;;
    set_next previous_ i;;
    (if bool_decide (nx ≠ None) then set_previous nx i else mret tt);;
    mret (Some item).

(** The loop of [insertWhen]: [previous] and [current] are its local
    variables. *)
Definition insertWhen_cond (predicate : comparator) (item : TaskId)
    (a : iterator * iterator) : L bool :=
  if bool_decide (a.2 ≠ None) then
    c ← deref a.2;
    b ← predicate item c;
    mret (negb b)
  else mret false.

Definition insertWhen_body (a : iterator * iterator) :
    L (iterator * iterator) :=
  c ← next a.2;
  mret (a.2, c).

Definition insertWhen (this : ListId) (predicate : comparator)
    (item : TaskId) : L iterator :=
  e ← empty this;
  b ← (if e : bool then mret true
       else first ← begin this; f ← deref first; predicate item f);
  if b : bool then
    push_front this item;;
    begin this
  else
    previous_ ← begin this;
    current ← next previous_;
    fuel ← turns;
    a ← while fuel (insertWhen_cond predicate item) insertWhen_body
          (previous_, current);
    insert this a.1 item.

End Nodes.

(** The links [m_next] and [m_previous] lead through the sequence [l] from
    [first] to [stop], the node before [first] being [prev]. *)
Fixpoint chain (ns : gmap TaskId Nodes.EmbeddedNode)
    (prev first : option TaskId) (l : list TaskId) (stop : option TaskId) : Prop :=
  match l with
  | [] => first = stop
  | x :: l' =>
      first = Some x
      ∧ Nodes.m_previous (ns !!! x) = prev
      ∧ chain ns (Some x) (Nodes.m_next (ns !!! x)) l' stop
  end.

(** The list at [this] holds the sequence [l]: its nodes are linked from
    [m_first] in both directions, each once, and [m_size] counts them. *)
Definition represents (m : Nodes.Memory) (this : Nodes.ListId)
    (l : list TaskId) : Prop :=
  NoDup l
  ∧ chain (Nodes.nodes m) None (Nodes.m_first (Nodes.lists m !!! this)) l None
  ∧ Nodes.m_size (Nodes.lists m !!! this) = Z.of_nat (length l)
  ∧ Z.of_nat (length l) < 2 ^ 32.

(** The node of the item has no link. *)
Definition unlinked (m : Nodes.Memory) (item : TaskId) : Prop :=
  Nodes.nodes m !!! item = Nodes.mkNode None None.

(** The nodes outside [l] and the lists other than [this] are the same in
    [m] and [m']. *)
Definition same_outside (this : Nodes.ListId) (l : list TaskId)
    (m m' : Nodes.Memory) : Prop :=
  (∀ x, x ∉ l → Nodes.nodes m' !!! x = Nodes.nodes m !!! x)
  ∧ ∀ other, other ≠ this → Nodes.lists m' !!! other = Nodes.lists m !!! other.

(** Two lists of one interface: the list at address 1 holds the items 2
    and 3, the list at address 4 the items 5, 6 and 8; the items 7 and 9 are in
    no list. *)
Definition two_lists : Nodes.Memory :=
  Nodes.mkMemory
    (<[2%positive := Nodes.mkNode None (Some 3%positive)]>
       (<[3%positive := Nodes.mkNode (Some 2%positive) None]>
          (<[5%positive := Nodes.mkNode None (Some 6%positive)]>
             (<[6%positive := Nodes.mkNode (Some 5%positive) (Some 8%positive)]>
                (<[8%positive := Nodes.mkNode (Some 6%positive) None]> ∅)))))
    (<[1%positive := Nodes.mkList (Some 2%positive) 2]>
       (<[4%positive := Nodes.mkList (Some 5%positive) 3]> ∅)).

(** A comparison of the addresses, for the examples. *)
Definition lower_address : Nodes.comparator :=
  λ a b, mret (Pos.ltb a b).

(** What [lock] asserts on a mutex that holds no critical section, called
    outside any critical section with no interrupt masked by PRIMASK and
    no switch pending: a task-only mutex is taken from thread mode; a
    mutex with a priority is not taken from a handler that is more urgent
    than it, nor under a mask that is. *)
Definition lock_contract (m : PriorityMutex) (s : State) : Prop :=
  s_criticalSection s = false
  ∧ s_mayNeedSwitch s = false
  ∧ primask s = false
  ∧ 0 ≤ basepri s < 256
  ∧ m_criticalSection m = false
  ∧ match mutex_priority m with
    | None => isr s = None
    | Some p =>
        p = 0
        ∨ (masked (basepri s) ≤ masked p
           ∧ ∀ c, isr s = Some c → masked p ≤ masked c)
    end.

(** The mutex once it has been locked and unlocked: what [lock] wrote is
    still there. *)
Definition used_mutex (m : PriorityMutex) (s : State) : PriorityMutex :=
  mkMutex true
    (match mutex_priority m with
     | Some p => if p =? 0 then m_previousLock m else basepri s
     | None => m_previousLock m
     end)
    false (mutex_priority m).

(** * Properties *)

(** ** Stepping through the monad *)

(** The setters unfold under [cbn] and [simpl], so that a state that went
    through several updates is displayed, and compared, field by field. *)
Arguments set_s_isStarted v s /.
Arguments set_s_ticks v s /.
Arguments set_s_allTasks v s /.
Arguments set_s_timeouts v s /.
Arguments set_s_ready v s /.
Arguments set_s_idling v s /.
Arguments set_s_mayNeedSwitch v s /.
Arguments set_s_idle v s /.
Arguments set_s_previousTask v s /.
Arguments set_s_currentTask v s /.
Arguments set_s_nextTask v s /.
Arguments set_s_criticalSection v s /.
Arguments set_idle_stackPointer v s /.
Arguments set_tasks v s /.
Arguments set_conditions v s /.
Arguments set_mutexes v s /.
Arguments set_basepri v s /.
Arguments set_primask v s /.
Arguments set_isr v s /.
Arguments set_pendSv v s /.
Arguments set_systick v s /.
Arguments set_cortexType v s /.
Arguments set_SystemCoreClock v s /.
Arguments Mutex.set_locked v m /.
Arguments Mutex.set_previousLock v m /.
Arguments Mutex.set_criticalSection v m /.


Ltac mred := unfold mbind, M_bind, gets, modify, mret, M_ret, when; cbn.

(** Equality of two states that differ by rewriting with the hypotheses. *)
Ltac state_eq :=
  repeat match goal with s : State |- _ => destruct s end;
  cbn in *; simplify_eq; reflexivity.

Lemma assert_release b s : assert_ b false s = Done tt s.
Proof. by destruct b. Qed.

Lemma masked_kServiceCallPriority : masked kServiceCallPriority = 64.
Proof. reflexivity. Qed.

Lemma wrap_u8_masked p : wrap_u8 (masked p) = masked p.
Proof.
  unfold masked, IsrPriority.maskedValue, wrap_u8.
  change (Z.shiftl _ _ mod 2 ^ 8) with 192.
  rewrite <- (Z.land_ones _ 8) by lia.
  rewrite <- Z.land_assoc. reflexivity.
Qed.

Lemma masked_idem p : masked (masked p) = masked p.
Proof.
  unfold masked, IsrPriority.maskedValue.
  by rewrite <- Z.land_assoc, Z.land_diag.
Qed.

Lemma tasks_insert_eq (m : gmap TaskId TaskControlBlock) i x :
  <[i:=x]> m !!! i = x.
Proof. apply lookup_total_insert_eq. Qed.
Lemma conditions_insert_eq (m : gmap CvId ConditionVariable) i x :
  <[i:=x]> m !!! i = x.
Proof. apply lookup_total_insert_eq. Qed.
Lemma mutexes_insert_eq (m : gmap MutexId PriorityMutex) i x :
  <[i:=x]> m !!! i = x.
Proof. apply lookup_total_insert_eq. Qed.
Lemma tasks_insert_insert (m : gmap TaskId TaskControlBlock) i x y :
  <[i:=x]> (<[i:=y]> m) = <[i:=x]> m.
Proof. apply insert_insert_eq. Qed.
Lemma conditions_insert_insert (m : gmap CvId ConditionVariable) i x y :
  <[i:=x]> (<[i:=y]> m) = <[i:=x]> m.
Proof. apply insert_insert_eq. Qed.
Lemma mutexes_insert_insert (m : gmap MutexId PriorityMutex) i x y :
  <[i:=x]> (<[i:=y]> m) = <[i:=x]> m.
Proof. apply insert_insert_eq. Qed.

Create Rewrite HintDb kernel.
#[global] Hint Rewrite masked_kServiceCallPriority
  tasks_insert_eq conditions_insert_eq mutexes_insert_eq
  tasks_insert_insert conditions_insert_insert mutexes_insert_insert
  Z.leb_refl Z.eqb_refl wrap_u8_masked masked_idem : kernel.

Lemma assert_true debug s : assert_ true debug s = Done tt s.
Proof. reflexivity. Qed.

Lemma assert_false s : assert_ false true s = Failed AssertionFailed.
Proof. reflexivity. Qed.

Lemma negb_true : negb true = false.
Proof. reflexivity. Qed.
Lemma negb_false : negb false = true.
Proof. reflexivity. Qed.

#[global] Hint Rewrite negb_true negb_false
  orb_true_r orb_true_l orb_false_r orb_false_l
  andb_true_r andb_true_l andb_false_r andb_false_l : kernel.

Arguments masked : simpl never.
Arguments assert_ : simpl never.

(** Symbolic execution: unfold the kernel functions, then compute and
    rewrite the lookups until nothing moves. *)
Lemma mutex_eq r debug s : mutex r debug s = Done (mutex_at r s) s.
Proof. by destruct r. Qed.
Lemma mutex_MutexAt m debug s :
  mutex (MutexAt m) debug s = Done (mutexes s !!! m) s.
Proof. reflexivity. Qed.
Lemma mutex_MutexOf cv debug s :
  mutex (MutexOf cv) debug s = Done (m_mutex_cv (conditions s !!! cv)) s.
Proof. reflexivity. Qed.

Ltac rewrite_lookups :=
  repeat match goal with
         | H : _ !!! _ = _ |- _ => rewrite H
         | H : _ = true |- _ => rewrite H
         | H : _ = false |- _ => rewrite H
         | H : _ = Some _ |- _ => rewrite H
         | H : _ = None |- _ => rewrite H
         | H : _ = [] |- _ => rewrite H
         | H : _ = _ :: _ |- _ => rewrite H
         end.
(** Projections of updated task control blocks. *)
Ltac tcb_red :=
  cbn [m_stackBase m_stackSize m_active m_stackPointer m_priority m_lastStarted
    m_waitUntil m_name m_entry m_waiting m_mutex m_stack set_m_active
    set_m_stackPointer set_m_priority set_m_lastStarted set_m_waitUntil
    set_m_name set_m_entry set_m_waiting set_m_mutex set_m_stack].
Ltac tcb_red_in H :=
  cbn [m_stackBase m_stackSize m_active m_stackPointer m_priority m_lastStarted
    m_waitUntil m_name m_entry m_waiting m_mutex m_stack set_m_active
    set_m_stackPointer set_m_priority set_m_lastStarted set_m_waitUntil
    set_m_name set_m_entry set_m_waiting set_m_mutex set_m_stack] in H.
Ltac kred :=
  lazy beta iota zeta delta
   [mbind M_bind mret M_ret gets modify fail when value deref ifndef_NDEBUG
    while task update_task condition set_waitingList set_mutex m_locked
    m_previousLock m_criticalSection mutex_priority m_mutex_cv m_waitingList
    r0 r1 r2 Mutex.update Mutex.set_locked Mutex.set_previousLock
    Mutex.set_criticalSection Mutex.assign_criticalSection
    Mutex.take_criticalSection Mutex.lock Mutex.restoreBasepri Mutex.unlock
    Mutex.reLockFromPendSv Mutex.releaseFromServiceCall
    Mutex.disable_criticalSection CortexM.getType CortexM.inThreadMode
    CortexM.currentPriority CortexM.setBasepri CortexM.disableInterrupts
    CortexM.enableInterrupts CortexM.isPrimask CortexM.triggerPendSv
    CortexM.clearPendSv CortexM.enableSystick EmbeddedList.push_front
    isStarted exchange_active has_value triggerSoftSwitch load store
    addTask Scheduler_criticalSection criticalSectionEnd
    CriticalSection_destroy now removeWaiting notify_asserts notify_one
    notify_all_cond notify_all_body notify_all wait_asserts wait wait_for
    wait_until svc stop TaskControlBlock_priority sleep_for sleep_until
    mutex_address default from_option length id address pointer
    serviceCallHandler s_isStarted s_ticks s_allTasks s_timeouts s_ready
    s_idling s_mayNeedSwitch s_idle s_previousTask s_currentTask s_nextTask
    s_criticalSection idle_stackPointer tasks conditions mutexes basepri
    primask isr pendSv systick cortexType SystemCoreClock set_s_isStarted
    set_s_ticks set_s_allTasks set_s_timeouts set_s_ready set_s_idling
    set_s_mayNeedSwitch set_s_idle set_s_previousTask set_s_currentTask
    set_s_nextTask set_s_criticalSection set_idle_stackPointer set_tasks
    set_conditions set_mutexes set_basepri set_primask set_isr set_pendSv
    set_systick set_cortexType set_SystemCoreClock].
Ltac kred_in H :=
  lazy beta iota zeta delta
   [mbind M_bind mret M_ret gets modify fail when value deref ifndef_NDEBUG
    while task update_task condition set_waitingList set_mutex m_locked
    m_previousLock m_criticalSection mutex_priority m_mutex_cv m_waitingList
    r0 r1 r2 Mutex.update Mutex.set_locked Mutex.set_previousLock
    Mutex.set_criticalSection Mutex.assign_criticalSection
    Mutex.take_criticalSection Mutex.lock Mutex.restoreBasepri Mutex.unlock
    Mutex.reLockFromPendSv Mutex.releaseFromServiceCall
    Mutex.disable_criticalSection CortexM.getType CortexM.inThreadMode
    CortexM.currentPriority CortexM.setBasepri CortexM.disableInterrupts
    CortexM.enableInterrupts CortexM.isPrimask CortexM.triggerPendSv
    CortexM.clearPendSv CortexM.enableSystick EmbeddedList.push_front
    isStarted exchange_active has_value triggerSoftSwitch load store
    addTask Scheduler_criticalSection criticalSectionEnd
    CriticalSection_destroy now removeWaiting notify_asserts notify_one
    notify_all_cond notify_all_body notify_all wait_asserts wait wait_for
    wait_until svc stop TaskControlBlock_priority sleep_for sleep_until
    mutex_address default from_option length id address pointer
    serviceCallHandler s_isStarted s_ticks s_allTasks s_timeouts s_ready
    s_idling s_mayNeedSwitch s_idle s_previousTask s_currentTask s_nextTask
    s_criticalSection idle_stackPointer tasks conditions mutexes basepri
    primask isr pendSv systick cortexType SystemCoreClock set_s_isStarted
    set_s_ticks set_s_allTasks set_s_timeouts set_s_ready set_s_idling
    set_s_mayNeedSwitch set_s_idle set_s_previousTask set_s_currentTask
    set_s_nextTask set_s_criticalSection set_idle_stackPointer set_tasks
    set_conditions set_mutexes set_basepri set_primask set_isr set_pendSv
    set_systick set_cortexType set_SystemCoreClock] in H.
(** The hypotheses are brought to the form [kred] gives the goal. *)
Ltac kred_hyps :=
  repeat match goal with
         | H : _ = _ |- _ =>
             progress (kred_in H; tcb_red_in H; autorewrite with kernel in H)
         end.

Lemma assert_holds b debug s : (debug = true → b = true) → assert_ b debug s = Done tt s.
Proof. intros H. destruct debug; [by rewrite H|apply assert_release]. Qed.

(** ** Ordered insertion *)

Lemma insertWhen_priorityIsLower item l debug s :
  EmbeddedList.insertWhen (λ x y, mret (priorityIsLower x y)) item l debug s
  = Done (insert_ordered (more_important (tasks s)) item l) s.
Proof.
  induction l as [|x l IH]; [reflexivity|].
  cbn. unfold task. mred. fold (more_important (tasks s) item x).
  destruct (more_important (tasks s) item x); [reflexivity|].
  unfold mret, M_ret in IH. by rewrite IH.
Qed.

Lemma ready_insertWhen_eq item debug s :
  ready_insertWhen item debug s
  = Done tt (set_s_ready (insert_ordered (more_important (tasks s)) item (s_ready s)) s).
Proof. unfold ready_insertWhen. mred. by rewrite insertWhen_priorityIsLower. Qed.

Lemma addWaiting_eq cv t debug s :
  addWaiting cv t debug s
  = Done tt (set_conditions
      (<[cv := mkCV (m_mutex_cv (conditions s !!! cv))
                 (insert_ordered (more_important (tasks s)) t
                    (m_waitingList (conditions s !!! cv)))]> (conditions s)) s).
Proof. unfold addWaiting. mred. by rewrite insertWhen_priorityIsLower. Qed.

(** A call whose outcome is known is replaced by it, one kind of call at a
    time, so that the sequel is reduced before the next one. *)
Ltac call_step :=
  first [ rewrite assert_true | rewrite assert_false | rewrite assert_release
        | rewrite mutex_MutexAt | rewrite mutex_MutexOf
        | rewrite ready_insertWhen_eq | rewrite addWaiting_eq ].

(** [kred] computes with the definitions of the kernel and of the monad
    only: arithmetic, the stores and the assertions stay as they are. *)
Ltac msimp :=
  kred_hyps;
  repeat progress
    (kred; tcb_red; autorewrite with kernel; rewrite_lookups; try call_step).

Lemma insert_ordered_perm before item l :
  insert_ordered before item l ≡ₚ item :: l.
Proof.
  induction l as [|x l IH]; cbn; [done|].
  destruct (before item x); [done|]. rewrite IH. apply Permutation_swap.
Qed.

Lemma elem_of_insert_ordered before item l x :
  x ∈ insert_ordered before item l ↔ x = item ∨ x ∈ l.
Proof. rewrite insert_ordered_perm. apply elem_of_cons. Qed.

Section ordered_insertion.
(** [before] is a strict order: irreflexive on comparable pairs and
    transitive. *)
Variable before : TaskId → TaskId → bool.
Hypothesis before_asym : ∀ a b, before a b = true → before b a = false.
Hypothesis before_trans : ∀ a b c,
  before a b = true → before b c = true → before a c = true.

Let no_later : relation TaskId := λ a b, before b a = false.

Lemma insert_ordered_sorted item l :
  StronglySorted no_later l →
  StronglySorted no_later (insert_ordered before item l).
Proof.
  induction l as [|x l IH]; cbn; intros Hl.
  { repeat constructor. }
  apply StronglySorted_cons in Hl as [Hx Hl].
  destruct (before item x) eqn:Hb.
  - apply StronglySorted_cons. split.
    + constructor; [by apply before_asym|].
      rewrite Forall_forall in Hx |- *. intros y Hy. specialize (Hx y Hy).
      unfold no_later in *. destruct (before y item) eqn:Hyi; [|done].
      by rewrite (before_trans _ _ _ Hyi Hb) in Hx.
    + by apply StronglySorted_cons.
  - apply StronglySorted_cons. split; [|by apply IH].
    rewrite Forall_forall in Hx |- *. intros y Hy.
    apply elem_of_insert_ordered in Hy as [->|Hy]; [done|by apply Hx].
Qed.
End ordered_insertion.

Lemma StronglySorted_erase (R : relation TaskId) item l :
  StronglySorted R l → StronglySorted R (EmbeddedList.erase item l).
Proof.
  unfold EmbeddedList.erase. induction 1 as [|x l Hl IH Hx]; [constructor|].
  rewrite filter_cons. case_decide; [|done].
  constructor; [done|]. rewrite Forall_forall in Hx |- *.
  intros y Hy. apply list_elem_of_filter in Hy as [_ Hy]. by apply Hx.
Qed.

Lemma priorityIsLower_asym a b :
  priorityIsLower a b = true → priorityIsLower b a = false.
Proof. unfold priorityIsLower. repeat case_match; lia. Qed.

Lemma priorityIsLower_trans a b c :
  priorityIsLower a b = true → priorityIsLower b c = true →
  priorityIsLower a c = true.
Proof. unfold priorityIsLower. repeat case_match; lia. Qed.

Lemma requeue_ordered ts t l :
  priority_ordered ts l → priority_ordered ts (requeue ts t l).
Proof.
  destruct t as [x|]; [|done]. apply insert_ordered_sorted.
  - intros a b. apply priorityIsLower_asym.
  - intros a b c. apply priorityIsLower_trans.
Qed.

Lemma requeue_perm ts t l : requeue ts t l ≡ₚ pointer_list t ++ l.
Proof. destruct t; [apply insert_ordered_perm|done]. Qed.

(** ** [doSwitch] *)

Lemma doSwitch_deferred debug s :
  s_isStarted s = true →
  (debug = true → s_currentTask s ≠ None) →
  s_criticalSection s = true →
  doSwitch debug s = Done false (set_s_mayNeedSwitch true s).
Proof.
  intros Hs Hc Hcs. unfold doSwitch. msimp.
  rewrite assert_holds; [by msimp|].
  intros Hd. by apply bool_decide_eq_true, Hc.
Qed.

Lemma doSwitch_immediate debug s :
  s_isStarted s = true →
  (debug = true → s_nextTask s ≠ None → s_currentTask s ≠ s_nextTask s) →
  s_criticalSection s = false →
  doSwitch debug s = doSwitch_outcome s.
Proof.
  intros Hs Hc Hcs. unfold doSwitch, doSwitch_outcome, requeue. msimp.
  destruct (s_nextTask s) as [n|] eqn:Hn; msimp.
  - rewrite assert_holds; msimp.
    2:{ intros Hd. apply bool_decide_eq_true, Hc; [done|congruence]. }
    destruct (s_currentTask s) as [c|] eqn:Hcur; msimp.
    + destruct (insert_ordered _ c _) as [|front rest]; msimp; [done|].
      by case_bool_decide.
    + destruct (insert_ordered _ n _) as [|front rest] eqn:Hi; msimp; [done|].
      by case_bool_decide.
  - destruct (s_currentTask s) as [c|] eqn:Hcur; msimp.
    + destruct (insert_ordered _ c _) as [|front rest]; msimp; [done|].
      by case_bool_decide.
    + destruct (s_ready s) as [|front rest] eqn:Hr; msimp; [done|].
      by case_bool_decide.
Qed.

(** C1.  [doSwitch] follows the algorithm of the specification.  With the
    scheduler started (and, in a debug build, the two conditions the
    function asserts): inside a critical section it only records
    [s_mayNeedSwitch] and returns [false]; otherwise the ready queue
    receives the next and then the current task by ordered insertion (it
    holds the same tasks plus these two, and stays in priority order), both
    pointers are cleared, and either the queue is empty and PendSV is
    requested with result [true], or its front is unlinked: when it is the
    task that was current it becomes current again, nothing is requested
    and the result is [false]; else it becomes the next task, PendSV is
    requested and the result is [true]. *)
Theorem doSwitch_algorithm (debug : bool) (s : State) :
  s_isStarted s = true →
  (debug = true → s_criticalSection s = true → s_currentTask s ≠ None) →
  (debug = true → s_criticalSection s = false →
   s_nextTask s ≠ None → s_currentTask s ≠ s_nextTask s) →
  let ready' := requeue (tasks s) (s_currentTask s)
                  (requeue (tasks s) (s_nextTask s) (s_ready s)) in
  (s_criticalSection s = true →
     doSwitch debug s = Done false (set_s_mayNeedSwitch true s))
  ∧ (s_criticalSection s = false →
       ready' ≡ₚ pointer_list (s_currentTask s)
                 ++ pointer_list (s_nextTask s) ++ s_ready s
       ∧ (priority_ordered (tasks s) (s_ready s) →
          priority_ordered (tasks s) ready')
       ∧ (ready' = [] →
          doSwitch debug s =
            Done true (set_pendSv true (set_s_ready []
              (set_s_currentTask None (set_s_nextTask None s)))))
       ∧ (∀ front rest, ready' = front :: rest →
            (Some front = s_currentTask s →
               doSwitch debug s =
                 Done false (set_s_ready rest
                   (set_s_currentTask (Some front) (set_s_nextTask None s))))
            ∧ (Some front ≠ s_currentTask s →
                 doSwitch debug s =
                   Done true (set_pendSv true (set_s_ready rest
                     (set_s_currentTask None
                       (set_s_nextTask (Some front) s))))))).
Proof.
  intros Hs Hc Hn ready'. split.
  - intros Hcs. apply doSwitch_deferred; auto.
  - intros Hcs. split; [|split; [|split]].
    + unfold ready'. by rewrite !requeue_perm.
    + intros Ho. by do 2 apply requeue_ordered.
    + intros He. rewrite doSwitch_immediate by auto.
      unfold doSwitch_outcome. fold ready'. by rewrite He.
    + intros front rest He. rewrite doSwitch_immediate by auto.
      unfold doSwitch_outcome. fold ready'. rewrite He.
      split; intros Hf; [by rewrite bool_decide_true|by rewrite bool_decide_false].
Qed.

Lemma doSwitch_algorithm_witness :
  s_isStarted demo = true
  ∧ doSwitch true demo = Done false demo.
Proof.
  split; [reflexivity|].
  destruct (doSwitch_algorithm true demo) as [_ H]; [reflexivity|done|done|].
  destruct (H eq_refl) as (_ & _ & _ & H').
  destruct (H' 1%positive [2%positive; 3%positive]) as [H1 _]; [by vm_compute|].
  rewrite H1 by reflexivity. reflexivity.
Defined.

(** ** [doSwitch], in general *)

Lemma assert_cases b debug s :
  assert_ b debug s = Done tt s ∨ assert_ b debug s = Failed AssertionFailed.
Proof. destruct b, debug; auto. Qed.

(** A release build has no assertion to fail. *)
Lemma doSwitch_release s :
  doSwitch false s
  = if s_criticalSection s then Done false (set_s_mayNeedSwitch true s)
    else doSwitch_outcome s.
Proof.
  destruct (s_criticalSection s) eqn:Hcs.
  - unfold doSwitch. by msimp.
  - unfold doSwitch, doSwitch_outcome, requeue. msimp.
    destruct (s_nextTask s) as [n|] eqn:Hn;
      destruct (s_currentTask s) as [c|] eqn:Hc; msimp.
    + destruct (insert_ordered _ c _) as [|front rest]; msimp; [done|].
      by case_bool_decide.
    + destruct (insert_ordered _ n _) as [|front rest]; msimp; [done|].
      by case_bool_decide.
    + destruct (insert_ordered _ c _) as [|front rest]; msimp; [done|].
      by case_bool_decide.
    + destruct (s_ready s) as [|front rest] eqn:Hr; msimp; [done|].
      by case_bool_decide.
Qed.

(** A debug build halts on an assertion or does what a release build does. *)
Lemma doSwitch_debug s :
  doSwitch true s = Failed AssertionFailed ∨ doSwitch true s = doSwitch false s.
Proof.
  destruct (s_isStarted s) eqn:Hs; [|left; unfold doSwitch; by msimp].
  destruct (s_criticalSection s) eqn:Hcs.
  - destruct (s_currentTask s) as [c|] eqn:Hc.
    + right. rewrite doSwitch_release, Hcs. apply doSwitch_deferred; congruence.
    + left. unfold doSwitch. by msimp.
  - destruct (decide (s_nextTask s ≠ None ∧ s_currentTask s = s_nextTask s))
      as [[Hn He]|Hne].
    + left. destruct (s_nextTask s) as [n|] eqn:Hn'; [|done].
      unfold doSwitch. msimp.
      rewrite bool_decide_false by (by intros []). by msimp.
    + right. rewrite doSwitch_release, Hcs. apply doSwitch_immediate; [done| |done].
      intros _ Hn He. apply Hne. by split.
Qed.

Lemma doSwitch_frame debug s b s' :
  doSwitch debug s = Done b s' → doSwitch_keeps s s'.
Proof.
  assert (doSwitch false s = Done b s' → doSwitch_keeps s s') as Hr.
  { rewrite doSwitch_release. unfold doSwitch_outcome.
    repeat case_match; intros [= <- <-]; by repeat split. }
  destruct debug; [|done].
  destruct (doSwitch_debug s) as [->| ->]; [done|apply Hr].
Qed.

(** ** [PriorityMutex::unlock] *)

Lemma unlock_not_locked r debug s :
  m_locked (mutex_at r s) = false → Mutex.unlock r debug s = Done tt s.
Proof.
  intros H. unfold Mutex.unlock. msimp. rewrite mutex_eq. by msimp.
Qed.

(** C9, as stated, fails: in a debug build [unlock] of a mutex that nobody
    has locked returns, and leaves the state as it is. *)
Lemma unlock_unowned_not_detected :
  m_locked (mutex_at (MutexAt 1) (reset CortexM.M4 16000000)) = false
  ∧ Mutex.unlock (MutexAt 1) true (reset CortexM.M4 16000000)
    = Done tt (reset CortexM.M4 16000000)
  ∧ Mutex.unlock (MutexAt 1) true (reset CortexM.M4 16000000)
    ≠ Failed AssertionFailed.
Proof.
  split; [reflexivity|]. rewrite unlock_not_locked by reflexivity. done.
Qed.

(** C9, amended.  [unlock] checks the interrupt masks, not the owner.  On
    a mutex whose [m_locked] flag is clear it returns at once in every
    build, with no check and no effect.  On a mutex whose flag is set, a
    debug build halts when the masks are not the ones [lock] leaves: a
    task-only mutex unlocked from a handler, a full lock with PRIMASK
    clear, a priority lock with BASEPRI at another level than the one of
    the mutex. *)
Theorem unlock_checks (r : MutexRef) (s : State) :
  (∀ debug, m_locked (mutex_at r s) = false →
     Mutex.unlock r debug s = Done tt s)
  ∧ (m_locked (mutex_at r s) = true →
       match mutex_priority (mutex_at r s) with
       | None =>
           isr s ≠ None → Mutex.unlock r true s = Failed AssertionFailed
       | Some p =>
           if p =? 0 then
             primask s = false → Mutex.unlock r true s = Failed AssertionFailed
           else
             masked (wrap_u8 (basepri s)) ≠ masked p →
             Mutex.unlock r true s = Failed AssertionFailed
       end).
Proof.
  split; [intros debug; apply unlock_not_locked|].
  intros Hl. destruct (mutex_priority (mutex_at r s)) as [p|] eqn:Hp.
  - destruct (p =? 0) eqn:Hp0; intros Hm.
    + unfold Mutex.unlock. msimp. rewrite mutex_eq. by msimp.
    + apply Z.eqb_neq in Hm.
      unfold Mutex.unlock. msimp. rewrite mutex_eq. by msimp.
  - intros Hi. apply (bool_decide_eq_false_2 _) in Hi.
    unfold Mutex.unlock. msimp. rewrite mutex_eq. by msimp.
Qed.

Lemma unlock_checks_witness :
  Mutex.unlock (MutexAt 1) true (reset CortexM.M4 16000000)
  = Done tt (reset CortexM.M4 16000000)
  ∧ Mutex.unlock (MutexAt 1) true
      (set_isr (Some 64)
         (set_mutexes (<[1%positive := Mutex.set_locked true (newMutex None)]> ∅)
            (reset CortexM.M4 16000000)))
    = Failed AssertionFailed.
Proof.
  split.
  - exact (proj1 (unlock_checks (MutexAt 1) (reset CortexM.M4 16000000))
                 true eq_refl).
  - exact (proj2 (unlock_checks (MutexAt 1)
                    (set_isr (Some 64)
                       (set_mutexes
                          (<[1%positive := Mutex.set_locked true (newMutex None)]> ∅)
                          (reset CortexM.M4 16000000))))
                 eq_refl ltac:(discriminate)).
Defined.

(** ** [notify_one] and [notify_all] on an empty waiting list *)

Lemma waitingList_unchanged (cs : gmap CvId ConditionVariable) cv m l cv' :
  m_waitingList (cs !!! cv) = l →
  m_waitingList (<[cv := mkCV m l]> cs !!! cv') = m_waitingList (cs !!! cv').
Proof.
  intros Hl. destruct (decide (cv' = cv)) as [->|Hne].
  - by rewrite lookup_total_insert_eq.
  - by rewrite lookup_total_insert_ne.
Qed.

Ltac notify_done Hcv :=
  rewrite ?insert_insert_eq;
  eexists; split; [reflexivity|split; [reflexivity|]];
  split; [|done]; intros cv'; kred;
  apply waitingList_unchanged; kred; by rewrite Hcv.

Lemma notify_empty_debug s cv :
  m_waitingList (conditions s !!! cv) = [] →
  s_criticalSection s = false →
  s_mayNeedSwitch s = false →
  notify_contract cv s →
  ∃ s', notify_one cv true s = Done tt s'
        ∧ notify_all cv true s = Done tt s'
        ∧ unchanged_by_notify s s'.
Proof.
  intros Hl Hcs Hm Hc. unfold notify_contract in Hc.
  destruct (conditions s !!! cv) as [m l] eqn:Hcv. cbn in *. subst l.
  destruct m as [locked prev sec prio]. cbn in *.
  unfold notify_one, notify_all, notify_asserts, notify_all_cond.
  destruct prio as [p|].
  - destruct Hc as (-> & Hk & Hb & Hi).
    rewrite masked_kServiceCallPriority in Hk.
    destruct (p =? 0) eqn:Hp.
    { apply Z.eqb_eq in Hp as ->. by vm_compute in Hk. }
    apply Z.leb_le in Hk, Hb.
    destruct (isr s) as [c|] eqn:Hisr; cbn in Hi.
    + assert ((masked p <=? masked c) = true) as H1 by (apply Z.leb_le; lia).
      assert ((masked c <=? masked p) = true) as H2 by (apply Z.leb_le; lia).
      clear Hi. msimp. notify_done Hcv.
    + msimp. notify_done Hcv.
  - destruct Hc as [-> Hi]. msimp. notify_done Hcv.
Qed.

Lemma notify_empty_release s cv :
  m_waitingList (conditions s !!! cv) = [] →
  s_criticalSection s = false →
  s_mayNeedSwitch s = false →
  ∃ s', notify_one cv false s = Done tt s'
        ∧ notify_all cv false s = Done tt s'
        ∧ unchanged_by_notify s s'.
Proof.
  intros Hl Hcs Hm.
  destruct (conditions s !!! cv) as [m l] eqn:Hcv. cbn in *. subst l.
  destruct m as [locked prev sec prio]. cbn in *.
  unfold notify_one, notify_all, notify_asserts, notify_all_cond.
  destruct prio as [p|].
  - destruct (p =? 0) eqn:Hp.
    { msimp. notify_done Hcv. }
    destruct (isr s) as [c|] eqn:Hisr.
    + destruct sec; msimp; notify_done Hcv.
    + msimp. notify_done Hcv.
  - msimp. notify_done Hcv.
Qed.

(** C10.  On a condition variable with nobody waiting, [notify_one] and
    [notify_all], called with no critical section active and no switch
    deferred (and, in a debug build, with the conditions their assertions
    check), return and leave all of this as it was: every waiting list,
    the ready queue, the timeout queue, every field of every task, the
    previous, current and next task pointers; PendSV is not requested and
    no switch is deferred. *)
Theorem notify_nobody_waiting (debug : bool) (s : State) (cv : CvId) :
  m_waitingList (conditions s !!! cv) = [] →
  s_criticalSection s = false →
  s_mayNeedSwitch s = false →
  (debug = true → notify_contract cv s) →
  ∃ s', notify_one cv debug s = Done tt s'
        ∧ notify_all cv debug s = Done tt s'
        ∧ unchanged_by_notify s s'.
Proof.
  intros Hl Hcs Hm Hc. destruct debug.
  - apply notify_empty_debug; auto.
  - by apply notify_empty_release.
Qed.

Lemma notify_nobody_waiting_witness :
  ∃ s', notify_one 7 true demo = Done tt s'
        ∧ notify_all 7 true demo = Done tt s'
        ∧ unchanged_by_notify demo s'.
Proof.
  apply (notify_nobody_waiting true demo 7); try reflexivity.
  intros _. repeat split.
Defined.

(** ** [Terminate] and [stop] *)

Lemma erase_absent (t : TaskId) l : t ∉ l → EmbeddedList.erase t l = l.
Proof.
  unfold EmbeddedList.erase. induction l as [|x l IH]; [done|].
  intros Hn. apply not_elem_of_cons in Hn as [Hx Hl].
  rewrite filter_cons, decide_True by done. by rewrite IH.
Qed.

Lemma not_elem_of_erase (t : TaskId) l : t ∉ EmbeddedList.erase t l.
Proof. unfold EmbeddedList.erase. intros Hn%list_elem_of_filter. by destruct Hn. Qed.

Lemma set_m_active_id tcb : set_m_active (m_active tcb) tcb = tcb.
Proof. reflexivity. Qed.

Lemma update_task_id t (f : TaskControlBlock → TaskControlBlock) s tcb :
  tasks s !! t = Some tcb → f tcb = tcb →
  set_tasks (<[t := f tcb]> (tasks s)) s = s.
Proof. intros Ht ->. by rewrite insert_id. Qed.

Lemma terminate_inactive t a b isThread debug s tcb :
  tasks s !! t = Some tcb → m_active tcb = false →
  serviceCallHandler (mkFrame (address t) a b) Terminate isThread debug s
  = Done false s.
Proof.
  intros Ht Ha.
  assert (tasks s !!! t = tcb) as Htt by (by apply lookup_total_correct).
  unfold serviceCallHandler, address, pointer. msimp.
  f_equal. apply (update_task_id t (set_m_active false) s tcb Ht).
  by rewrite <- Ha.
Qed.

Lemma bool_decide_refl `{EqDecision A} (x : A) : bool_decide (x = x) = true.
Proof. by apply bool_decide_eq_true. Qed.
#[export] Hint Rewrite @bool_decide_refl : kernel.

Lemma waitingList_erase (cs : gmap CvId ConditionVariable) cv (t : TaskId) m cv' :
  (cv' ≠ cv → t ∉ m_waitingList (cs !!! cv')) →
  m_waitingList
    (<[cv := mkCV m (EmbeddedList.erase t (m_waitingList (cs !!! cv)))]> cs !!! cv')
  = EmbeddedList.erase t (m_waitingList (cs !!! cv')).
Proof.
  intros Hn. destruct (decide (cv' = cv)) as [->|Hne].
  - by rewrite lookup_total_insert_eq.
  - rewrite lookup_total_insert_ne by done. by rewrite erase_absent by auto.
Qed.

Ltac terminated_solve Ht Hw :=
  unfold terminated, waiting_nodes_kept; kred;
  rewrite ?insert_insert_eq, ?lookup_total_insert_eq, ?lookup_insert_eq;
  repeat split; try done;
  try solve
    [ intros t' Hne; by rewrite ?lookup_total_insert_ne by done
    | symmetry; apply erase_absent; intros Hin; by apply Ht in Hin
    | intros cv'; apply waitingList_erase; intros Hne Hin;
      apply Hw in Hin; congruence
    | intros cv'; symmetry; apply erase_absent; intros Hin; by apply Hw in Hin
    | intros cv'; rewrite waitingList_erase;
      [apply not_elem_of_erase|intros Hne Hin; apply Hw in Hin; congruence]
    | intros cv' Hin; by apply Hw in Hin ].

Lemma terminate_active t a b isThread debug s :
  m_active (tasks s !!! t) = true →
  (t ∈ s_timeouts s → m_waitUntil (tasks s !!! t) ≠ None) →
  (∀ cv, t ∈ m_waitingList (conditions s !!! cv) →
         m_waiting (tasks s !!! t) = Some cv) →
  (debug = true → s_currentTask s = Some t → s_criticalSection s = false) →
  ∃ s1,
    terminated t s s1
    ∧ (waiting_node_at_rest t s → waiting_nodes_kept t s s1)
    ∧ (if bool_decide (Some t = s_currentTask s) then
         serviceCallHandler (mkFrame (address t) a b) Terminate isThread debug s
         = doSwitch debug s1
         ∧ s_currentTask s1 = None ∧ s_previousTask s1 = None
       else
         serviceCallHandler (mkFrame (address t) a b) Terminate isThread debug s
         = Done false s1
         ∧ s_currentTask s1 = s_currentTask s
         ∧ s_previousTask s1 = s_previousTask s).
Proof.
  intros Ha Ht Hw Hcs.
  destruct (tasks s !!! t) as [base size act sp prio last wu name entry w mx stk]
    eqn:Htcb.
  cbn in Ha, Ht, Hw. subst act.
  case_bool_decide as Hcur.
  - symmetry in Hcur.
    destruct debug; [specialize (Hcs eq_refl Hcur)|clear Hcs];
      destruct wu as [u|], w as [cv|];
      unfold serviceCallHandler, address, pointer; msimp;
      (eexists; split; [|split; [intros _|split; [reflexivity|by split]]]);
      terminated_solve Ht Hw.
  - clear Hcs. apply (bool_decide_eq_false_2 _) in Hcur.
    destruct wu as [u|], w as [cv|];
      unfold serviceCallHandler, address, pointer; msimp;
      (eexists; split; [|split; [intros _|split; [reflexivity|by split]]]);
      terminated_solve Ht Hw.
Qed.

Lemma stop_inactive t debug s :
  m_active (tasks s !!! t) = false → stop t debug s = Done false s.
Proof. intros Ha. unfold stop. by msimp. Qed.

(** C7.  [Terminate] on a task whose [m_active] is clear changes nothing
    and switches no task, and so does [stop], which does not even issue
    the service call; hence a termination that follows another one (or
    the end of the task) is void.  On a task whose [m_active] is set,
    linked in the timeout queue only with a deadline and in a waiting
    list only of the condition variable it waits on, the handler clears
    [m_active], unlinks the task from [s_allTasks], from [s_timeouts]
    (clearing [m_waitUntil]) and from the waiting list (clearing
    [m_waiting]), leaves the other tasks alone, and, when the task is the
    current one, clears [s_currentTask] and [s_previousTask] and ends in
    [doSwitch]; else it returns [false].  The other tasks stay in the
    waiting lists and the ready queue is left as it is, for a task that
    is not in the ready queue with [m_waiting] still set. *)
Theorem terminate_once (t : TaskId) (a b : Z) (isThread debug : bool)
    (s : State) :
  let call := serviceCallHandler (mkFrame (address t) a b) Terminate in
  (∀ tcb, tasks s !! t = Some tcb → m_active tcb = false →
     call isThread debug s = Done false s ∧ stop t debug s = Done false s)
  ∧ (m_active (tasks s !!! t) = true →
     (t ∈ s_timeouts s → m_waitUntil (tasks s !!! t) ≠ None) →
     (∀ cv, t ∈ m_waitingList (conditions s !!! cv) →
            m_waiting (tasks s !!! t) = Some cv) →
     (debug = true → s_currentTask s = Some t → s_criticalSection s = false) →
     (∃ s1,
        terminated t s s1
        ∧ (t ∉ s_allTasks s1) ∧ (t ∉ s_timeouts s1)
        ∧ (∀ cv, t ∉ m_waitingList (conditions s1 !!! cv))
        ∧ (waiting_node_at_rest t s → waiting_nodes_kept t s s1)
        ∧ (if bool_decide (Some t = s_currentTask s) then
             call isThread debug s = doSwitch debug s1
             ∧ s_currentTask s1 = None ∧ s_previousTask s1 = None
           else
             call isThread debug s = Done false s1
             ∧ s_currentTask s1 = s_currentTask s
             ∧ s_previousTask s1 = s_previousTask s))
     ∧ (∀ r s', call isThread debug s = Done r s' →
          ∀ isThread' debug', call isThread' debug' s' = Done false s')).
Proof.
  intros call. subst call. split.
  { intros tcb Ht Ha. split; [by eapply terminate_inactive|].
    apply stop_inactive. by rewrite (lookup_total_correct _ _ _ Ht). }
  intros Ha Ht Hw Hcs.
  destruct (terminate_active t a b isThread debug s Ha Ht Hw Hcs)
    as (s1 & Hterm & Hkept & Hcall).
  split.
  - exists s1. split; [done|].
    destruct Hterm as (_ & _ & _ & _ & _ & Hall & Htime & Hl & _).
    rewrite Hall, Htime.
    split; [apply not_elem_of_erase|]. split; [apply not_elem_of_erase|].
    split; [exact Hl|]. split; [exact Hkept|exact Hcall].
  - intros r s' Hr isThread' debug'.
    destruct Hterm as ([tcb Htcb] & Hact & _).
    assert (tasks s' = tasks s1) as Hts.
    { case_bool_decide.
      - destruct Hcall as (Hcall & _). rewrite Hcall in Hr.
        by destruct (doSwitch_frame _ _ _ _ Hr) as (-> & _).
      - destruct Hcall as (Hcall & _). rewrite Hcall in Hr. by injection Hr as _ ->. }
    apply (terminate_inactive _ _ _ _ _ _ tcb); [by rewrite Hts|].
    by rewrite <- (lookup_total_correct _ _ _ Htcb).
Qed.

Lemma terminate_once_witness :
  ∃ s1,
    serviceCallHandler (mkFrame (address 2) 0 0) Terminate true true demo
    = Done false s1
    ∧ serviceCallHandler (mkFrame (address 2) 0 0) Terminate true true s1
      = Done false s1.
Proof.
  destruct (terminate_once 2 0 0 true true demo) as [_ Hactive].
  destruct Hactive as [(s1 & _ & _ & _ & _ & _ & Hcall) Hsecond].
  - reflexivity.
  - intros Hin. by apply elem_of_nil in Hin.
  - intros cv Hin. unfold demo in Hin. cbn in Hin.
    rewrite lookup_total_empty in Hin. by apply elem_of_nil in Hin.
  - intros _ [=].
  - change (bool_decide (Some 2%positive = s_currentTask demo)) with false in Hcall.
    destruct Hcall as (Hcall & _). exists s1. split; [done|]. by eapply Hsecond.
Defined.

(** ** [Scheduler::start] and [TaskControlBlock::start] *)

Lemma doSwitch_release_done s : ∃ b s', doSwitch false s = Done b s'.
Proof.
  rewrite doSwitch_release. unfold doSwitch_outcome.
  repeat case_match; eauto.
Qed.

(** A second [Scheduler::start] trips [assert(!s_isStarted)]. *)
Lemma Scheduler_start_again_debug idle s :
  s_isStarted s = true → Scheduler_start idle true s = Failed AssertionFailed.
Proof.
  intros Hs.
  destruct ((cortexType s =? CortexM.M4) || (cortexType s =? CortexM.M7)) eqn:Ht;
    unfold Scheduler_start; by msimp.
Qed.

(** In a release build it goes on to [doSwitch] and returns its result. *)
Lemma Scheduler_start_again_release idle s :
  Scheduler_start idle false s
  = doSwitch false (set_systick (Some (SystemCoreClock s / 1000 - 1))
                      (set_s_idle idle (set_s_isStarted true s))).
Proof. unfold Scheduler_start. by msimp. Qed.

Lemma Scheduler_start_first idle debug s :
  s_isStarted s = false →
  s_currentTask s = None → s_nextTask s = None →
  s_criticalSection s = false →
  start_contract s →
  Scheduler_start idle debug s
  = doSwitch false (set_systick (Some (SystemCoreClock s / 1000 - 1))
                      (set_s_idle idle (set_s_isStarted true s))).
Proof.
  intros Hs Hc Hn Hcs (Ht & Hm & Hr).
  assert (∀ d, doSwitch d (set_systick (Some (SystemCoreClock s / 1000 - 1))
                             (set_s_idle idle (set_s_isStarted true s)))
               = doSwitch_outcome (set_systick (Some (SystemCoreClock s / 1000 - 1))
                                     (set_s_idle idle (set_s_isStarted true s))))
    as Hsw.
  { intros d. apply doSwitch_immediate; [done|by intros _ []|done]. }
  rewrite (Hsw false), <- (Hsw debug). clear Hsw.
  destruct debug; [|apply Scheduler_start_again_release].
  assert ((cortexType s =? CortexM.M4) || (cortexType s =? CortexM.M7) = true) as H1.
  { destruct Ht as [-> | ->]; by vm_compute. }
  assert ((SystemCoreClock s mod 1000 =? 0) = true) as H2 by lia.
  assert ((SystemCoreClock s / 1000 =? 0) = false) as H3 by lia.
  assert ((SystemCoreClock s / 1000 - 1 <=? CortexM.SystickReloadMask) = true)
    as H4 by lia.
  unfold Scheduler_start. by msimp.
Qed.

(** With no task running and no critical section, [doSwitch] returns
    [true]. *)
Lemma doSwitch_from_idle s :
  s_currentTask s = None → s_criticalSection s = false →
  ∃ s', doSwitch false s = Done true s'
        ∧ s_currentTask s' = None ∧ s_criticalSection s' = false
        ∧ s_isStarted s' = s_isStarted s.
Proof.
  intros Hc Hcs. rewrite doSwitch_release. unfold doSwitch_outcome, requeue.
  msimp. destruct (s_nextTask s) as [n|] eqn:Hn; msimp.
  - destruct (insert_ordered _ n _) as [|front rest]; msimp; eauto.
  - destruct (s_ready s) as [|front rest] eqn:Hr; msimp; eauto.
Qed.

Lemma assert_done b debug s u s' : assert_ b debug s = Done u s' → s' = s.
Proof. destruct b, debug; by intros [= <-]. Qed.

Lemma task_start_again t entry name debug s tcb :
  tasks s !! t = Some tcb → m_active tcb = true →
  TaskControlBlock_start t entry name debug s = Done false s.
Proof.
  intros Ht Ha.
  assert (tasks s !!! t = tcb) as Htt by (by apply lookup_total_correct).
  unfold TaskControlBlock_start. msimp.
  f_equal. apply (update_task_id t (set_m_active true) s tcb Ht).
  by rewrite <- Ha.
Qed.

Lemma start_writes_active this entry name debug tcb :
  m_active (start_writes this entry name debug tcb) = m_active tcb.
Proof. by destruct debug. Qed.

Lemma task_start_first t entry name debug s r s1 :
  m_active (tasks s !!! t) = false →
  TaskControlBlock_start t entry name debug s = Done r s1 →
  r = true
  ∧ ∃ tcb, tasks s1 !! t = Some tcb ∧ m_active tcb = true.
Proof.
  intros Ha. destruct (s_isStarted s) eqn:Hs.
  - unfold TaskControlBlock_start, addTask, triggerSoftSwitch. msimp.
    destruct (assert_ _ _ _) as [[] s2|] eqn:Has; [|done].
    apply assert_done in Has as ->.
    destruct (doSwitch _ _) as [b s3|] eqn:Hsw; [|done].
    apply doSwitch_frame in Hsw as (Hts & _).
    intros [= <- <-]. split; [done|]. kred. kred_in Hts. rewrite Hts.
    eexists. rewrite lookup_insert_eq. split; [done|].
    by rewrite start_writes_active.
  - unfold TaskControlBlock_start, addTask. msimp.
    intros [= <- <-]. split; [done|]. kred.
    eexists. rewrite lookup_insert_eq. split; [done|].
    by rewrite start_writes_active.
Qed.

(** Started in a release build, or before the scheduler, a task that is
    not active becomes active, and a second [start] is refused and
    changes nothing. *)
Lemma task_start_twice t entry name debug s :
  m_active (tasks s !!! t) = false →
  s_isStarted s = false ∨ debug = false →
  ∃ s1,
    TaskControlBlock_start t entry name debug s = Done true s1
    ∧ ∀ entry' name' debug',
        TaskControlBlock_start t entry' name' debug' s1 = Done false s1.
Proof.
  intros Ha Hc.
  assert (∃ r s1, TaskControlBlock_start t entry name debug s = Done r s1)
    as (r & s1 & Hr).
  { destruct (s_isStarted s) eqn:Hs.
    - destruct Hc as [Hc | ->]; [congruence|].
      unfold TaskControlBlock_start, addTask, triggerSoftSwitch. msimp.
      match goal with
      | |- context [doSwitch false ?X] =>
          destruct (doSwitch_release_done X) as (b & s' & ->)
      end.
      eauto.
    - unfold TaskControlBlock_start, addTask. msimp. eauto. }
  destruct (task_start_first _ _ _ _ _ _ _ Ha Hr) as (-> & tcb & Ht & Hact).
  exists s1. split; [done|]. intros entry' name' debug'.
  by apply (task_start_again _ _ _ _ _ tcb).
Qed.

(** C8.  On a scheduler that has not been started, with the processor and
    the clock [Scheduler::start] asserts, the first [start] returns [true]
    in both builds.  Called again, a debug build halts on
    [assert(!s_isStarted)] and a release build returns [true] again: the
    result is the one of [doSwitch], [false] is not returned for a
    scheduler that runs already.  [TaskControlBlock::start] on a task that
    is not active returns [true], and called again on the same task it
    returns [false] and changes nothing. *)
Theorem start_twice (idle : Z) (t : TaskId) (entry : nat) (name : Z)
    (s : State) :
  s_isStarted s = false →
  s_currentTask s = None → s_nextTask s = None →
  s_criticalSection s = false →
  start_contract s →
  m_active (tasks s !!! t) = false →
  (∃ s1,
     (∀ debug, Scheduler_start idle debug s = Done true s1)
     ∧ Scheduler_start idle true s1 = Failed AssertionFailed
     ∧ ∃ s2, Scheduler_start idle false s1 = Done true s2)
  ∧ (∀ debug, ∃ s1,
       TaskControlBlock_start t entry name debug s = Done true s1
       ∧ ∀ entry' name' debug',
           TaskControlBlock_start t entry' name' debug' s1 = Done false s1).
Proof.
  intros Hs Hc Hn Hcs Hst Ha. split.
  - destruct (doSwitch_from_idle
                (set_systick (Some (SystemCoreClock s / 1000 - 1))
                   (set_s_idle idle (set_s_isStarted true s))))
      as (s1 & Hsw & Hc1 & Hcs1 & Hs1); [done..|].
    exists s1. split; [|split].
    + intros debug. by rewrite Scheduler_start_first.
    + by apply Scheduler_start_again_debug.
    + rewrite Scheduler_start_again_release.
      destruct (doSwitch_from_idle
                  (set_systick (Some (SystemCoreClock s1 / 1000 - 1))
                     (set_s_idle idle (set_s_isStarted true s1))))
        as (s2 & Hsw2 & _); [done..|]. eauto.
  - intros debug. apply task_start_twice; auto.
Qed.

Lemma start_twice_witness :
  (∃ s1,
     (∀ debug, Scheduler_start 0 debug (reset CortexM.M4 16000000) = Done true s1)
     ∧ Scheduler_start 0 true s1 = Failed AssertionFailed
     ∧ ∃ s2, Scheduler_start 0 false s1 = Done true s2)
  ∧ (∀ debug, ∃ s1,
       TaskControlBlock_start 1 0 0 debug (reset CortexM.M4 16000000)
       = Done true s1
       ∧ ∀ entry' name' debug',
           TaskControlBlock_start 1 entry' name' debug' s1 = Done false s1).
Proof.
  apply (start_twice 0 1 0 0 (reset CortexM.M4 16000000)); try reflexivity.
  repeat split; [by left|done..].
Defined.

(** ** The timeout queue and [Sleep] *)

Lemma wrap_i32_small x : INT32_MIN ≤ x ≤ INT32_MAX → wrap_i32 x = x.
Proof.
  unfold INT32_MIN, INT32_MAX, wrap_i32. intros Hx.
  rewrite Z.mod_small; lia.
Qed.

Lemma wrap_i32_wrap_u32 x : wrap_i32 (wrap_u32 x) = wrap_i32 x.
Proof. unfold wrap_i32, wrap_u32. by rewrite Z.add_mod_idemp_l. Qed.

Lemma wrap_i32_add_r x y : wrap_i32 (x + wrap_i32 y) = wrap_i32 (x + y).
Proof.
  unfold wrap_i32.
  replace (x + ((y + 2 ^ 31) mod 2 ^ 32 - 2 ^ 31) + 2 ^ 31)
    with (x + (y + 2 ^ 31) mod 2 ^ 32) by lia.
  rewrite Z.add_mod_idemp_r by lia. f_equal. f_equal. lia.
Qed.

Lemma wrap_i32_idem x : wrap_i32 (wrap_i32 x) = wrap_i32 x.
Proof. by rewrite <- (Z.add_0_l (wrap_i32 x)), wrap_i32_add_r. Qed.

Lemma wrap_i32_above x :
  INT32_MAX < x < 2 ^ 32 + INT32_MIN → wrap_i32 x = x - 2 ^ 32.
Proof.
  unfold wrap_i32, INT32_MIN, INT32_MAX. intros Hx.
  replace (x + 2 ^ 31) with (x - 2 ^ 31 + 1 * 2 ^ 32) by lia.
  rewrite Z.mod_add by lia. rewrite Z.mod_small; lia.
Qed.

(** [insertWhen] with a comparison that leaves the state alone. *)
Lemma insertWhen_pure predicate before item l debug s :
  (∀ x, x ∈ l →
     predicate (tasks s !!! item) (tasks s !!! x) debug s
     = Done (before item x) s) →
  EmbeddedList.insertWhen predicate item l debug s
  = Done (insert_ordered before item l) s.
Proof.
  induction l as [|x l IH]; intros Hp; [reflexivity|].
  cbn [EmbeddedList.insertWhen insert_ordered]. kred.
  pose proof (Hp x ltac:(left)) as Hx. kred_in Hx. rewrite Hx.
  destruct (before item x); [reflexivity|].
  kred. rewrite IH; [reflexivity|]. intros y Hy. apply Hp. by right.
Qed.

Lemma insertWhen_wakeupAfter item l debug s :
  (debug = true → ∀ x, x ∈ item :: l → m_waitUntil (tasks s !!! x) ≠ None) →
  EmbeddedList.insertWhen wakeupAfter item l debug s
  = Done (insert_ordered (wakes_before (tasks s)) item l) s.
Proof.
  intros Hd. apply insertWhen_pure. intros x Hx.
  unfold wakeupAfter, wakes_before. kred.
  rewrite assert_holds; [reflexivity|].
  intros ->. specialize (Hd eq_refl).
  pose proof (Hd item ltac:(left)) as Hi.
  pose proof (Hd x ltac:(by right)) as Hx'.
  by destruct (m_waitUntil (tasks s !!! item)), (m_waitUntil (tasks s !!! x)).
Qed.

Lemma timeouts_insertWhen_eq item debug s :
  (debug = true →
   ∀ x, x ∈ item :: s_timeouts s → m_waitUntil (tasks s !!! x) ≠ None) →
  timeouts_insertWhen item debug s
  = Done tt (set_s_timeouts
               (insert_ordered (wakes_before (tasks s)) item (s_timeouts s)) s).
Proof.
  intros Hd. unfold timeouts_insertWhen. kred.
  by rewrite insertWhen_wakeupAfter.
Qed.

Lemma wakes_before_asym ts a b :
  wakes_before ts a b = true → wakes_before ts b a = false.
Proof. unfold wakes_before. lia. Qed.

Lemma wakes_before_trans ts a b c :
  wakes_before ts a b = true → wakes_before ts b c = true →
  wakes_before ts a c = true.
Proof. unfold wakes_before. lia. Qed.

Lemma StronglySorted_ext (R R' : relation TaskId) l :
  (∀ x y, x ∈ l → y ∈ l → R x y → R' x y) →
  StronglySorted R l → StronglySorted R' l.
Proof.
  intros HR Hl. induction Hl as [|x l Hl IH Hx]; [constructor|].
  constructor.
  - apply IH. intros a b Ha Hb. apply HR; by right.
  - rewrite Forall_forall in Hx |- *. intros y Hy.
    apply HR; [left|by right|by apply Hx].
Qed.

(** A deadline given to a task that is not in the timeout queue leaves the
    queue in order, and so does the insertion of that task. *)
Lemma timeouts_insert_ordered ts c tcb l :
  c ∉ l → deadline_ordered ts l →
  deadline_ordered (<[c := tcb]> ts)
    (insert_ordered (wakes_before (<[c := tcb]> ts)) c l).
Proof.
  intros Hc Hl. apply insert_ordered_sorted.
  - apply wakes_before_asym.
  - apply wakes_before_trans.
  - eapply StronglySorted_ext; [|done].
    intros x y Hx Hy. unfold by_deadline, wakes_before.
    rewrite !lookup_total_insert_ne; [done|set_solver..].
Qed.




(** ** [wakeUp], from [notify_one] and [notify_all] *)

(** [setReturnValue] on a task with a saved context. *)
Lemma setReturnValue_eq t v frame debug s :
  saved_frame (tasks s !!! t) = Some frame →
  setReturnValue t v debug s
  = Done tt (set_tasks
               (<[t := write_item frame (Word v) (tasks s !!! t)]> (tasks s)) s).
Proof.
  unfold saved_frame, setReturnValue, load, store, word. intros Hf.
  destruct (m_stackPointer (tasks s !!! t) =? 0) eqn:Hsp; [done|].
  destruct (m_stack (tasks s !!! t) !!! m_stackPointer (tasks s !!! t))
    as [lr| | |] eqn:Hlr; [|done..].
  injection Hf as <-. msimp.
  by destruct (Z.land lr kFpFlag =? 0).
Qed.

(** The frame lies above the context. *)
Lemma saved_frame_above tcb frame :
  saved_frame tcb = Some frame → m_stackPointer tcb < frame.
Proof.
  unfold saved_frame, sizeof_Context, sizeof_FpContext.
  repeat case_match; try done; intros [= <-]; lia.
Qed.

(** The write reaches [r0] of the saved frame and nothing else. *)
Lemma write_saved_r0 tcb frame v :
  saved_frame tcb = Some frame →
  saved_r0 (write_item frame (Word v) tcb) = Some (Word v)
  ∧ same_stack_but_r0 tcb (write_item frame (Word v) tcb).
Proof.
  intros Hf. pose proof (saved_frame_above _ _ Hf) as Hlt.
  assert (saved_frame (write_item frame (Word v) tcb) = Some frame) as Hf'.
  { rewrite <- Hf. unfold saved_frame, write_item. cbn.
    rewrite lookup_total_insert_ne; [done|lia]. }
  split; [|split; [done|split; [congruence|]]].
  - unfold saved_r0. rewrite Hf'. cbn. by rewrite lookup_total_insert_eq.
  - intros a Ha. unfold write_item. cbn.
    rewrite lookup_total_insert_ne; [done|congruence].
Qed.

Lemma wakeUp_woken t cv frame debug s :
  (debug = true → m_waiting (tasks s !!! t) = Some cv) →
  saved_frame (tasks s !!! t) = Some frame →
  ∃ s1,
    wakeUp t cv debug s
    = (doSwitch;; CortexM.setBasepri (wrap_u8 (basepri s));; mret tt) debug s1
    ∧ woken t cv s s1.
Proof.
  intros Hd Hf.
  destruct (write_saved_r0 (set_m_waiting None (tasks s !!! t)) frame
              cv_status.no_timeout Hf) as (Hr0 & Hsp & Hfr & Hst).
  destruct debug; [specialize (Hd eq_refl)|clear Hd];
    destruct (m_waitUntil (tasks s !!! t)) as [u|] eqn:Hwu;
    unfold wakeUp; msimp;
    rewrite (setReturnValue_eq _ _ frame)
      by (kred; autorewrite with kernel; exact Hf);
    msimp; (eexists; split; [reflexivity|]).
  all: unfold woken; kred; rewrite ?lookup_total_insert_eq, ?Hwu; kred; tcb_red.
  all: repeat split; try done; try exact Hfr; try exact Hst.
  all: intros x Hne; by rewrite lookup_total_insert_ne.
Qed.

Lemma notify_asserts_done cv debug s u s' :
  notify_asserts cv debug s = Done u s' → s' = s.
Proof.
  unfold notify_asserts. msimp.
  repeat (destruct (assert_ _ _ _) as [[] ?|] eqn:Has; [|done];
          apply assert_done in Has as ->).
  by intros [= <-].
Qed.

Lemma lock_waitingList cv debug s u s' :
  Mutex.lock (MutexOf cv) debug s = Done u s' →
  ∀ cv', m_waitingList (conditions s' !!! cv')
         = m_waitingList (conditions s !!! cv').
Proof.
  destruct (mutex_priority (m_mutex_cv (conditions s !!! cv))) as [p|] eqn:Hp;
    [destruct (p =? 0) eqn:Hp0|];
    destruct (isr s) as [i|] eqn:Hisr;
    destruct (s_criticalSection s) eqn:Hcs;
    unfold Mutex.lock; msimp.
  all: repeat (destruct (assert_ _ _ _) as [[] ?|] eqn:Has;
                [apply assert_done in Has as ->; msimp|done]).
  all: intros [= <- <-] cv'; kred; try done.
  all: by apply waitingList_unchanged.
Qed.

(** [notify_one] wakes the task in front of the waiting list. *)
Lemma notify_one_front cv t rest debug s :
  m_waitingList (conditions s !!! cv) = t :: rest →
  notify_one cv debug s
  = (notify_asserts cv;; Mutex.lock (MutexOf cv);;
     set_waitingList cv rest;; wakeUp t cv;; Mutex.unlock (MutexOf cv)) debug s.
Proof.
  intros Hl. unfold notify_one.
  change ((notify_asserts cv;; ?k) debug s)
    with (match notify_asserts cv debug s with
          | Done _ s' => k debug s' | Failed f => Failed f end).
  destruct (notify_asserts cv debug s) as [[] s0|] eqn:Ha; [|done].
  apply notify_asserts_done in Ha as ->.
  change ((Mutex.lock (MutexOf cv);; ?k) debug s)
    with (match Mutex.lock (MutexOf cv) debug s with
          | Done _ s' => k debug s' | Failed f => Failed f end).
  destruct (Mutex.lock (MutexOf cv) debug s) as [[] s1|] eqn:Hk; [|done].
  pose proof (lock_waitingList _ _ _ _ _ Hk cv) as Hl1. rewrite Hl in Hl1.
  kred. kred_in Hl1. by rewrite Hl1.
Qed.

(** So does every turn of the loop of [notify_all]. *)
Lemma notify_all_front cv t rest debug s :
  m_waitingList (conditions s !!! cv) = t :: rest →
  notify_all_cond cv debug s = Done true s
  ∧ notify_all_body cv tt debug s
    = (set_waitingList cv rest;; wakeUp t cv) debug s.
Proof. intros Hl. unfold notify_all_cond, notify_all_body. by msimp. Qed.

(** The run [notified_before_PendSV]: [wakeUp] has written [no_timeout]
    in the first frame of the task, at 4316, which the stack pointer saved
    in the task still led to; the task is resumed from 4160, where [r0] of
    the frame holds the address of the condition variable. *)
Lemma notified_before_PendSV_eval debug :
  ∃ s, notified_before_PendSV debug one_task = Done 4160 s
       ∧ s_currentTask s = Some 1%positive
       ∧ m_stackPointer (tasks s !!! 1%positive) = 4160
       ∧ saved_r0 (tasks s !!! 1%positive) = Some (Word (address 7))
       ∧ m_stack (tasks s !!! 1%positive) !!! 4316 = Word cv_status.no_timeout.
Proof.
  destruct debug; eexists; (split; [vm_compute; reflexivity|]);
    vm_compute; repeat split.
Qed.

(** C4.  [notify_one] and every turn of [notify_all] unlink the task in
    front of the waiting list and hand it to [wakeUp].  [wakeUp] (in a
    debug build, on a task whose [m_waiting] is the condition variable)
    leaves the task out of the waiting list, clears [m_waiting], clears
    [m_waitUntil] and unlinks the task from the timeout queue when it had
    a deadline (and leaves the queue alone when it had none), links the
    task in the ready queue by ordered insertion, and ends in [doSwitch],
    after which it restores BASEPRI.  It writes [no_timeout] in [r0] of
    the frame above the context at [m_stackPointer], and nowhere else on
    the stack.  That is the frame the task is resumed from once PendSV has
    saved its context; it is not for a task that is notified between its
    call of [wait_for] and PendSV, which is resumed with the address of the
    condition variable in [r0]. *)
Theorem wakeUp_from_notify (t : TaskId) (cv : CvId) (rest : list TaskId)
    (frame : Z) (debug : bool) (s : State) :
  (m_waitingList (conditions s !!! cv) = t :: rest →
     notify_one cv debug s
     = (notify_asserts cv;; Mutex.lock (MutexOf cv);;
        set_waitingList cv rest;; wakeUp t cv;; Mutex.unlock (MutexOf cv))
         debug s
     ∧ notify_all_cond cv debug s = Done true s
     ∧ notify_all_body cv tt debug s
       = (set_waitingList cv rest;; wakeUp t cv) debug s)
  ∧ ((debug = true → m_waiting (tasks s !!! t) = Some cv) →
     saved_frame (tasks s !!! t) = Some frame →
     ∃ s1,
       wakeUp t cv debug s
       = (doSwitch;; CortexM.setBasepri (wrap_u8 (basepri s));; mret tt)
           debug s1
       ∧ woken t cv s s1
       ∧ m_stack (tasks s1 !!! t) !!! frame = Word cv_status.no_timeout
       ∧ (t ∉ m_waitingList (conditions s1 !!! cv))
       ∧ (m_waitUntil (tasks s !!! t) ≠ None → t ∉ s_timeouts s1)
       ∧ (m_waitUntil (tasks s !!! t) = None → s_timeouts s1 = s_timeouts s)
       ∧ t ∈ s_ready s1
       ∧ (priority_ordered (tasks s1) (s_ready s) →
          priority_ordered (tasks s1) (s_ready s1)))
  ∧ (∀ build, ∃ s',
       notified_before_PendSV build one_task = Done 4160 s'
       ∧ s_currentTask s' = Some 1%positive
       ∧ m_stackPointer (tasks s' !!! 1%positive) = 4160
       ∧ saved_r0 (tasks s' !!! 1%positive) = Some (Word (address 7))
       ∧ m_stack (tasks s' !!! 1%positive) !!! 4316 = Word cv_status.no_timeout).
Proof.
  split; [|split; [|apply notified_before_PendSV_eval]].
  - intros Hl. split; [by apply notify_one_front|by apply notify_all_front].
  - intros Hd Hf.
    destruct (wakeUp_woken t cv frame debug s Hd Hf) as (s1 & Hcall & Hw).
    exists s1. split; [done|]. split; [done|].
    destruct Hw as (Hcv & _ & _ & Hr0 & (_ & Hfr & _) & _ & Htime & Hready & _).
    rewrite Hcv, Htime, Hready.
    split; [|split; [apply not_elem_of_erase|split; [|split; [|split]]]].
    + unfold saved_r0 in Hr0. rewrite Hfr, Hf in Hr0. by injection Hr0.
    + intros Hwu. destruct (m_waitUntil (tasks s !!! t)); [|done].
      apply not_elem_of_erase.
    + by intros ->.
    + apply elem_of_insert_ordered. by left.
    + apply (requeue_ordered _ (Some t)).
Qed.

Lemma wakeUp_from_notify_witness :
  notify_one 7 true demo_waiting
  = (notify_asserts 7;; Mutex.lock (MutexOf 7);;
     set_waitingList 7 [];; wakeUp 3 7;; Mutex.unlock (MutexOf 7))
      true demo_waiting
  ∧ ∃ s1,
      wakeUp 3 7 true demo_waiting
      = (doSwitch;; CortexM.setBasepri 0;; mret tt) true s1
      ∧ m_stack (tasks s1 !!! 3%positive) !!! 140 = Word cv_status.no_timeout
      ∧ (3%positive ∉ m_waitingList (conditions s1 !!! 7%positive))
      ∧ (3%positive ∉ s_timeouts s1)
      ∧ 3%positive ∈ s_ready s1.
Proof.
  destruct (wakeUp_from_notify 3 7 [] 140 true demo_waiting) as (Hn & Hw & _).
  split; [by apply Hn|].
  destruct Hw as (s1 & Hcall & _ & Hr0 & Hcv & Htime & _ & Hready & _);
    [done..|].
  exists s1. split; [done|]. split; [done|]. split; [done|].
  split; [by apply Htime|done].
Defined.

(** ** [wait_until] with a time point in the past *)

(** The [Wait] handler looks at the sign of the timeout only. *)
Lemma Wait_negative_timeout a t1 t2 b isThread debug s :
  wrap_i32 t1 < 0 → wrap_i32 t2 < 0 →
  serviceCallHandler (mkFrame a t1 b) Wait isThread debug s
  = serviceCallHandler (mkFrame a t2 b) Wait isThread debug s.
Proof.
  intros H1 H2. unfold serviceCallHandler. cbn [r0 r1 r2].
  by rewrite !(proj2 (Z.leb_gt _ _)) by done.
Qed.

(** The comparison of two tasks reads [m_priority] and [m_lastStarted]. *)
Lemma more_important_insert ts c tcb a b :
  m_priority tcb = m_priority (ts !!! c) →
  m_lastStarted tcb = m_lastStarted (ts !!! c) →
  more_important (<[c := tcb]> ts) a b = more_important ts a b.
Proof.
  intros Hp Hl. unfold more_important, priorityIsLower.
  destruct (decide (a = c)) as [->|Ha], (decide (b = c)) as [->|Hb];
    rewrite ?lookup_total_insert_eq, ?lookup_total_insert_ne by done;
    by rewrite ?Hp, ?Hl.
Qed.

Lemma insert_ordered_ext before before' item l :
  (∀ x y, before x y = before' x y) →
  insert_ordered before item l = insert_ordered before' item l.
Proof. intros He. induction l as [|x l IH]; cbn; [done|]. by rewrite He, IH. Qed.

Lemma priority_ordered_insert ts c tcb l :
  m_priority tcb = m_priority (ts !!! c) →
  m_lastStarted tcb = m_lastStarted (ts !!! c) →
  priority_ordered ts l → priority_ordered (<[c := tcb]> ts) l.
Proof.
  intros Hp Hl. apply StronglySorted_ext. intros x y _ _.
  unfold by_priority. by rewrite more_important_insert.
Qed.

Lemma waiting_insert_ordered ts c tcb l :
  m_priority tcb = m_priority (ts !!! c) →
  m_lastStarted tcb = m_lastStarted (ts !!! c) →
  priority_ordered ts l →
  priority_ordered (<[c := tcb]> ts) (insert_ordered (more_important ts) c l).
Proof.
  intros Hp Hl Ho. apply priority_ordered_insert; [done..|].
  by apply (requeue_ordered _ (Some c)).
Qed.

Lemma waiting_insert_ordered' ts c tcb1 tcb2 l :
  m_priority tcb1 = m_priority (ts !!! c) →
  m_lastStarted tcb1 = m_lastStarted (ts !!! c) →
  m_priority tcb2 = m_priority (ts !!! c) →
  m_lastStarted tcb2 = m_lastStarted (ts !!! c) →
  priority_ordered ts l →
  priority_ordered (<[c := tcb2]> ts)
    (insert_ordered (more_important (<[c := tcb1]> ts)) c l).
Proof.
  intros Hp1 Hl1 Hp2 Hl2 Ho.
  rewrite (insert_ordered_ext _ (more_important ts)).
  - by apply waiting_insert_ordered.
  - intros x y. by apply more_important_insert.
Qed.

Lemma Wait_no_deadline cv a m isThread debug s c :
  s_currentTask s = Some c →
  wrap_i32 a < 0 →
  (debug = true → isThread = true ∧ wait_contract cv m s) →
  ∃ s1,
    serviceCallHandler (mkFrame (address cv) a (mutex_address m)) Wait
      isThread debug s
    = doSwitch debug s1
    ∧ waiting_no_deadline c cv s s1.
Proof.
  intros Hc Ha Hd. apply Z.leb_gt in Ha.
  destruct debug.
  - destruct (Hd eq_refl) as (-> & Hs & Hisr & Hm & Hmx). clear Hd.
    destruct m as [mx|].
    + destruct Hmx as (Hcs & Hlk & Hmcs & Hp).
      destruct (mutex_priority (mutexes s !!! mx)) as [p|] eqn:Hprio;
        [destruct (p =? 0) eqn:Hp0; [|apply Z.eqb_eq in Hp]|].
      all: msimp; (eexists; split; [reflexivity|]).
      all: unfold waiting_no_deadline; kred;
        rewrite ?lookup_total_insert_eq; tcb_red.
      all: repeat split; try done; try apply insert_ordered_perm.
      all: by apply waiting_insert_ordered'.
    + msimp. eexists; split; [reflexivity|].
      unfold waiting_no_deadline; kred; rewrite ?lookup_total_insert_eq; tcb_red.
      repeat split; try done; try apply insert_ordered_perm.
      by apply waiting_insert_ordered.
  - clear Hd. destruct m as [mx|].
    + destruct (mutex_priority (mutexes s !!! mx)) as [p|] eqn:Hprio;
        [destruct (p =? 0) eqn:Hp0|].
      all: msimp; (eexists; split; [reflexivity|]).
      all: unfold waiting_no_deadline; kred;
        rewrite ?lookup_total_insert_eq; tcb_red.
      all: repeat split; try done; try apply insert_ordered_perm.
      all: by apply waiting_insert_ordered'.
    + msimp. eexists; split; [reflexivity|].
      unfold waiting_no_deadline; kred; rewrite ?lookup_total_insert_eq; tcb_red.
      repeat split; try done; try apply insert_ordered_perm.
      by apply waiting_insert_ordered.
Qed.

(** [wait_until] hands [wait_for] the difference to [now()]. *)
Lemma wait_until_wait_for cv m tp debug s :
  (debug = true → s_isStarted s = true ∧ isr s = None) →
  wait_until cv m tp debug s
  = wait_for cv m (wrap_i32 (tp - s_ticks s)) debug s.
Proof.
  intros Hd. unfold wait_until, now.
  destruct debug; [destruct (Hd eq_refl) as [Hs Hisr]|]; by msimp.
Qed.

Lemma wait_for_negative cv m timeout debug s :
  wrap_i32 timeout < 0 →
  wait_for cv m timeout debug s = wait cv m debug s.
Proof.
  intros Ht.
  assert ((0 <=? wrap_i32 (wrap_u32 timeout)) = false) as H1.
  { rewrite wrap_i32_wrap_u32. lia. }
  assert ((0 <=? wrap_i32 (wrap_u32 (-1))) = false) as H2 by done.
  unfold wait_for, wait, svc.
  change ((wait_asserts cv;; ?k) debug s)
    with (match wait_asserts cv debug s with
          | Done _ s' => k debug s' | Failed f => Failed f end).
  destruct (wait_asserts cv debug s) as [[] s0|]; [|done].
  kred. by rewrite H1, H2.
Qed.

Lemma wait_to_handler cv m debug s :
  (debug = true → wait_contract cv m s) →
  wait cv m debug s
  = (serviceCallHandler (mkFrame (address cv) (wrap_u32 (-1)) (mutex_address m))
       Wait (bool_decide (isr s = None));; mret tt) debug s.
Proof.
  intros Hd. unfold wait, wait_asserts.
  destruct debug; [|by msimp].
  destruct (Hd eq_refl) as (Hs & Hisr & Hm & _). apply Z.leb_le in Hm.
  by msimp.
Qed.

Lemma wait_for_to_handler cv m timeout debug s :
  (debug = true → wait_contract cv m s) →
  wait_for cv m timeout debug s
  = (serviceCallHandler
       (mkFrame (address cv) (wrap_u32 timeout) (mutex_address m))
       Wait (bool_decide (isr s = None));; mret tt) debug s.
Proof.
  intros Hd. unfold wait_for, wait_asserts.
  destruct debug; [|by msimp].
  destruct (Hd eq_refl) as (Hs & Hisr & Hm & _). apply Z.leb_le in Hm.
  by msimp.
Qed.

(** The [Wait] handler with a timeout that is not negative. *)
Lemma Wait_deadline cv a m isThread debug s c :
  s_currentTask s = Some c →
  0 ≤ wrap_i32 a →
  (debug = true →
   isThread = true ∧ wait_contract cv m s
   ∧ ∀ x, x ∈ s_timeouts s → m_waitUntil (tasks s !!! x) ≠ None) →
  ∃ s1,
    serviceCallHandler (mkFrame (address cv) a (mutex_address m)) Wait
      isThread debug s
    = doSwitch debug s1
    ∧ waiting_with_deadline c cv (wrap_i32 (s_ticks s + wrap_i32 a)) s s1.
Proof.
  intros Hc Ha Hd. apply Z.leb_le in Ha.
  assert (debug = true →
          ∀ x, x ∈ c :: s_timeouts s →
               m_waitUntil
                 (<[c := set_m_waitUntil (Some (wrap_i32 (s_ticks s + wrap_i32 a)))
                           (tasks s !!! c)]> (tasks s) !!! x) ≠ None) as Hwu.
  { intros Hdb x Hx. destruct (decide (x = c)) as [->|Hne];
      [by rewrite lookup_total_insert_eq|].
    rewrite lookup_total_insert_ne by done.
    apply elem_of_cons in Hx as [?|Hx]; [done|]. by apply Hd. }
  assert (∀ tcb l,
            m_waitUntil tcb = Some (wrap_i32 (s_ticks s + wrap_i32 a)) →
            insert_ordered
              (wakes_before
                 (<[c := set_m_waitUntil (Some (wrap_i32 (s_ticks s + wrap_i32 a)))
                           (tasks s !!! c)]> (tasks s))) c l
            = insert_ordered (wakes_before (<[c := tcb]> (tasks s))) c l) as Hins.
  { intros tcb l Htcb. apply insert_ordered_ext. intros x y. unfold wakes_before.
    destruct (decide (x = c)) as [->|Hx], (decide (y = c)) as [->|Hy];
      by rewrite ?lookup_total_insert_eq, ?lookup_total_insert_ne, ?Htcb by done. }
  destruct debug.
  - destruct (Hd eq_refl) as (-> & (Hs & Hisr & Hm & Hmx) & _). clear Hd.
    specialize (Hwu eq_refl).
    destruct m as [mx|].
    + destruct Hmx as (Hcs & Hlk & Hmcs & Hp).
      destruct (mutex_priority (mutexes s !!! mx)) as [p|] eqn:Hprio;
        [destruct (p =? 0) eqn:Hp0; [|apply Z.eqb_eq in Hp]|].
      all: msimp; rewrite timeouts_insertWhen_eq by (intros _; exact Hwu).
      all: msimp; (eexists; split; [reflexivity|]).
      all: unfold waiting_with_deadline; kred;
        rewrite ?lookup_total_insert_eq; tcb_red.
      all: repeat split; try done; try apply insert_ordered_perm.
      all: by apply Hins.
    + msimp. rewrite timeouts_insertWhen_eq by (intros _; exact Hwu).
      msimp. eexists; split; [reflexivity|].
      unfold waiting_with_deadline; kred; rewrite ?lookup_total_insert_eq; tcb_red.
      repeat split; try done; try apply insert_ordered_perm.
      by apply Hins.
  - clear Hd. destruct m as [mx|].
    + destruct (mutex_priority (mutexes s !!! mx)) as [p|] eqn:Hprio;
        [destruct (p =? 0) eqn:Hp0|].
      all: msimp; rewrite timeouts_insertWhen_eq by done.
      all: msimp; (eexists; split; [reflexivity|]).
      all: unfold waiting_with_deadline; kred;
        rewrite ?lookup_total_insert_eq; tcb_red.
      all: repeat split; try done; try apply insert_ordered_perm.
      all: by apply Hins.
    + msimp. rewrite timeouts_insertWhen_eq by done.
      msimp. eexists; split; [reflexivity|].
      unfold waiting_with_deadline; kred; rewrite ?lookup_total_insert_eq; tcb_red.
      repeat split; try done; try apply insert_ordered_perm.
      by apply Hins.
Qed.

(** C5, as stated, fails: the timeout is a [duration], which counts in an
    [int32_t].  For a time point more than [2 ^ 31] ms in the past the
    difference to [now()] is not negative: at the tick [INT32_MAX],
    [wait_until] of the time point -2 hands the service call the timeout
    [INT32_MAX], and the handler sets the deadline -2 and links the task
    in the timeout queue, in both builds. *)
Lemma wait_until_far_past :
  let s := set_s_ticks INT32_MAX demo in
  -2 < s_ticks s
  ∧ (∃ s', wait_until 7 None (-2) true s = Done tt s'
           ∧ m_waitUntil (tasks s' !!! 1%positive) = Some (-2)
           ∧ s_timeouts s' = [1%positive])
  ∧ (∃ s', wait_until 7 None (-2) false s = Done tt s'
           ∧ m_waitUntil (tasks s' !!! 1%positive) = Some (-2)
           ∧ s_timeouts s' = [1%positive]).
Proof.
  split; [done|].
  split; eexists; (split; [by vm_compute|by vm_compute]).
Qed.

(** C5, amended.  [wait_until] hands [wait_for], and so the service call,
    the difference between the time point and [now()], computed in
    [int32_t].  For a time point in the past by not more than [2 ^ 31] ms
    that timeout is negative, which the handler reads as an absent one:
    the call is the call of [wait]; no deadline is set and the timeout
    queue is left as it is; the task is linked in the waiting list of the
    condition variable by ordered insertion, [m_waiting] is set,
    [s_currentTask] is cleared and the handler ends in [doSwitch]; a task
    that was in no timeout queue and had no deadline still has none, so no
    tick can wake it.  For any other time point, one further in the past
    included, the timeout is not negative: the handler sets the deadline
    [s_ticks + timeout] and links the task in the timeout queue. *)
Theorem wait_until_past (cv : CvId) (m : option MutexId) (tp : Z)
    (debug : bool) (s : State) (c : TaskId) :
  s_currentTask s = Some c →
  (debug = true → wait_contract cv m s) →
  let timeout := wrap_i32 (tp - s_ticks s) in
  wait_until cv m tp debug s = wait_for cv m timeout debug s
  ∧ (INT32_MIN ≤ tp - s_ticks s ≤ INT32_MAX → timeout = tp - s_ticks s)
  ∧ (- 2 ^ 32 < tp - s_ticks s < INT32_MIN → 0 ≤ timeout)
  ∧ (timeout < 0 →
     wait_until cv m tp debug s = wait cv m debug s
     ∧ ∃ s1,
         wait_until cv m tp debug s = (doSwitch;; mret tt) debug s1
         ∧ waiting_no_deadline c cv s s1
         ∧ c ∈ m_waitingList (conditions s1 !!! cv)
         ∧ (c ∉ s_timeouts s → c ∉ s_timeouts s1)
         ∧ (m_waitUntil (tasks s !!! c) = None →
            m_waitUntil (tasks s1 !!! c) = None))
  ∧ (0 ≤ timeout →
     (debug = true →
      ∀ x, x ∈ s_timeouts s → m_waitUntil (tasks s !!! x) ≠ None) →
     ∃ s1,
       wait_until cv m tp debug s = (doSwitch;; mret tt) debug s1
       ∧ waiting_with_deadline c cv (wrap_i32 (s_ticks s + timeout)) s s1
       ∧ c ∈ s_timeouts s1
       ∧ c ∈ m_waitingList (conditions s1 !!! cv)).
Proof.
  intros Hc Hd timeout. subst timeout.
  assert (wait_until cv m tp debug s
          = wait_for cv m (wrap_i32 (tp - s_ticks s)) debug s) as H1.
  { rewrite wait_until_wait_for; [done|].
    intros Hdb. by destruct (Hd Hdb) as (? & ? & _). }
  assert (∀ a, wrap_i32 (wrap_u32 a) = wrap_i32 a) as Hw.
  { intros a. apply wrap_i32_wrap_u32. }
  split; [done|]. split; [apply wrap_i32_small|]. split; [|split].
  - intros Hfar. unfold wrap_i32, INT32_MIN in *.
    replace (tp - s_ticks s + 2 ^ 31)
      with (tp - s_ticks s + 2 ^ 31 + 2 ^ 32 + (-1) * 2 ^ 32) by lia.
    rewrite Z.mod_add by lia. rewrite Z.mod_small; lia.
  - intros Hneg.
    assert (wait_until cv m tp debug s = wait cv m debug s) as H2.
    { rewrite H1. apply wait_for_negative. by rewrite wrap_i32_idem. }
    split; [done|].
    destruct (Wait_no_deadline cv (wrap_u32 (-1)) m (bool_decide (isr s = None))
                debug s c Hc) as (s1 & Hcall & Hs1).
    { done. }
    { intros Hdb. split; [|by apply Hd].
      destruct (Hd Hdb) as (_ & -> & _). done. }
    exists s1. split.
    { rewrite H2, wait_to_handler by done. unfold mbind, M_bind.
      by rewrite Hcall. }
    split; [done|].
    destruct Hs1 as (Htime & Hwu & _ & Hperm & _).
    split; [rewrite Hperm; by left|]. split; [by rewrite Htime|by rewrite Hwu].
  - intros Hpos Hto.
    destruct (Wait_deadline cv (wrap_u32 (wrap_i32 (tp - s_ticks s))) m
                (bool_decide (isr s = None))
                debug s c Hc) as (s1 & Hcall & Hs1).
    { by rewrite Hw, wrap_i32_idem. }
    { intros Hdb. split; [|split; [by apply Hd|by apply Hto]].
      destruct (Hd Hdb) as (_ & -> & _). done. }
    rewrite Hw, wrap_i32_idem in Hs1.
    exists s1. split.
    { rewrite H1, wait_for_to_handler by done. unfold mbind, M_bind.
      by rewrite Hcall. }
    split; [done|].
    destruct Hs1 as (_ & Htime & _ & Hperm & _).
    split; [rewrite Htime; apply elem_of_insert_ordered; by left|].
    rewrite Hperm. by left.
Qed.

Lemma wait_until_past_witness :
  wait_until 7 None 0 true (set_s_ticks 40 demo) = wait 7 None true (set_s_ticks 40 demo)
  ∧ ∃ s1,
      wait_until 7 None 0 true (set_s_ticks 40 demo) = (doSwitch;; mret tt) true s1
      ∧ s_timeouts s1 = []
      ∧ m_waitUntil (tasks s1 !!! 1%positive) = None
      ∧ 1%positive ∈ m_waitingList (conditions s1 !!! 7%positive).
Proof.
  destruct (wait_until_past 7 None 0 true (set_s_ticks 40 demo) 1)
    as (_ & _ & _ & Hpast & _).
  - reflexivity.
  - intros _. repeat split. by vm_compute.
  - destruct Hpast as (Hwait & s1 & Hcall & Hs1 & Hin & _ & Hwu); [done|].
    split; [done|]. exists s1. split; [done|].
    destruct Hs1 as (Htime & _). split; [done|]. split; [by apply Hwu|done].
Defined.

(** ** [SystickHandler] *)

Lemma promoted_nil s : promoted [] s s.
Proof.
  unfold promoted. split; [|done].
  intros t Ht. by apply elem_of_nil in Ht.
Qed.

Lemma SystickHandler_cond_empty debug s :
  s_timeouts s = [] → SystickHandler_cond debug s = Done false s.
Proof. intros Hl. unfold SystickHandler_cond. by msimp. Qed.

Lemma SystickHandler_cond_front t rest deadline debug s :
  s_timeouts s = t :: rest →
  m_waitUntil (tasks s !!! t) = Some deadline →
  SystickHandler_cond debug s = Done (deadline <=? s_ticks s) s.
Proof. intros Hl Hd. unfold SystickHandler_cond. by msimp. Qed.

Lemma elem_of_erase (t x : TaskId) l :
  x ∈ EmbeddedList.erase t l ↔ x ≠ t ∧ x ∈ l.
Proof. unfold EmbeddedList.erase. by rewrite list_elem_of_filter. Qed.

Lemma waitingList_erase_sub (cs : gmap CvId ConditionVariable) cv (t x : TaskId) m cv' :
  x ∈ m_waitingList
        (<[cv := mkCV m (EmbeddedList.erase t (m_waitingList (cs !!! cv)))]> cs
         !!! cv') →
  x ∈ m_waitingList (cs !!! cv').
Proof.
  destruct (decide (cv' = cv)) as [->|Hne].
  - rewrite lookup_total_insert_eq. cbn. by intros [_ ?]%elem_of_erase.
  - by rewrite lookup_total_insert_ne.
Qed.

Lemma waitingList_erase_other (cs : gmap CvId ConditionVariable) cv (t x : TaskId) m cv' :
  x ≠ t → x ∈ m_waitingList (cs !!! cv') →
  x ∈ m_waitingList
        (<[cv := mkCV m (EmbeddedList.erase t (m_waitingList (cs !!! cv)))]> cs
         !!! cv').
Proof.
  intros Hx Hin. destruct (decide (cv' = cv)) as [->|Hne].
  - rewrite lookup_total_insert_eq. cbn. by apply elem_of_erase.
  - by rewrite lookup_total_insert_ne.
Qed.

(** One turn of the loop. *)
Lemma SystickHandler_body_front t rest dirty debug s :
  s_timeouts s = t :: rest →
  (m_waiting (tasks s !!! t) ≠ None → is_Some (saved_frame (tasks s !!! t))) →
  ∃ s',
    SystickHandler_body dirty debug s = Done true s'
    ∧ s_timeouts s' = rest
    ∧ s_ticks s' = s_ticks s
    ∧ promoted [t] s s'.
Proof.
  intros Hl Hsaved. destruct (m_waiting (tasks s !!! t)) as [cv|] eqn:Hw.
  - destruct Hsaved as [frame Hf]; [done|].
    destruct (write_saved_r0 (set_m_waitUntil None (tasks s !!! t)) frame
                cv_status.timeout Hf) as (Hr0 & Hsp & Hfr & Hst).
    unfold SystickHandler_body. msimp.
    rewrite (setReturnValue_eq _ _ frame)
      by (kred; autorewrite with kernel; exact Hf).
    msimp.
    eexists. split; [reflexivity|]. split; [done|]. split; [done|].
    unfold promoted. kred. split; [|split; [|split; [|split; [|split; [|split]]]]].
    + intros x ->%list_elem_of_singleton.
      rewrite !lookup_total_insert_eq. tcb_red. rewrite Hw.
      repeat split; try done; try exact Hfr; try exact Hst.
      rewrite conditions_insert_eq. kred.
      apply not_elem_of_erase.
    + intros x [Hx _]%not_elem_of_cons. by rewrite lookup_total_insert_ne.
    + intros cv' x. apply waitingList_erase_sub.
    + intros cv' x [Hx _]%not_elem_of_cons. by apply waitingList_erase_other.
    + apply insert_ordered_perm.
    + intros Ho. apply (requeue_ordered _ (Some t)).
      by apply priority_ordered_insert.
    + done.
  - clear Hsaved. unfold SystickHandler_body. msimp.
    eexists. split; [reflexivity|]. split; [done|]. split; [done|].
    unfold promoted. kred. split; [|split; [|split; [|split; [|split; [|split]]]]].
    + intros x ->%list_elem_of_singleton.
      rewrite !lookup_total_insert_eq. tcb_red. by rewrite Hw.
    + intros x [Hx _]%not_elem_of_cons. by rewrite lookup_total_insert_ne.
    + done.
    + done.
    + apply insert_ordered_perm.
    + intros Ho. apply (requeue_ordered _ (Some t)).
      by apply priority_ordered_insert.
    + done.
Qed.

Lemma promoted_cons t unlinked s s' s1 :
  t ∉ unlinked → promoted [t] s s' → promoted unlinked s' s1 →
  promoted (t :: unlinked) s s1.
Proof.
  intros Ht (Ht1 & Hf1 & Hsub1 & Hstay1 & Hr1 & Ho1 & Hk1)
            (Ht2 & Hf2 & Hsub2 & Hstay2 & Hr2 & Ho2 & Hk2).
  split; [|split; [|split; [|split; [|split; [|split]]]]].
  - intros x [->|Hx]%elem_of_cons.
    + destruct (Ht1 t ltac:(by left)) as (Hwu & Hw & Hp & Hl & Hcv).
      rewrite (Hf2 t Ht). repeat split; try done.
      destruct (m_waiting (tasks s !!! t)) as [cv|]; [|done].
      destruct Hcv as (Hcv & Hr0 & Hsame). split; [|done].
      intros Hin. by apply Hcv, Hsub2.
    + assert (x ∉ [t]) as Hxt.
      { intros ->%list_elem_of_singleton. done. }
      destruct (Ht2 x Hx) as (Hwu & Hw & Hp & Hl & Hcv).
      rewrite (Hf1 x Hxt) in Hw, Hp, Hl, Hcv. done.
  - intros x [Hxt Hx]%not_elem_of_cons.
    rewrite (Hf2 x Hx). apply Hf1. by intros ->%list_elem_of_singleton.
  - intros cv x Hin. by apply Hsub1, Hsub2.
  - intros cv x [Hxt Hx]%not_elem_of_cons Hin.
    apply Hstay2; [done|]. apply Hstay1; [|done].
    by intros ->%list_elem_of_singleton.
  - rewrite Hr2, Hr1. cbn. by rewrite Permutation_middle.
  - intros Ho. by apply Ho2, Ho1.
  - destruct Hk1 as (? & ? & ? & ? & ?), Hk2 as (? & ? & ? & ? & ?).
    repeat split; congruence.
Qed.

Lemma expired_frame ts ts' now l :
  (∀ x, x ∈ l → ts' !!! x = ts !!! x) → expired ts' now l = expired ts now l.
Proof.
  induction l as [|x l IH]; intros He; [done|]. cbn.
  rewrite (He x) by left. rewrite IH; [done|]. intros y Hy. apply He. by right.
Qed.

Lemma expired_app ts now l :
  expired ts now l ++ drop (length (expired ts now l)) l = l.
Proof.
  induction l as [|x l IH]; [done|]. cbn.
  destruct (m_waitUntil (ts !!! x)) as [d|]; [|done].
  destruct (d <=? now); [|done]. cbn. by rewrite IH.
Qed.

Lemma elem_of_expired ts now l x : x ∈ expired ts now l → x ∈ l.
Proof.
  intros Hx. rewrite <- (expired_app ts now l). apply elem_of_app. by left.
Qed.

Lemma expired_due ts now l x :
  x ∈ expired ts now l →
  ∃ deadline, m_waitUntil (ts !!! x) = Some deadline ∧ deadline ≤ now.
Proof.
  induction l as [|y l IH]; cbn; [by intros ?%elem_of_nil|].
  destruct (m_waitUntil (ts !!! y)) as [d|] eqn:Hd; [|by intros ?%elem_of_nil].
  destruct (d <=? now) eqn:Hdue; [|by intros ?%elem_of_nil].
  intros [->|Hx]%elem_of_cons; [|by apply IH].
  exists d. split; [done|lia].
Qed.

(** The loop stops at the first task that is not due. *)
Lemma expired_stop ts now l t rest :
  drop (length (expired ts now l)) l = t :: rest →
  ∀ deadline, m_waitUntil (ts !!! t) = Some deadline → now < deadline.
Proof.
  induction l as [|y l IH]; cbn; [done|].
  destruct (m_waitUntil (ts !!! y)) as [d|] eqn:Hd.
  - destruct (d <=? now) eqn:Hdue; cbn.
    + apply IH.
    + intros [= -> ->] deadline Hdl. rewrite Hd in Hdl. injection Hdl as <-. lia.
  - cbn. intros [= -> ->] deadline Hdl. congruence.
Qed.

(** The loop unlinks the tasks in front of the queue that are due, and
    only them; [dirty] is set when there is one. *)
Lemma SystickHandler_loop debug l :
  ∀ fuel dirty s,
    s_timeouts s = l → NoDup l →
    (∀ t, t ∈ l → m_waitUntil (tasks s !!! t) ≠ None) →
    (∀ t, t ∈ l → m_waiting (tasks s !!! t) ≠ None →
          is_Some (saved_frame (tasks s !!! t))) →
    (length l < fuel)%nat →
    ∃ s1,
      while fuel SystickHandler_cond SystickHandler_body dirty debug s
      = Done (dirty || negb (bool_decide (expired (tasks s) (s_ticks s) l = []))) s1
      ∧ s_timeouts s1 = drop (length (expired (tasks s) (s_ticks s) l)) l
      ∧ s_ticks s1 = s_ticks s
      ∧ promoted (expired (tasks s) (s_ticks s) l) s s1.
Proof.
  induction l as [|t l IH]; intros fuel dirty s Hl Hnd Hwu Hsv Hfuel.
  - destruct fuel as [|fuel]; [cbn in Hfuel; lia|].
    exists s. cbn [while expired]. kred.
    rewrite SystickHandler_cond_empty by done. kred.
    rewrite orb_false_r. split; [done|]. split; [done|]. split; [done|].
    apply promoted_nil.
  - destruct fuel as [|fuel]; [cbn in Hfuel; lia|].
    apply NoDup_cons in Hnd as [Ht Hnd].
    destruct (m_waitUntil (tasks s !!! t)) as [deadline|] eqn:Hd.
    2:{ by destruct (Hwu t ltac:(left)). }
    cbn [while expired]. rewrite Hd. unfold mbind, M_bind.
    rewrite (SystickHandler_cond_front t l deadline) by done.
    destruct (deadline <=? s_ticks s) eqn:Hdue.
    + destruct (SystickHandler_body_front t l dirty debug s Hl)
        as (s' & Hbody & Hl' & Hticks & Hp).
      { apply Hsv. by left. }
      rewrite Hbody.
      pose proof Hp as (_ & Hf & _).
      destruct (IH fuel true s' Hl' Hnd) as (s1 & Hloop & Hl1 & Hticks1 & Hp1).
      { intros x Hx. rewrite Hf; [apply Hwu; by right|].
        intros ->%list_elem_of_singleton. done. }
      { intros x Hx. rewrite Hf; [apply Hsv; by right|].
        intros ->%list_elem_of_singleton. done. }
      { cbn in Hfuel. lia. }
      assert (expired (tasks s') (s_ticks s') l = expired (tasks s) (s_ticks s) l)
        as He.
      { rewrite Hticks. apply expired_frame. intros x Hx. apply Hf.
        intros ->%list_elem_of_singleton. done. }
      rewrite He in Hloop, Hl1, Hp1. rewrite Hticks in Hticks1.
      exists s1. unfold mbind, M_bind in Hloop. rewrite Hloop.
      split; [|split; [exact Hl1|split; [done|apply (promoted_cons _ _ _ s'); [|done..]]]].
      2:{ by intros ?%elem_of_expired. }
      rewrite (bool_decide_false (_ :: _ = [])) by done. cbn [negb orb].
      by rewrite orb_true_r.
    + exists s. rewrite orb_false_r. split; [done|]. split; [done|].
      split; [done|]. apply promoted_nil.
Qed.




(** ** The order of the ready queue and of the waiting lists *)

Lemma front_most_important ts a l b :
  priority_ordered ts (a :: l) → b ∈ l →
  m_priority (ts !!! a) ≤ m_priority (ts !!! b)
  ∧ (m_priority (ts !!! a) = m_priority (ts !!! b) →
     m_lastStarted (ts !!! a) ≤ m_lastStarted (ts !!! b)).
Proof.
  intros [Hf _]%StronglySorted_cons Hb.
  rewrite Forall_forall in Hf. specialize (Hf b Hb).
  unfold by_priority, more_important, priorityIsLower in Hf.
  repeat case_match; lia.
Qed.

Lemma stop_then_lower_eval debug :
  ∃ s, stop_then_lower debug three_tasks = Done tt s
       ∧ s_ready s = [2%positive; 3%positive]
       ∧ s_currentTask s = Some 1%positive
       ∧ m_active (tasks s !!! 2%positive) = false
       ∧ m_priority (tasks s !!! 2%positive) = 255
       ∧ m_active (tasks s !!! 3%positive) = true
       ∧ m_priority (tasks s !!! 3%positive) = 10.
Proof.
  destruct debug; eexists; (split; [vm_compute; reflexivity|]);
    vm_compute; repeat split.
Qed.

(** The ready queue is then out of order. *)
Lemma stop_then_lower_unsorted debug s :
  stop_then_lower debug three_tasks = Done tt s →
  ¬ priority_ordered (tasks s) (s_ready s).
Proof.
  destruct (stop_then_lower_eval debug) as (s' & -> & Hr & _ & _ & H2 & _ & H3).
  intros [= <-] Ho. rewrite Hr in Ho.
  destruct (front_most_important _ _ _ 3%positive Ho) as [Hp _]; [by left|].
  rewrite H2, H3 in Hp. lia.
Qed.

(** Task 2, stopped, is the one that runs next, ahead of task 3: a debug
    build halts on [assert(s_currentTask->isStarted())]. *)
Lemma then_sleep_eval :
  then_sleep true three_tasks = Failed AssertionFailed
  ∧ ∃ r s, then_sleep false three_tasks = Done r s
           ∧ s_currentTask s = Some 2%positive
           ∧ s_ready s = [3%positive].
Proof.
  split; [by vm_compute|].
  do 2 eexists. split; [vm_compute; reflexivity|]. vm_compute. by split.
Qed.

(** C2.  Every insertion into the ready queue and into a waiting list is
    the ordered insertion on (priority, last start): it keeps a list in
    order, and in a list in order no task has a smaller priority value
    than the one in front, nor, at the same priority, an older start.
    Yet the ready queue does not always stay in order: [Terminate] leaves
    a stopped task that was ready in the ready queue, and [updatePriority]
    does not reorder for a task that is not started.  After
    [stop_then_lower] the ready queue holds task 2 (stopped, priority 255)
    in front of task 3 (priority 10); when task 1 sleeps, task 2 is the
    one dequeued, on which a debug build halts in [pendSvHandler] and a
    release build lets it run. *)
Theorem ready_queue_order :
  (∀ t debug s,
     ready_insertWhen t debug s
     = Done tt (set_s_ready
                  (insert_ordered (more_important (tasks s)) t (s_ready s)) s))
  ∧ (∀ cv t debug s,
       addWaiting cv t debug s
       = Done tt (set_conditions
           (<[cv := mkCV (m_mutex_cv (conditions s !!! cv))
                      (insert_ordered (more_important (tasks s)) t
                         (m_waitingList (conditions s !!! cv)))]>
              (conditions s)) s))
  ∧ (∀ ts t l,
       priority_ordered ts l →
       priority_ordered ts (insert_ordered (more_important ts) t l))
  ∧ (∀ ts a l b,
       priority_ordered ts (a :: l) → b ∈ l →
       m_priority (ts !!! a) ≤ m_priority (ts !!! b)
       ∧ (m_priority (ts !!! a) = m_priority (ts !!! b) →
          m_lastStarted (ts !!! a) ≤ m_lastStarted (ts !!! b)))
  ∧ (∀ debug, ∃ s,
       stop_then_lower debug three_tasks = Done tt s
       ∧ s_ready s = [2%positive; 3%positive]
       ∧ m_active (tasks s !!! 2%positive) = false
       ∧ m_priority (tasks s !!! 2%positive) = 255
       ∧ m_priority (tasks s !!! 3%positive) = 10
       ∧ ¬ priority_ordered (tasks s) (s_ready s))
  ∧ then_sleep true three_tasks = Failed AssertionFailed
  ∧ ∃ r s, then_sleep false three_tasks = Done r s
           ∧ s_currentTask s = Some 2%positive
           ∧ s_ready s = [3%positive].
Proof.
  split; [apply ready_insertWhen_eq|]. split; [apply addWaiting_eq|].
  split; [intros ts t l; apply (requeue_ordered ts (Some t))|].
  split; [apply front_most_important|].
  split; [|apply then_sleep_eval].
  intros debug.
  destruct (stop_then_lower_eval debug) as (s & Hs & Hr & _ & Ha & H2 & _ & H3).
  exists s. split; [exact Hs|]. split; [exact Hr|]. split; [exact Ha|].
  split; [exact H2|]. split; [exact H3|].
  by apply (stop_then_lower_unsorted debug).
Qed.

Lemma ready_queue_order_witness :
  priority_ordered demo_tasks [1%positive; 2%positive; 3%positive].
Proof.
  destruct ready_queue_order as (_ & _ & Hins & _).
  apply (Hins demo_tasks 1%positive [2%positive; 3%positive]).
  repeat constructor.
Defined.

(** ** The parts of an [IsrPriority] *)

Lemma lor_shifted a b k :
  0 ≤ k → 0 ≤ b < 2 ^ k → Z.lor (Z.shiftl a k) b = a * 2 ^ k + b.
Proof.
  intros Hk Hb. rewrite Z.shiftl_mul_pow2 by done.
  assert (Z.land (a * 2 ^ k) b = 0) as Hd.
  { apply Z.bits_inj'. intros n Hn. rewrite Z.land_spec, Z.bits_0.
    destruct (Z.lt_ge_cases n k) as [Hlt|Hge].
    - by rewrite Z.mul_pow2_bits_low.
    - destruct (Z.eq_dec b 0) as [->|Hb0].
      + by rewrite Z.bits_0, andb_false_r.
      + rewrite (Z.bits_above_log2 b n), andb_false_r; [done|lia|].
        apply Z.lt_le_trans with k; [|done]. apply Z.log2_lt_pow2; lia. }
  by rewrite <- Z.lxor_lor, <- Z.add_nocarry_lxor.
Qed.

(** X12.  [preempt<PreemptBits>()] gives back the preemption level a
    priority was built from by [FromPreemptSub<PreemptBits>], cut to
    [PreemptBits] bits. *)
Theorem preempt_FromPreemptSub (bits preempt sub : Z) :
  0 ≤ bits ≤ 8 → 0 ≤ preempt < 256 → 0 ≤ sub < 256 →
  IsrPriority_preempt bits (IsrPriority.FromPreemptSub bits preempt sub)
  = preempt mod 2 ^ bits.
Proof.
  intros Hb Hp Hs.
  unfold IsrPriority_preempt, IsrPriority.FromPreemptSub,
    IsrPriority.kMaxPreemptionBits, wrap_u8.
  rewrite !Z.shiftl_1_l, !Z.sub_1_r, <- !Z.ones_equiv, !Z.land_ones by lia.
  rewrite lor_shifted by (try apply Z.mod_pos_bound; lia).
  rewrite Z.shiftr_div_pow2 by lia.
  assert (bits = 0 ∨ bits = 1 ∨ bits = 2 ∨ bits = 3 ∨ bits = 4 ∨ bits = 5
          ∨ bits = 6 ∨ bits = 7 ∨ bits = 8) as Hc by lia.
  repeat destruct Hc as [->|Hc]; try subst bits; cbn -[Z.div Z.modulo Z.mul];
    Z.div_mod_to_equations; lia.
Qed.

Lemma land_shifted v a k :
  0 ≤ k → Z.land v (Z.shiftl a k) = Z.shiftl (Z.land (Z.shiftr v k) a) k.
Proof.
  intros Hk. apply Z.bits_inj'. intros n Hn.
  rewrite Z.land_spec. destruct (Z.lt_ge_cases n k) as [Hlt|Hge].
  - by rewrite !Z.shiftl_spec_low, andb_false_r.
  - rewrite !Z.shiftl_spec, Z.land_spec, Z.shiftr_spec by lia.
    by rewrite Z.sub_add.
Qed.

(** X13.  The masked value of a priority, with as many priority bits as
    preemption bits, keeps the preemption level and drops the sub-priority. *)
Theorem maskedValue_FromPreemptSub (bits preempt sub : Z) :
  0 ≤ bits ≤ 8 → 0 ≤ preempt < 256 → 0 ≤ sub < 256 →
  IsrPriority.maskedValue bits (IsrPriority.FromPreemptSub bits preempt sub)
  = IsrPriority.FromPreemptSub bits preempt 0.
Proof.
  intros Hb Hp Hs.
  unfold IsrPriority.maskedValue, IsrPriority.FromPreemptSub,
    IsrPriority.kMaxPreemptionBits.
  assert (wrap_u8 (Z.shiftl (Z.shiftl 1 bits - 1) (8 - bits))
          = Z.shiftl (Z.shiftl 1 bits - 1) (8 - bits)) as ->.
  { unfold wrap_u8. rewrite Z.shiftl_1_l, Z.shiftl_mul_pow2 by lia.
    assert (bits = 0 ∨ bits = 1 ∨ bits = 2 ∨ bits = 3 ∨ bits = 4 ∨ bits = 5
            ∨ bits = 6 ∨ bits = 7 ∨ bits = 8) as Hc by lia.
    by repeat destruct Hc as [->|Hc]; try subst bits. }
  rewrite land_shifted by lia. unfold wrap_u8.
  rewrite !Z.shiftl_1_l, !Z.sub_1_r, <- !Z.ones_equiv, !Z.land_ones by lia.
  rewrite !lor_shifted by (try apply Z.mod_pos_bound; lia).
  rewrite Z.shiftr_div_pow2, Z.shiftl_mul_pow2 by lia.
  assert (bits = 0 ∨ bits = 1 ∨ bits = 2 ∨ bits = 3 ∨ bits = 4 ∨ bits = 5
          ∨ bits = 6 ∨ bits = 7 ∨ bits = 8) as Hc by lia.
  repeat destruct Hc as [->|Hc]; try subst bits; cbn -[Z.div Z.modulo Z.mul];
    Z.div_mod_to_equations; lia.
Qed.

(** X14.  [sub<PreemptBits>()] reads one bit: of the sub-priority a priority
    was built from, it gives back the bit of weight [2 ^ (7 - PreemptBits)]
    and nothing else, since in its mask the subtraction binds tighter than
    the shift. *)
Theorem sub_FromPreemptSub (bits preempt sub : Z) :
  0 ≤ bits ≤ 7 → 0 ≤ sub < 256 →
  IsrPriority_sub bits (IsrPriority.FromPreemptSub bits preempt sub)
  = Z.land sub (2 ^ (7 - bits)).
Proof.
  intros Hb Hs.
  unfold IsrPriority_sub, IsrPriority.FromPreemptSub,
    IsrPriority.kMaxPreemptionBits, wrap_u8.
  replace (8 - bits - 1) with (7 - bits) by lia.
  rewrite (Z.shiftl_1_l (7 - bits)).
  apply Z.bits_inj'. intros n Hn.
  destruct (Z.lt_ge_cases n 8) as [Hlt|Hge].
  - rewrite Z.mod_pow2_bits_low, !Z.land_spec, Z.pow2_bits_eqb by lia.
    destruct (Z.eqb_spec (7 - bits) n) as [<-|Hne];
      [|by rewrite !andb_false_r].
    rewrite !andb_true_r, Z.mod_pow2_bits_low, Z.lor_spec by lia.
    rewrite Z.shiftl_spec_low, Z.land_spec by lia. cbn [orb].
    rewrite Z.shiftl_1_l, Z.sub_1_r, <- Z.ones_equiv.
    rewrite Z.ones_spec_low by lia. apply andb_true_r.
  - rewrite Z.mod_pow2_bits_high, Z.land_spec, Z.pow2_bits_eqb by lia.
    destruct (Z.eqb_spec (7 - bits) n) as [<-|Hne]; [lia|].
    by rewrite andb_false_r.
Qed.

Lemma preempt_FromPreemptSub_witness :
  IsrPriority_preempt 4 (IsrPriority.FromPreemptSub 4 5 3) = 5.
Proof. rewrite (preempt_FromPreemptSub 4 5 3); [reflexivity|lia..]. Defined.

Lemma maskedValue_FromPreemptSub_witness :
  IsrPriority.maskedValue 4 (IsrPriority.FromPreemptSub 4 5 3) = 80.
Proof. rewrite (maskedValue_FromPreemptSub 4 5 3); [reflexivity|lia..]. Defined.

Lemma sub_FromPreemptSub_witness :
  IsrPriority_sub 4 (IsrPriority.FromPreemptSub 4 5 15) = 8
  ∧ IsrPriority_sub 4 (IsrPriority.FromPreemptSub 4 5 7) = 0.
Proof.
  split.
  - rewrite (sub_FromPreemptSub 4 5 15); [reflexivity|lia..].
  - rewrite (sub_FromPreemptSub 4 5 7); [reflexivity|lia..].
Defined.

(** ** The lists, on the nodes *)

Section nodes.
Import Nodes.

Lemma chain_ext ns ns' prev first l stop :
  (∀ x, x ∈ l → ns' !!! x = ns !!! x) →
  chain ns prev first l stop → chain ns' prev first l stop.
Proof.
  revert prev first. induction l as [|x l IH]; intros prev first He; [done|].
  cbn. intros (-> & Hp & Hc). rewrite (He x) by left.
  split; [done|]. split; [done|]. apply IH; [|done].
  intros y Hy. apply He. by right.
Qed.

Lemma chain_app ns prev first l1 l2 stop :
  chain ns prev first (l1 ++ l2) stop ↔
  ∃ mid, chain ns prev first l1 mid
         ∧ chain ns (from_option Some prev (last l1)) mid l2 stop.
Proof.
  revert prev first. induction l1 as [|x l1 IH]; intros prev first.
  { cbn. split; [intros H; by exists first|by intros (mid & -> & H)]. }
  cbn [app chain]. rewrite IH.
  assert (from_option Some (Some x) (last l1)
          = from_option Some prev (last (x :: l1))) as ->.
  { destruct l1 as [|y l1]; [done|]. rewrite last_cons_cons.
    destruct (last (y :: l1)) eqn:Hl; [done|]. by apply last_None in Hl. }
  split.
  - intros (-> & Hp & mid & H1 & H2). by exists mid.
  - intros (mid & (-> & Hp & H1) & H2). split; [done|]. split; [done|].
    by exists mid.
Qed.

Lemma bool_decide_same {A} (x : A) `{!Decision (x = x)} :
  bool_decide (x = x) = true.
Proof. by apply bool_decide_eq_true. Qed.

Lemma bool_decide_Some_None {A} (x : A) `{!Decision (Some x = None)} :
  bool_decide (Some x = None) = false.
Proof. by apply bool_decide_eq_false. Qed.

Lemma bool_decide_None_Some {A} (x : A) `{!Decision (None = Some x)} :
  bool_decide (None = Some x) = false.
Proof. by apply bool_decide_eq_false. Qed.

Lemma bool_decide_Some_not_None {A} (x : A) `{!Decision (Some x ≠ None)} :
  bool_decide (Some x ≠ None) = true.
Proof. by apply bool_decide_eq_true. Qed.

Lemma bool_decide_None_not_None {A} `{!Decision (@None A ≠ None)} :
  bool_decide (@None A ≠ None) = false.
Proof. apply bool_decide_eq_false. by intros []. Qed.

Lemma nodes_insert_eq (ns : gmap TaskId EmbeddedNode) p n :
  <[p := n]> ns !!! p = n.
Proof. apply lookup_total_insert_eq. Qed.

Lemma lists_insert_eq (ls : gmap ListId EmbeddedList) p n :
  <[p := n]> ls !!! p = n.
Proof. apply lookup_total_insert_eq. Qed.

Lemma nodes_insert_insert (ns : gmap TaskId EmbeddedNode) p n n' :
  <[p := n]> (<[p := n']> ns) = <[p := n]> ns.
Proof. apply insert_insert_eq. Qed.

Lemma lists_insert_insert (ls : gmap ListId EmbeddedList) p n n' :
  <[p := n]> (<[p := n']> ls) = <[p := n]> ls.
Proof. apply insert_insert_eq. Qed.

Create Rewrite HintDb links.
#[local] Hint Rewrite @bool_decide_same @bool_decide_Some_None
  @bool_decide_None_Some @bool_decide_Some_not_None
  @bool_decide_None_not_None nodes_insert_eq lists_insert_eq
  nodes_insert_insert lists_insert_insert Z.eqb_refl : links.

(** The member functions are unfolded down to reads and writes of the
    memory, one stuck test at a time. *)
Ltac lred :=
  lazy beta iota zeta delta
    [mbind mret L_bind L_ret read write halt deref node set_node not_null
     reset set_next set_previous next previous is_free list set_m_first
     set_m_size increment_size decrement_size empty begin end_ size
     push_front pop_front front erase insert assert_ turns
     nodes lists m_first m_size m_previous m_next fst snd negb xorb orb andb].

Ltac lred_in H :=
  lazy beta iota zeta delta
    [mbind mret L_bind L_ret read write halt deref node set_node not_null
     reset set_next set_previous next previous is_free list set_m_first
     set_m_size increment_size decrement_size empty begin end_ size
     push_front pop_front front erase insert assert_ turns
     nodes lists m_first m_size m_previous m_next fst snd negb xorb orb andb]
    in H.

Ltac lred_hyps :=
  repeat match goal with
         | H : _ = _ |- _ => progress (lred_in H; autorewrite with links in H)
         end.

Ltac lsimp :=
  lred_hyps;
  repeat progress (lred; rewrite_lookups; autorewrite with links).

Lemma represents_head m this l :
  represents m this l → m_first (lists m !!! this) = head l.
Proof. intros (_ & Hc & _). destruct l; cbn in Hc; [done|by destruct Hc]. Qed.

Lemma wrap_u32_small x : 0 ≤ x < 2 ^ 32 → wrap_u32 x = x.
Proof. intros Hx. unfold wrap_u32. by apply Z.mod_small. Qed.

Lemma represents_nil m this :
  represents m this [] →
  m_first (lists m !!! this) = None ∧ (m_size (lists m !!! this) =? 0) = true.
Proof. intros (_ & Hc & Hs & _). cbn in Hc, Hs. split; [done|lia]. Qed.

Lemma represents_cons m this x l :
  represents m this (x :: l) →
  m_first (lists m !!! this) = Some x
  ∧ (m_size (lists m !!! this) =? 0) = false
  ∧ m_previous (nodes m !!! x) = None
  ∧ m_next (nodes m !!! x) = head l.
Proof.
  intros (_ & (Hf & Hp & Hc) & Hs & _). cbn in Hs.
  repeat split; [done|lia|done|].
  destruct l; cbn in Hc; [done|by destruct Hc].
Qed.

Lemma represents_chain m this x l :
  represents m this (x :: l) →
  chain (nodes m) (Some x) (m_next (nodes m !!! x)) l None.
Proof. by intros (_ & (_ & _ & Hc) & _). Qed.

(** [push_front] on a list that holds a sequence. *)
Lemma push_front_represents this item l debug m :
  represents m this l → unlinked m item → item ∉ l →
  Z.of_nat (length l) + 1 < 2 ^ 32 →
  ∃ m', push_front this item debug m = Returned tt m'
        ∧ represents m' this (item :: l)
        ∧ same_outside this (item :: l) m m'.
Proof.
  intros Hr Hu Hn Hlen. unfold unlinked in Hu.
  assert (NoDup (item :: l)) as Hnd.
  { apply NoDup_cons. split; [done|apply Hr]. }
  assert (m_size (lists m !!! this) = Z.of_nat (length l)) as Hs by apply Hr.
  destruct l as [|y l].
  - destruct (represents_nil _ _ Hr) as (Hf & Hz).
    destruct debug; lsimp; (eexists; split; [reflexivity|]).
    all: split; [split; [done|]|split].
    all: lsimp; cbn [chain length].
    all: try (intros x Hx; rewrite lookup_total_insert_ne; [done|set_solver]).
    all: try (intros other Ho; by rewrite lookup_total_insert_ne).
    all: autorewrite with links; rewrite Hs.
    all: rewrite wrap_u32_small by (cbn in *; lia).
    all: repeat split; cbn in *; lia.
  - destruct (represents_cons _ _ _ _ Hr) as (Hf & Hz & Hp & Hx).
    pose proof (represents_chain _ _ _ _ Hr) as Hc.
    assert (item ≠ y) as Hy by set_solver.
    destruct debug; lsimp; (eexists; split; [reflexivity|]).
    all: split; [split; [done|]|split].
    all: lsimp; cbn [chain length].
    all: try (intros x Hx'; rewrite !lookup_total_insert_ne; [done|set_solver..]).
    all: try (intros other Ho; by rewrite lookup_total_insert_ne).
    all: rewrite ?(lookup_total_insert_ne _ y item) by done.
    all: rewrite ?(lookup_total_insert_ne _ item y) by done.
    all: autorewrite with links; rewrite ?Hx, ?Hs.
    all: rewrite wrap_u32_small by (cbn in *; lia).
    all: split; [|cbn in *; lia].
    all: repeat split.
    all: eapply chain_ext; [|rewrite <- Hx; exact Hc].
    all: intros x Hx'; apply NoDup_cons in Hnd as [_ [Hyl _]%NoDup_cons].
    all: rewrite !lookup_total_insert_ne; [done|set_solver..].
Qed.

(** X1.  [push_front] of an item with no link on a list that holds the
    sequence [l]: the list then holds [item :: l], linked in both directions
    and counted once, and no node outside [item :: l] and no other list has
    changed. *)
Theorem push_front_links this item l debug m :
  represents m this l → unlinked m item → item ∉ l →
  Z.of_nat (length l) + 1 < 2 ^ 32 →
  ∃ m', push_front this item debug m = Returned tt m'
        ∧ represents m' this (item :: l)
        ∧ same_outside this (item :: l) m m'.
Proof.
  intros Hr Hu Hn Hlen.
  destruct (push_front_represents this item l debug m Hr Hu Hn Hlen)
    as (m' & Hcall & Hm').
  by exists m'.
Qed.

(** The nodes outside the sequence and the other lists are as before. *)
Ltac outside_solve :=
  split;
  [ let z := fresh "z" in
    let Hz := fresh "Hz" in
    intros z Hz; lred; rewrite ?lookup_total_insert_ne by set_solver; done
  | let other := fresh "other" in
    let Ho := fresh "Ho" in
    intros other Ho; lred; by rewrite ?lookup_total_insert_ne by done ].

(** X2.  [pop_front] on a list that holds [x :: l]: the list then holds [l],
    the node of [x] has no link left, and nothing outside the list has
    changed. *)
Theorem pop_front_links this x l debug m :
  represents m this (x :: l) →
  ∃ m', pop_front this debug m = Returned tt m'
        ∧ represents m' this l
        ∧ unlinked m' x
        ∧ same_outside this (x :: l) m m'.
Proof.
  intros Hr.
  destruct (represents_cons _ _ _ _ Hr) as (Hf & Hz & Hp & Hx).
  pose proof (represents_chain _ _ _ _ Hr) as Hc.
  destruct Hr as (Hnd & _ & Hs & Hlen).
  apply NoDup_cons in Hnd as [Hxl Hnd].
  destruct l as [|y l].
  - cbn in Hx, Hs.
    assert ((wrap_u32 (m_size (lists m !!! this) - 1) =? 0) = true) as Hw.
    { rewrite Hs. by vm_compute. }
    destruct debug; lsimp; (eexists; split; [reflexivity|]).
    all: split; [|split; [unfold unlinked; by lsimp|outside_solve]].
    all: split; [done|]; lsimp; cbn [chain length].
    all: split; [done|]; split; [|done].
    all: rewrite Hs; by vm_compute.
  - cbn in Hx, Hs, Hlen. rewrite Hx in Hc. destruct Hc as (_ & Hpy & Hc).
    assert (x ≠ y) as Hxy by set_solver.
    assert ((wrap_u32 (m_size (lists m !!! this) - 1) =? 0) = false) as Hw.
    { rewrite Hs. rewrite wrap_u32_small by lia. apply Z.eqb_neq. lia. }
    destruct debug; lsimp; (eexists; split; [reflexivity|]).
    all: split; [|split; [unfold unlinked; lsimp;
                          by rewrite lookup_total_insert_ne, nodes_insert_eq
                         |outside_solve]].
    all: split; [done|]; lsimp; cbn [chain length].
    all: rewrite ?(lookup_total_insert_ne _ x y) by done.
    all: autorewrite with links; lred.
    all: split; [|rewrite Hs; rewrite wrap_u32_small; lia].
    all: repeat split.
    all: eapply chain_ext; [|exact Hc].
    all: apply NoDup_cons in Hnd as [Hyl _].
    all: intros z Hz'; rewrite !lookup_total_insert_ne; [done|set_solver..].
Qed.

(** A node that is linked once in a sequence is taken out of it. *)
Lemma erase_middle (item : TaskId) l1 l2 :
  NoDup (l1 ++ item :: l2) →
  EmbeddedList.erase item (l1 ++ item :: l2) = l1 ++ l2.
Proof.
  intros Hnd. apply NoDup_app in Hnd as (_ & Hd & Hnd2).
  apply NoDup_cons in Hnd2 as [Hi2 _].
  unfold EmbeddedList.erase. rewrite filter_app, filter_cons, decide_False by auto.
  assert (∀ l : Datatypes.list TaskId, item ∉ l → filter (λ x, x ≠ item) l = l)
    as Hf.
  { induction l as [|x l IH]; [done|]. intros [Hx Hl]%not_elem_of_cons.
    rewrite filter_cons, decide_True by done. by rewrite IH. }
  rewrite !Hf; [done..|]. intros Hin. apply (Hd item Hin). by left.
Qed.

Lemma size_decrement n :
  Z.of_nat (S n) < 2 ^ 32 → wrap_u32 (Z.of_nat (S n) - 1) = Z.of_nat n.
Proof. intros Hn. rewrite wrap_u32_small; lia. Qed.

Lemma node_eq (n : EmbeddedNode) a b :
  m_previous n = a → m_next n = b → n = mkNode a b.
Proof. by intros <- <-. Qed.

(** X3.  [erase] of an item that is in the list, wherever it stands: the
    links and the count then hold the sequence without the item, as the
    erasure on sequences gives it, the node of the item has no link left,
    the result points to the item that followed it (or is [end()]), and
    nothing outside the list has changed. *)
Theorem erase_links this item l1 l2 debug m :
  represents m this (l1 ++ item :: l2) →
  ∃ m', erase this item debug m = Returned (head l2) m'
        ∧ represents m' this (EmbeddedList.erase item (l1 ++ item :: l2))
        ∧ unlinked m' item
        ∧ same_outside this (l1 ++ item :: l2) m m'.
Proof.
  intros Hr. pose proof Hr as (Hnd & Hc & Hs & Hlen).
  rewrite erase_middle by done.
  assert ((m_size (lists m !!! this) =? 0) = false) as Hz.
  { apply Z.eqb_neq. rewrite Hs, length_app. cbn. lia. }
  assert (m_first (lists m !!! this) ≠ None) as Hfn.
  { rewrite (represents_head _ _ _ Hr). by destruct l1. }
  destruct (m_first (lists m !!! this)) as [f|] eqn:Hf; [clear Hfn|done].
  destruct l1 as [|p l1 _] using rev_ind.
  - cbn [app] in *. destruct Hc as ([= ->] & Hp & Hc).
    apply NoDup_cons in Hnd as [Hi Hnd].
    destruct l2 as [|y l2].
    + cbn in Hc, Hs.
      destruct debug; lsimp; (eexists; split; [reflexivity|]).
      all: split; [|split; [unfold unlinked; lsimp; by apply node_eq
                           |outside_solve]].
      all: split; [done|]; lsimp; cbn [chain length].
      all: split; [done|]; split; [|done].
      all: rewrite Hs; by vm_compute.
    + destruct Hc as (Hn & Hpy & Hc). cbn [length] in Hs, Hlen.
      assert (item ≠ y) as Hy by set_solver.
      destruct debug; lsimp; (eexists; split; [reflexivity|]).
      all: split; [|split; [unfold unlinked; lsimp;
                            by rewrite lookup_total_insert_ne, nodes_insert_eq
                           |outside_solve]].
      all: split; [done|]; lsimp; cbn [chain length].
      all: rewrite ?(lookup_total_insert_ne _ item y) by done.
      all: autorewrite with links; lred.
      all: split; [|rewrite Hs; rewrite size_decrement; [lia..]].
      all: repeat split.
      all: eapply chain_ext; [|exact Hc].
      all: apply NoDup_cons in Hnd as [Hyl _].
      all: intros z Hz'; rewrite !lookup_total_insert_ne; [done|set_solver..].
  - rewrite <- app_assoc in Hnd, Hc, Hs, Hlen |- *. cbn [app] in *.
    apply chain_app in Hc as (mid & Hc1 & -> & Hpp & Hpn & Hip & Hc2).
    apply NoDup_app in Hnd as (Hnd1 & Hd & Hnd2).
    apply NoDup_cons in Hnd2 as [Hp2 Hnd2].
    apply NoDup_cons in Hnd2 as [Hi2 Hnd2].
    assert (item ≠ p) as Hip' by set_solver.
    rewrite length_app in Hs, Hlen. cbn [length] in Hs, Hlen.
    destruct l2 as [|y l2].
    + cbn in Hc2.
      destruct debug; lsimp; rewrite ?(lookup_total_insert_ne _ p item) by done;
        lsimp; (eexists; split; [reflexivity|]).
      all: split; [|split; [unfold unlinked; by lsimp|outside_solve]].
      all: split; [apply NoDup_app; repeat split;
                     [done|set_solver|apply NoDup_singleton]|].
      all: lsimp; split; [|rewrite Hs, length_app; cbn [length];
                           rewrite wrap_u32_small; lia].
      all: apply chain_app; exists (Some p); split.
      all: try (eapply chain_ext; [|exact Hc1]; intros z Hz';
                rewrite !lookup_total_insert_ne; [done|set_solver..]).
      all: cbn [chain]; rewrite (lookup_total_insert_ne _ item p) by done.
      all: by lsimp.
    + destruct Hc2 as (Hin & Hyp & Hc2).
      apply NoDup_cons in Hnd2 as [Hy2 Hnd2].
      assert (item ≠ y) as Hiy by set_solver.
      assert (p ≠ y) as Hpy by set_solver.
      cbn [length] in Hs, Hlen.
      destruct debug; lsimp; rewrite ?(lookup_total_insert_ne _ p item) by done;
        lsimp; rewrite ?(lookup_total_insert_ne _ p y) by done;
        rewrite ?(lookup_total_insert_ne _ y item) by done;
        rewrite ?(lookup_total_insert_ne _ p item) by done;
        lsimp; (eexists; split; [reflexivity|]).
      all: split; [|split; [unfold unlinked; by lsimp|outside_solve]].
      all: split; [apply NoDup_app; repeat split;
                     [done|set_solver|apply NoDup_cons; split; [set_solver|];
                      by apply NoDup_cons]|].
      all: lsimp; split; [|rewrite Hs, length_app; cbn [length];
                           rewrite wrap_u32_small; lia].
      all: apply chain_app; exists (Some p); split.
      all: try (eapply chain_ext; [|exact Hc1]; intros z Hz';
                rewrite !lookup_total_insert_ne; [done|set_solver..]).
      all: cbn [chain]; rewrite !(lookup_total_insert_ne _ item) by done.
      all: rewrite !(lookup_total_insert_ne _ y p) by done.
      all: lsimp; repeat split; try done.
      all: eapply chain_ext; [|exact Hc2]; intros z Hz'.
      all: rewrite !lookup_total_insert_ne; [done|set_solver..].
Qed.

(** [insert] behind an item of a list that holds a sequence. *)
Lemma insert_represents this item q l1 l2 debug m :
  represents m this (l1 ++ q :: l2) → unlinked m item →
  item ∉ l1 ++ q :: l2 →
  Z.of_nat (length (l1 ++ q :: l2)) + 1 < 2 ^ 32 →
  ∃ m', insert this (Some q) item debug m = Returned (Some item) m'
        ∧ represents m' this (l1 ++ q :: item :: l2)
        ∧ same_outside this (item :: l1 ++ q :: l2) m m'.
Proof.
  intros Hr Hu Hn Hlen. pose proof Hr as (Hnd & Hc & Hs & _).
  unfold unlinked in Hu.
  assert (m_first (lists m !!! this) ≠ None) as Hfn.
  { rewrite (represents_head _ _ _ Hr). by destruct l1. }
  destruct (m_first (lists m !!! this)) as [f|] eqn:Hf; [clear Hfn|done].
  assert ((wrap_u32 (m_size (lists m !!! this) + 1) =? 0) = false) as Hz.
  { apply Z.eqb_neq. rewrite Hs. rewrite wrap_u32_small; lia. }
  apply chain_app in Hc as (mid & Hc1 & -> & Hqp & Hc2).
  apply NoDup_app in Hnd as (Hnd1 & Hd & Hnd2).
  apply NoDup_cons in Hnd2 as [Hq2 Hnd2].
  assert (item ≠ q) as Hiq by set_solver.
  assert (NoDup (l1 ++ q :: item :: l2)) as Hnd'.
  { apply NoDup_app. repeat split; [done|set_solver|].
    apply NoDup_cons. split; [set_solver|].
    apply NoDup_cons. split; [set_solver|done]. }
  rewrite length_app in Hs, Hlen. cbn [length] in Hs, Hlen.
  destruct l2 as [|y l2].
  - cbn in Hc2.
    destruct debug; lsimp; rewrite ?(lookup_total_insert_ne _ item q) by done;
      lsimp; (eexists; split; [reflexivity|]).
    all: split; [|outside_solve].
    all: split; [done|].
    all: lsimp; split; [|rewrite Hs, length_app; cbn [length];
                         rewrite wrap_u32_small; lia].
    all: apply chain_app; exists (Some q); split.
    all: try (eapply chain_ext; [|exact Hc1]; intros z Hz';
              rewrite !lookup_total_insert_ne; [done|set_solver..]).
    all: cbn [chain]; rewrite ?(lookup_total_insert_ne _ q item) by done.
    all: by lsimp.
  - destruct Hc2 as (Hqn & Hyp & Hc2).
    apply NoDup_cons in Hnd2 as [Hy2 Hnd2].
    assert (item ≠ y) as Hiy by set_solver.
    assert (q ≠ y) as Hqy by set_solver.
    cbn [length] in Hs, Hlen.
    destruct debug; lsimp; rewrite ?(lookup_total_insert_ne _ item q) by done;
      lsimp; rewrite ?(lookup_total_insert_ne _ q y) by done;
      rewrite ?(lookup_total_insert_ne _ item y) by done;
      lsimp; (eexists; split; [reflexivity|]).
    all: split; [|outside_solve].
    all: split; [done|].
    all: lsimp; split; [|rewrite Hs, length_app; cbn [length];
                         rewrite wrap_u32_small; lia].
    all: apply chain_app; exists (Some q); split.
    all: try (eapply chain_ext; [|exact Hc1]; intros z Hz';
              rewrite !lookup_total_insert_ne; [done|set_solver..]).
    all: cbn [chain]; rewrite ?(lookup_total_insert_ne _ y q) by done.
    all: rewrite ?(lookup_total_insert_ne _ y item) by done.
    all: rewrite ?(lookup_total_insert_ne _ q item) by done.
    all: lsimp; repeat split; try done.
    all: eapply chain_ext; [|exact Hc2]; intros z Hz'.
    all: rewrite !lookup_total_insert_ne; [done|set_solver..].
Qed.

(** X4.  [insert] behind an item [q] of the list: the new item is linked
    between [q] and what followed it, the count goes up by one, the result
    points to the new item, and nothing outside has changed. *)
Theorem insert_links this item q l1 l2 debug m :
  represents m this (l1 ++ q :: l2) → unlinked m item →
  item ∉ l1 ++ q :: l2 →
  Z.of_nat (length (l1 ++ q :: l2)) + 1 < 2 ^ 32 →
  ∃ m', insert this (Some q) item debug m = Returned (Some item) m'
        ∧ represents m' this (l1 ++ q :: item :: l2)
        ∧ same_outside this (item :: l1 ++ q :: l2) m m'.
Proof.
  intros Hr Hu Hn Hlen.
  destruct (insert_represents this item q l1 l2 debug m Hr Hu Hn Hlen)
    as (m' & Hcall & Hm').
  by exists m'.
Qed.

Lemma insert_ordered_app before item l1 l2 :
  (∀ y, y ∈ l1 → before item y = false) →
  insert_ordered before item (l1 ++ l2) = l1 ++ insert_ordered before item l2.
Proof.
  induction l1 as [|x l1 IH]; intros Hb; [done|].
  cbn. rewrite (Hb x) by left. rewrite IH; [done|].
  intros y Hy. apply Hb. by right.
Qed.

Lemma chain_has_link ns z l :
  ∀ prev first,
    chain ns prev first l None → z ∈ l →
    is_Some prev ∨ (1 < length l)%nat →
    ns !!! z ≠ mkNode None None.
Proof.
  induction l as [|x l IH]; intros prev first Hc Hz Hl.
  { by apply elem_of_nil in Hz. }
  destruct Hc as (_ & Hp & Hc). apply elem_of_cons in Hz as [->|Hz].
  - intros Hfree. rewrite Hfree in Hp, Hc. cbn in Hp, Hc.
    destruct Hl as [[? ->]|Hl]; [done|].
    destruct l as [|y l]; [cbn in Hl; lia|]. by destruct Hc.
  - apply (IH _ _ Hc Hz). left. by eexists.
Qed.

(** The nodes of a list are among the nodes that have a link, but for a
    node that is alone in its list. *)
Lemma represents_length m this l :
  represents m this l → (length l ≤ S (base.size (nodes m)))%nat.
Proof.
  intros (Hnd & Hc & _).
  destruct l as [|x [|y l]]; [cbn; lia..|].
  assert (length (x :: y :: l) ≤ base.size (nodes m))%nat; [|lia].
  rewrite <- size_dom.
  change (base.size (dom (nodes m))) with (length (elements (dom (nodes m)))).
  apply submseteq_length, NoDup_submseteq; [done|].
  intros z Hz. apply elem_of_elements, elem_of_dom.
  destruct (nodes m !! z) as [n|] eqn:Hn; [done|exfalso].
  apply (chain_has_link _ z _ _ _ Hc Hz); [right; cbn; lia|].
  by rewrite lookup_total_alt, Hn.
Qed.

Lemma while_step {A} fuel (cond : A → L bool) body (a : A) debug m :
  while (S fuel) cond body a debug m
  = match cond a debug m with
    | Returned true m' =>
        match body a debug m' with
        | Returned a' m'' => while fuel cond body a' debug m''
        | Halted f => Halted f
        end
    | Returned false m' => Returned a m'
    | Halted f => Halted f
    end.
Proof.
  cbn [while]. unfold mbind, L_bind.
  destruct (cond a debug m) as [[] m'|]; [|done..].
  by destruct (body a debug m').
Qed.

Lemma insertWhen_cond_Some (predicate : comparator) item p y b debug m :
  predicate item y debug m = Returned b m →
  insertWhen_cond predicate item (p, Some y) debug m = Returned (negb b) m.
Proof.
  intros Hp. unfold insertWhen_cond. cbn [snd].
  rewrite bool_decide_true by done. lred. by rewrite Hp.
Qed.

Lemma insertWhen_cond_None (predicate : comparator) item p debug m :
  insertWhen_cond predicate item (p, None) debug m = Returned false m.
Proof.
  unfold insertWhen_cond. cbn [snd]. by rewrite bool_decide_None_not_None.
Qed.

Lemma insertWhen_body_Some p y debug m :
  insertWhen_body (p, Some y) debug m
  = Returned (Some y, m_next (nodes m !!! y)) m.
Proof. unfold insertWhen_body. by destruct debug. Qed.

Lemma insertWhen_loop predicate before item debug m l2 :
  ∀ l1 p prev fuel,
    chain (nodes m) prev (Some p) (p :: l2) None →
    (length l2 < fuel)%nat →
    (∀ x, x ∈ l2 → predicate item x debug m = Returned (before item x) m) →
    (∀ y, y ∈ l1 ++ [p] → before item y = false) →
    ∃ l1' q l2',
      l1 ++ p :: l2 = l1' ++ q :: l2'
      ∧ while fuel (insertWhen_cond predicate item) insertWhen_body
          (Some p, m_next (nodes m !!! p)) debug m
        = Returned (Some q, head l2') m
      ∧ insert_ordered before item (l1 ++ p :: l2) = l1' ++ q :: item :: l2'.
Proof.
  induction l2 as [|y l2 IH]; intros l1 p prev fuel Hc Hf Hp Hb.
  - exists l1, p, []. split; [done|].
    destruct Hc as (_ & _ & Hn). cbn in Hn. rewrite Hn.
    destruct fuel as [|fuel]; [cbn in Hf; lia|].
    rewrite while_step, insertWhen_cond_None. split; [done|].
    rewrite (insert_ordered_app _ _ l1 [p]).
    2:{ intros z Hz. apply Hb. set_solver. }
    cbn. rewrite (Hb p) by set_solver. done.
  - destruct Hc as (_ & Hpp & Hn & Hyp & Hc).
    destruct fuel as [|fuel]; [cbn in Hf; lia|]. cbn in Hf.
    rewrite Hn, while_step.
    rewrite (insertWhen_cond_Some _ _ _ _ (before item y)) by (apply Hp; left).
    destruct (before item y) eqn:Hby; cbn [negb].
    + exists l1, p, (y :: l2). split; [done|]. split; [done|].
      rewrite (insert_ordered_app _ _ l1 (p :: y :: l2)).
      2:{ intros z Hz. apply Hb. set_solver. }
      cbn. rewrite (Hb p) by set_solver. by rewrite Hby.
    + rewrite insertWhen_body_Some.
      destruct (IH (l1 ++ [p]) y (Some p) fuel) as (l1' & q & l2' & He & Hw & Hi).
      * by repeat split.
      * lia.
      * intros x Hx. apply Hp. by right.
      * intros z Hz. apply elem_of_app in Hz as [Hz|Hz]; [by apply Hb|].
        apply list_elem_of_singleton in Hz as ->. done.
      * exists l1', q, l2'. rewrite <- app_assoc in He, Hi. by repeat split.
Qed.

Lemma bind_Returned {A B} (c : L A) (k : A → L B) debug m a m' :
  c debug m = Returned a m' → (c ≫= k) debug m = k a debug m'.
Proof. intros Hc. unfold mbind, L_bind. by rewrite Hc. Qed.

(** On a list that holds a sequence, the queries read the sequence. *)
Lemma empty_represents this l debug m :
  represents m this l →
  empty this debug m = Returned (bool_decide (l = [])) m.
Proof.
  intros Hr. destruct l as [|x l].
  - destruct (represents_nil _ _ Hr) as (Hf & Hz). by destruct debug; lsimp.
  - destruct (represents_cons _ _ _ _ Hr) as (Hf & Hz & _).
    by destruct debug; lsimp.
Qed.

Lemma begin_represents this l debug m :
  represents m this l → begin this debug m = Returned (head l) m.
Proof.
  intros Hr. pose proof (represents_head _ _ _ Hr) as Hh.
  lred_in Hh. lred. by rewrite Hh.
Qed.

Lemma next_Some y debug m :
  next (Some y) debug m = Returned (m_next (nodes m !!! y)) m.
Proof. by destruct debug. Qed.

(** X5.  [insertWhen] walks the links to the place the ordered insertion on
    sequences gives: with a comparator that reads the memory only, the list
    then holds [insert_ordered before item l], counted right, and the walk
    ends. *)
Theorem insertWhen_links this predicate before item l debug m :
  represents m this l → unlinked m item → item ∉ l →
  Z.of_nat (length l) + 1 < 2 ^ 32 →
  (∀ x, x ∈ l → predicate item x debug m = Returned (before item x) m) →
  ∃ m', insertWhen this predicate item debug m = Returned (Some item) m'
        ∧ represents m' this (insert_ordered before item l)
        ∧ same_outside this (item :: l) m m'.
Proof.
  intros Hr Hu Hn Hlen Hp. unfold insertWhen.
  rewrite (bind_Returned _ _ _ _ _ _ (empty_represents _ _ _ _ Hr)).
  destruct l as [|x l].
  - rewrite bool_decide_true by done.
    rewrite (bind_Returned _ _ _ _ true m) by done.
    destruct (push_front_represents this item [] debug m Hr Hu Hn Hlen)
      as (m' & Hpush & Hr' & Ho).
    exists m'. rewrite (bind_Returned _ _ _ _ _ _ Hpush).
    by rewrite (begin_represents _ _ _ _ Hr').
  - rewrite bool_decide_false by done.
    assert ((first ← begin this; f ← deref first; predicate item f) debug m
            = Returned (before item x) m) as Hb.
    { rewrite (bind_Returned _ _ _ _ _ _ (begin_represents _ _ _ _ Hr)).
      cbn [head deref]. rewrite (bind_Returned _ _ _ _ x m) by done.
      apply Hp. by left. }
    rewrite (bind_Returned _ _ _ _ _ _ Hb).
    destruct (before item x) eqn:Hbx.
    + destruct (push_front_represents this item (x :: l) debug m Hr Hu Hn Hlen)
        as (m' & Hpush & Hr' & Ho).
      exists m'. rewrite (bind_Returned _ _ _ _ _ _ Hpush).
      cbn [insert_ordered]. rewrite Hbx.
      by rewrite (begin_represents _ _ _ _ Hr').
    + rewrite (bind_Returned _ _ _ _ _ _ (begin_represents _ _ _ _ Hr)).
      cbn [head]. rewrite (bind_Returned _ _ _ _ _ _ (next_Some _ _ _)).
      rewrite (bind_Returned turns _ _ _ (S (S (base.size (nodes m)))) m)
        by done.
      destruct (insertWhen_loop predicate before item debug m l [] x None
                  (S (S (base.size (nodes m)))))
        as (l1' & q & l2' & He & Hw & Hi).
      * destruct Hr as (_ & (_ & Hc) & _). by split.
      * pose proof (represents_length _ _ _ Hr) as Hl. cbn [length] in Hl. lia.
      * intros y Hy. apply Hp. by right.
      * intros y Hy. apply list_elem_of_singleton in Hy as ->. done.
      * cbn [app] in He, Hw, Hi.
        rewrite (bind_Returned _ _ _ _ _ _ Hw). cbn [fst].
        rewrite Hi. rewrite He in Hr, Hn, Hlen.
        destruct (insert_represents this item q l1' l2' debug m Hr Hu Hn Hlen)
          as (m' & Hins & Hr' & Ho).
        exists m'. rewrite He. split; [done|]. split; [done|exact Ho].
Qed.

(** X7.  [erase] on a list that holds nothing, or of an item with no link
    that is not in the list, returns [end()] and changes nothing. *)
Theorem erase_not_linked this item l debug m :
  represents m this l →
  l = [] ∨ ((item ∉ l) ∧ unlinked m item) →
  erase this item debug m = Returned None m.
Proof.
  intros Hr Hl. unfold erase.
  rewrite (bind_Returned _ _ _ _ _ _ (empty_represents _ _ _ _ Hr)).
  destruct l as [|x l]; [done|].
  destruct Hl as [[=]|[Hn Hu]]. unfold unlinked in Hu.
  rewrite bool_decide_false by done.
  destruct (represents_cons _ _ _ _ Hr) as (Hf & _).
  assert (Some x ≠ Some item) as Hne by set_solver.
  apply (bool_decide_eq_false_2 _) in Hne.
  by destruct debug; lsimp.
Qed.

(** X8.  [pop_front] and [front] on a list that holds nothing: a debug
    build halts on [assert(!empty())]; a release build of [pop_front] goes
    on to read through the null [m_first], and a release build of [front]
    returns, with a reference bound to the null pointer, and changes
    nothing. *)
Theorem pop_front_empty this debug m :
  represents m this [] →
  pop_front this debug m
  = Halted (if debug then AssertionFailed else NullPointer)
  ∧ front this debug m
    = (if debug then Halted AssertionFailed else Returned None m).
Proof.
  intros Hr. destruct (represents_nil _ _ Hr) as (Hf & Hz).
  by destruct debug; lsimp.
Qed.

Lemma chain_unique ns l :
  ∀ l' prev first,
    chain ns prev first l None → chain ns prev first l' None → l = l'.
Proof.
  induction l as [|x l IH]; intros [|x' l'] prev first; cbn.
  - done.
  - by intros -> (? & _).
  - by intros (-> & _) ?.
  - intros (-> & _ & Hc) ([= <-] & _ & Hc'). f_equal. by eapply IH.
Qed.

(** X9.  [erase] through a list of a node that is linked behind another node
    in an other list: the node leaves that other list, and it is the count
    of this list that goes down.  The links of both lists are sound, their
    counts are not: neither list holds a sequence any more. *)
Theorem erase_other_list this other item l l1 p l2 debug m :
  this ≠ other →
  represents m this l → l ≠ [] →
  represents m other (l1 ++ p :: item :: l2) →
  (∀ x, x ∈ l → x ∉ l1 ++ p :: item :: l2) →
  ∃ m', erase this item debug m = Returned (head l2) m'
        ∧ chain (nodes m') None (m_first (lists m' !!! other))
            (l1 ++ p :: l2) None
        ∧ m_size (lists m' !!! other) = Z.of_nat (length (l1 ++ p :: l2)) + 1
        ∧ chain (nodes m') None (m_first (lists m' !!! this)) l None
        ∧ m_size (lists m' !!! this) = Z.of_nat (length l) - 1
        ∧ (∀ l', ¬ represents m' this l')
        ∧ (∀ l', ¬ represents m' other l').
Proof.
  intros Hto Hr Hne Ho Hd.
  pose proof Hr as (Hndl & Hcl & Hsl & Hlenl).
  pose proof Ho as (Hnd & Hc & Hs & Hlen).
  assert (∃ m',
    erase this item debug m = Returned (head l2) m'
    ∧ chain (nodes m') None (m_first (lists m' !!! other)) (l1 ++ p :: l2) None
    ∧ m_size (lists m' !!! other) = Z.of_nat (length (l1 ++ p :: l2)) + 1
    ∧ chain (nodes m') None (m_first (lists m' !!! this)) l None
    ∧ m_size (lists m' !!! this) = Z.of_nat (length l) - 1) as (m' & He & H).
  2:{ exists m'. split; [done|].
      destruct H as (Hco & Hso & Hct & Hst). repeat split; try done.
      - intros l' (_ & Hc' & Hs' & _).
        rewrite (chain_unique _ _ _ _ _ Hct Hc') in Hst. lia.
      - intros l' (_ & Hc' & Hs' & _).
        rewrite (chain_unique _ _ _ _ _ Hco Hc') in Hso. lia. }
  destruct l as [|x l]; [done|clear Hne].
  destruct (represents_cons _ _ _ _ Hr) as (Hf & Hz & _).
  apply chain_app in Hc as (mid & Hc1 & -> & Hpp & Hpn & Hip & Hc2).
  apply NoDup_app in Hnd as (Hnd1 & Hd1 & Hnd2).
  apply NoDup_cons in Hnd2 as [Hp2 Hnd2].
  apply NoDup_cons in Hnd2 as [Hi2 Hnd2].
  assert (item ≠ p) as Hip' by set_solver.
  rewrite length_app in Hs, Hlen |- *. cbn [length] in Hs, Hlen, Hsl, Hlenl |- *.
  assert (∀ z, z ∈ x :: l → z ≠ p ∧ z ≠ item ∧ z ∉ l2) as Hd'.
  { intros z Hz'. specialize (Hd z Hz'). set_solver. }
  destruct l2 as [|y l2].
  - cbn in Hc2.
    destruct debug; lsimp; rewrite ?(lookup_total_insert_ne _ p item) by done;
      lsimp; (eexists; split; [reflexivity|]).
    all: lsimp; rewrite !(lookup_total_insert_ne _ this other) by done.
    all: split; [|split; [lia|split; [|rewrite Hsl; rewrite wrap_u32_small; lia]]].
    all: try (apply chain_app; exists (Some p); split).
    all: try (eapply chain_ext; [|exact Hc1]; intros z Hz';
              rewrite !lookup_total_insert_ne; [done|set_solver..]).
    all: try (rewrite <- Hf; eapply chain_ext; [|exact Hcl]; intros z Hz';
              destruct (Hd' z Hz') as (? & ? & ?);
              by rewrite !lookup_total_insert_ne).
    all: cbn [chain]; rewrite (lookup_total_insert_ne _ item p) by done.
    all: by lsimp.
  - destruct Hc2 as (Hin & Hyp & Hc2).
    apply NoDup_cons in Hnd2 as [Hy2 Hnd2].
    assert (item ≠ y) as Hiy by set_solver.
    assert (p ≠ y) as Hpy by set_solver.
    assert (∀ z, z ∈ x :: l → z ≠ y) as Hdy.
    { intros z Hz'. specialize (Hd z Hz'). set_solver. }
    cbn [length] in Hs, Hlen |- *.
    destruct debug; lsimp; rewrite ?(lookup_total_insert_ne _ p item) by done;
      lsimp; rewrite ?(lookup_total_insert_ne _ p y) by done;
      rewrite ?(lookup_total_insert_ne _ y item) by done;
      rewrite ?(lookup_total_insert_ne _ p item) by done;
      lsimp; (eexists; split; [reflexivity|]).
    all: lsimp; rewrite !(lookup_total_insert_ne _ this other) by done.
    all: split; [|split; [lia|split; [|rewrite Hsl; rewrite wrap_u32_small; lia]]].
    all: try (apply chain_app; exists (Some p); split).
    all: try (eapply chain_ext; [|exact Hc1]; intros z Hz';
              rewrite !lookup_total_insert_ne; [done|set_solver..]).
    all: try (rewrite <- Hf; eapply chain_ext; [|exact Hcl]; intros z Hz';
              destruct (Hd' z Hz') as (? & ? & ?); specialize (Hdy z Hz');
              by rewrite !lookup_total_insert_ne).
    all: cbn [chain]; rewrite !(lookup_total_insert_ne _ item) by done.
    all: rewrite !(lookup_total_insert_ne _ y p) by done.
    all: lsimp; repeat split; try done.
    all: eapply chain_ext; [|exact Hc2]; intros z Hz'.
    all: rewrite !lookup_total_insert_ne; [done|set_solver..].
Qed.

(** X10.  [insert] counts the item before it looks at the list: on a list
    that holds nothing a debug build halts in [empty()], and whenever it
    hands the item to [push_front] (the list holds nothing, or [previous] is
    null), the item is linked in front and counted twice. *)
Theorem insert_counts_twice this previous_ item l debug m :
  represents m this l → unlinked m item → item ∉ l →
  Z.of_nat (length l) + 2 < 2 ^ 32 →
  l = [] ∨ previous_ = None →
  if debug && bool_decide (l = []) then
    insert this previous_ item debug m = Halted AssertionFailed
  else
    ∃ m', insert this previous_ item debug m = Returned (Some item) m'
          ∧ chain (nodes m') None (m_first (lists m' !!! this)) (item :: l) None
          ∧ m_size (lists m' !!! this) = Z.of_nat (length (item :: l)) + 1.
Proof.
  intros Hr Hu Hn Hlen Hl. unfold unlinked in Hu.
  assert (m_size (lists m !!! this) = Z.of_nat (length l)) as Hs by apply Hr.
  destruct l as [|x l].
  - destruct (represents_nil _ _ Hr) as (Hf & Hz).
    assert ((wrap_u32 (m_size (lists m !!! this) + 1) =? 0) = false) as Hw.
    { rewrite Hs. by vm_compute. }
    destruct debug; [by lsimp|].
    cbn [andb]. lsimp. eexists. split; [reflexivity|].
    lsimp. cbn [chain length]. lsimp. rewrite Hs. by vm_compute.
  - destruct Hl as [[=]| ->].
    destruct (represents_cons _ _ _ _ Hr) as (Hf & Hz & Hp & Hx).
    pose proof (represents_chain _ _ _ _ Hr) as Hc.
    assert (item ≠ x) as Hix by set_solver.
    assert (NoDup (x :: l)) as [Hxl _]%NoDup_cons by apply Hr.
    cbn [length] in Hs, Hlen.
    assert ((wrap_u32 (m_size (lists m !!! this) + 1) =? 0) = false) as Hw.
    { apply Z.eqb_neq. rewrite Hs. rewrite wrap_u32_small; lia. }
    rewrite bool_decide_false, andb_false_r by done.
    destruct debug; lsimp; (eexists; split; [reflexivity|]).
    all: lsimp; cbn [chain length].
    all: rewrite ?(lookup_total_insert_ne _ x item) by done.
    all: rewrite ?(lookup_total_insert_ne _ item x) by done.
    all: lsimp; rewrite ?Hx.
    all: split; [|rewrite Hs;
                  rewrite (wrap_u32_small (Z.of_nat _ + 1)) by lia;
                  rewrite wrap_u32_small by lia; lia].
    all: repeat split.
    all: eapply chain_ext; [|rewrite <- Hx; exact Hc].
    all: intros z Hz'; rewrite !lookup_total_insert_ne; [done|set_solver..].
Qed.

(** X11.  [is_free] looks at the two links only.  [push_front] of a node
    that has a link halts a debug build; a node that is alone in the list it
    is pushed to has none, passes the check, and becomes its own neighbour
    in a list that counts two. *)
Theorem push_front_linked this item debug m :
  (nodes m !!! item ≠ mkNode None None →
   push_front this item true m = Halted AssertionFailed)
  ∧ (represents m this [item] →
     ∃ m', push_front this item debug m = Returned tt m'
           ∧ nodes m' !!! item = mkNode (Some item) (Some item)
           ∧ lists m' !!! this = mkList (Some item) 2).
Proof.
  split.
  - intros Hl. destruct (nodes m !!! item) as [pv nx] eqn:Hn.
    destruct pv as [pv|]; [by lsimp|].
    destruct nx as [nx|]; [by lsimp|done].
  - intros Hr. destruct (represents_cons _ _ _ _ Hr) as (Hf & Hz & Hp & Hx).
    assert (m_size (lists m !!! this) = 1) as Hs by apply Hr.
    cbn in Hx.
    destruct debug; lsimp; (eexists; split; [reflexivity|]); lsimp.
    all: by rewrite Hs.
Qed.

(** The two lists of the example hold their sequences. *)
Lemma two_lists_represents :
  represents two_lists 1 [2; 3]%positive
  ∧ represents two_lists 4 [5; 6; 8]%positive.
Proof.
  split; (split; [by apply (bool_decide_unpack _)|]); by vm_compute.
Qed.

Lemma push_front_links_witness :
  ∃ m', push_front 1 9 true two_lists = Returned tt m'
        ∧ represents m' 1 [9; 2; 3]%positive.
Proof.
  destruct (push_front_links 1 9 [2; 3]%positive true two_lists)
    as (m' & Hp & Hr & _).
  - apply two_lists_represents.
  - reflexivity.
  - by apply (bool_decide_unpack _).
  - by vm_compute.
  - by exists m'.
Defined.

Lemma pop_front_links_witness :
  ∃ m', pop_front 1 true two_lists = Returned tt m'
        ∧ represents m' 1 [3%positive] ∧ unlinked m' 2.
Proof.
  destruct (pop_front_links 1 2 [3%positive] true two_lists)
    as (m' & Hp & Hr & Hu & _).
  - apply two_lists_represents.
  - by exists m'.
Defined.

Lemma erase_links_witness :
  ∃ m', erase 4 6 true two_lists = Returned (Some 8%positive) m'
        ∧ represents m' 4 [5; 8]%positive ∧ unlinked m' 6.
Proof.
  destruct (erase_links 4 6 [5%positive] [8%positive] true two_lists)
    as (m' & Hp & Hr & Hu & _).
  - apply two_lists_represents.
  - by exists m'.
Defined.

Lemma insert_links_witness :
  ∃ m', insert 4 (Some 5%positive) 9 true two_lists
        = Returned (Some 9%positive) m'
        ∧ represents m' 4 [5; 9; 6; 8]%positive.
Proof.
  destruct (insert_links 4 9 5 [] [6; 8]%positive true two_lists)
    as (m' & Hp & Hr & _).
  - apply two_lists_represents.
  - reflexivity.
  - by apply (bool_decide_unpack _).
  - by vm_compute.
  - by exists m'.
Defined.

Lemma insertWhen_links_witness :
  ∃ m', insertWhen 4 lower_address 7 true two_lists
        = Returned (Some 7%positive) m'
        ∧ represents m' 4 [5; 6; 7; 8]%positive.
Proof.
  destruct (insertWhen_links 4 lower_address Pos.ltb 7 [5; 6; 8]%positive true
              two_lists) as (m' & Hp & Hr & _).
  - apply two_lists_represents.
  - reflexivity.
  - by apply (bool_decide_unpack _).
  - by vm_compute.
  - reflexivity.
  - by exists m'.
Defined.

Lemma erase_not_linked_witness :
  erase 1 9 true two_lists = Returned None two_lists.
Proof.
  apply (erase_not_linked 1 9 [2; 3]%positive).
  - apply two_lists_represents.
  - right. split; [by apply (bool_decide_unpack _)|reflexivity].
Defined.

Lemma erase_other_list_witness :
  ∃ m', erase 1 6 true two_lists = Returned (Some 8%positive) m'
        ∧ m_size (lists m' !!! 1%positive) = 1
        ∧ m_size (lists m' !!! 4%positive) = 3
        ∧ ¬ represents m' 1 [2; 3]%positive
        ∧ ¬ represents m' 4 [5; 8]%positive.
Proof.
  destruct (erase_other_list 1 4 6 [2; 3]%positive [] 5 [8%positive] true
              two_lists) as (m' & He & _ & Ho & _ & Ht & Hnt & Hno).
  - done.
  - apply two_lists_represents.
  - done.
  - apply two_lists_represents.
  - apply Forall_forall. by apply (bool_decide_unpack _).
  - exists m'. by repeat split.
Defined.

Lemma insert_counts_twice_witness :
  insert 1 None 9 true (mkMemory ∅ ∅) = Halted AssertionFailed
  ∧ ∃ m', insert 1 None 9 true two_lists = Returned (Some 9%positive) m'
          ∧ m_size (lists m' !!! 1%positive) = 4.
Proof.
  split.
  - apply (insert_counts_twice 1 None 9 [] true (mkMemory ∅ ∅)).
    + split; [apply NoDup_nil_2|]. by vm_compute.
    + reflexivity.
    + apply not_elem_of_nil.
    + by vm_compute.
    + by left.
  - destruct (insert_counts_twice 1 None 9 [2; 3]%positive true two_lists)
      as (m' & Hi & _ & Hs).
    + apply two_lists_represents.
    + reflexivity.
    + by apply (bool_decide_unpack _).
    + by vm_compute.
    + by right.
    + by exists m'.
Defined.

Lemma push_front_linked_witness :
  push_front 1 6 true two_lists = Halted AssertionFailed
  ∧ ∃ m', push_front 1 2 true
            (mkMemory ∅ (<[1%positive := mkList (Some 2%positive) 1]> ∅))
          = Returned tt m'
          ∧ nodes m' !!! 2%positive = mkNode (Some 2%positive) (Some 2%positive).
Proof.
  split.
  - by apply (push_front_linked 1 6 true two_lists).
  - destruct (push_front_linked 1 2 true
                (mkMemory ∅ (<[1%positive := mkList (Some 2%positive) 1]> ∅)))
      as (_ & (m' & Hp & Hn & _)).
    + split; [by apply (bool_decide_unpack _)|]. by vm_compute.
    + by exists m'.
Defined.

Lemma pop_front_empty_witness :
  pop_front 1 true (mkMemory ∅ ∅) = Halted AssertionFailed
  ∧ front 1 false (mkMemory ∅ ∅) = Returned None (mkMemory ∅ ∅).
Proof.
  split.
  - apply (pop_front_empty 1 true (mkMemory ∅ ∅)).
    split; [apply NoDup_nil_2|]. by vm_compute.
  - apply (pop_front_empty 1 false (mkMemory ∅ ∅)).
    split; [apply NoDup_nil_2|]. by vm_compute.
Defined.

End nodes.

(** ** Critical sections *)

(** X15.  Taking a critical section and destroying the handle at once leaves
    the scheduler as it was, inside another critical section (the handle is
    then invalid and its destructor does nothing) as well as outside one
    with no switch pending. *)
Theorem critical_section_round_trip (debug : bool) (s : State) :
  s_criticalSection s = true ∨ s_mayNeedSwitch s = false →
  (section ← Scheduler_criticalSection; CriticalSection_destroy section)
    debug s = Done tt s.
Proof.
  intros Hc.
  destruct (s_criticalSection s) eqn:Hcs; [by msimp|].
  destruct Hc as [[=]|Hm]. msimp. f_equal. state_eq.
Qed.

(** X16.  A switch asked for inside a critical section is put off, and is
    carried out when the section ends: [doSwitch] runs then outside the
    section, under the mask of the service call, and the mask is lifted
    afterwards. *)
Theorem deferred_switch_runs (debug : bool) (s : State) :
  s_isStarted s = true →
  s_criticalSection s = true →
  s_currentTask s ≠ None →
  wrap_u8 (basepri s) = 0 →
  (doSwitch;; criticalSectionEnd) debug s
  = (doSwitch;; CortexM.setBasepri 0;; mret tt) debug
      (set_basepri kServiceCallPriority
         (set_s_mayNeedSwitch false (set_s_criticalSection false s))).
Proof.
  intros Hs Hcs Hc Hb.
  unfold mbind at 1, M_bind at 1.
  rewrite doSwitch_deferred by done.
  unfold criticalSectionEnd, triggerSoftSwitch. msimp. rewrite Hb. by msimp.
Qed.

Lemma deferred_switch_runs_witness :
  ∃ s', (doSwitch;; criticalSectionEnd) true (set_s_criticalSection true demo)
        = Done tt s'
        ∧ s_currentTask s' = Some 1%positive
        ∧ s_criticalSection s' = false ∧ s_mayNeedSwitch s' = false.
Proof.
  rewrite (deferred_switch_runs true (set_s_criticalSection true demo));
    [|reflexivity|reflexivity|done|reflexivity].
  eexists. split; [by vm_compute|done].
Defined.

Lemma critical_section_round_trip_witness :
  (section ← Scheduler_criticalSection; CriticalSection_destroy section)
    true demo = Done tt demo.
Proof. apply critical_section_round_trip. by right. Defined.

(** ** [pendSvHandler] *)

(** X17.  With a next task that left no mutex behind, [pendSvHandler] saves
    the stack pointer of the context that ran (in the previous task, and in
    the idle task when it was idling), makes the next task the current and
    the previous one, stamps it with the tick count, and returns its stack
    pointer; nothing else is pending. *)
Theorem pendSv_runs_next (psp : Z) (debug : bool) (s : State) (n : TaskId) :
  s_nextTask s = Some n →
  m_mutex (tasks s !!! n) = None →
  (debug = true → m_active (tasks s !!! n) = true) →
  ∃ s',
    pendSvHandler psp debug s
    = Done (if bool_decide (s_previousTask s = Some n) then psp
            else m_stackPointer (tasks s !!! n)) s'
    ∧ s_currentTask s' = Some n ∧ s_previousTask s' = Some n
    ∧ s_nextTask s' = None ∧ s_idling s' = false ∧ pendSv s' = false
    ∧ m_lastStarted (tasks s' !!! n) = s_ticks s
    ∧ (∀ p, s_previousTask s = Some p → p ≠ n →
         m_stackPointer (tasks s' !!! p) = psp)
    ∧ (s_idling s = true → idle_stackPointer s' = psp)
    ∧ s_ready s' = s_ready s ∧ s_timeouts s' = s_timeouts s
    ∧ s_criticalSection s' = s_criticalSection s.
Proof.
  intros Hn Hm Ha.
  assert (m_active (tasks s !!! n) = true ∨ debug = false) as Ha'.
  { destruct debug; auto. }
  clear Ha.
  destruct (s_previousTask s) as [p|] eqn:Hp; [|].
  - destruct (decide (p = n)) as [->|Hne].
    + rewrite bool_decide_true by done.
      destruct (s_idling s) eqn:Hi; destruct Ha' as [Ha| ->];
        unfold pendSvHandler; msimp;
        (eexists; split; [reflexivity|]); kred;
        rewrite ?lookup_total_insert_eq; tcb_red; repeat split; try done.
      all: by intros q [= <-] Hq.
    + rewrite bool_decide_false by congruence.
      destruct (s_idling s) eqn:Hi; destruct Ha' as [Ha| ->];
        unfold pendSvHandler; msimp;
        rewrite ?(lookup_total_insert_ne (tasks s) p n) by done; msimp;
        (eexists; split; [reflexivity|]); kred;
        rewrite ?lookup_total_insert_eq; tcb_red; repeat split; try done.
      all: intros q [= <-] Hq.
      all: by rewrite lookup_total_insert_ne, lookup_total_insert_eq.
  - rewrite bool_decide_false by done.
    destruct (s_idling s) eqn:Hi; destruct Ha' as [Ha| ->];
      unfold pendSvHandler; msimp;
      (eexists; split; [reflexivity|]); kred;
      rewrite ?lookup_total_insert_eq; tcb_red; repeat split; try done.
Qed.

(** X18.  With no next task, [pendSvHandler] saves the stack pointer of the
    context that ran, goes idle and returns the stack pointer of the idle
    task: the one just saved when it was idling already. *)
Theorem pendSv_idles (psp : Z) (debug : bool) (s : State) :
  s_nextTask s = None →
  ∃ s',
    pendSvHandler psp debug s
    = Done (if s_idling s then psp else idle_stackPointer s) s'
    ∧ s_idling s' = true ∧ s_previousTask s' = None
    ∧ s_currentTask s' = s_currentTask s ∧ pendSv s' = false
    ∧ (∀ p, s_previousTask s = Some p →
         m_stackPointer (tasks s' !!! p) = psp)
    ∧ s_ready s' = s_ready s ∧ s_timeouts s' = s_timeouts s.
Proof.
  intros Hn.
  destruct (s_previousTask s) as [p|] eqn:Hp;
    destruct (s_idling s) eqn:Hi;
    unfold pendSvHandler; msimp;
    (eexists; split; [reflexivity|]); kred; repeat split; try done.
  all: intros q [= <-]; by rewrite lookup_total_insert_eq.
Qed.

(** X19.  A task that went waiting with a mutex gets it back before it runs:
    [pendSvHandler] marks the mutex locked with the critical section in it,
    sets [s_criticalSection], forgets [m_mutex], and returns the preemption
    level to mask above the stack pointer. *)
Theorem pendSv_restores_mutex (psp : Z) (debug : bool) (s : State)
    (n : TaskId) (m : MutexId) :
  s_nextTask s = Some n →
  m_mutex (tasks s !!! n) = Some m →
  s_previousTask s ≠ Some n →
  (debug = true →
   m_active (tasks s !!! n) = true
   ∧ m_criticalSection (mutexes s !!! m) = false
   ∧ mutex_priority (mutexes s !!! m) ≠ Some 0) →
  ∃ s',
    pendSvHandler psp debug s
    = Done (Z.lor (m_stackPointer (tasks s !!! n))
              (Z.shiftl (masked (default 0 (mutex_priority (mutexes s !!! m))))
                 32)) s'
    ∧ s_currentTask s' = Some n
    ∧ s_criticalSection s' = true
    ∧ m_mutex (tasks s' !!! n) = None
    ∧ m_locked (mutexes s' !!! m) = true
    ∧ m_criticalSection (mutexes s' !!! m) = true
    ∧ mutex_priority (mutexes s' !!! m) = mutex_priority (mutexes s !!! m).
Proof.
  intros Hn Hm Hpn Hd.
  assert (debug = false
          ∨ (m_active (tasks s !!! n) = true
             ∧ m_criticalSection (mutexes s !!! m) = false
             ∧ mutex_priority (mutexes s !!! m) ≠ Some 0)) as Hd'.
  { destruct debug; auto. }
  clear Hd.
  destruct (mutexes s !!! m) as [lk pl cs pr] eqn:Hmx. cbn in Hd' |- *.
  assert (∀ p, s_previousTask s = Some p →
            <[p := set_m_stackPointer psp (tasks s !!! p)]> (tasks s) !!! n
            = tasks s !!! n) as Hprev.
  { intros p Hp. apply lookup_total_insert_ne. congruence. }
  destruct Hd' as [-> | (Ha & -> & Hpr)].
  - destruct (s_previousTask s) as [p|] eqn:Hp;
      [specialize (Hprev p eq_refl)|clear Hprev];
      destruct (s_idling s) eqn:Hi; destruct pr as [q|];
      unfold pendSvHandler; msimp; rewrite ?Hprev; msimp;
      (eexists; split; [reflexivity|]); kred;
      rewrite ?lookup_total_insert_eq; tcb_red; kred; by repeat split.
  - assert (∀ q, pr = Some q → (q =? 0) = false) as Hq.
    { intros q ->. apply Z.eqb_neq. congruence. }
    destruct (s_previousTask s) as [p|] eqn:Hp;
      [specialize (Hprev p eq_refl)|clear Hprev];
      destruct (s_idling s) eqn:Hi; destruct pr as [q|];
      [specialize (Hq q eq_refl)|clear Hq|specialize (Hq q eq_refl)|clear Hq
      |specialize (Hq q eq_refl)|clear Hq|specialize (Hq q eq_refl)|clear Hq];
      unfold pendSvHandler; msimp; rewrite ?Hprev; msimp;
      (eexists; split; [reflexivity|]); kred;
      rewrite ?lookup_total_insert_eq; tcb_red; kred; by repeat split.
Qed.

(** ** Service calls *)

(** X20.  [Wait] with no mutex and a timeout that is not negative: the
    caller gets the deadline [s_ticks + timeout] computed in [int32_t]
    (the sum itself while it stays in the range, and else the sum less
    [2 ^ 32], a deadline in the past), is linked in the timeout queue by
    ordered insertion on the deadlines and in the waiting list of the
    condition variable, [m_waiting] is set, [s_currentTask] is cleared and
    the handler ends in [doSwitch]. *)
Theorem Wait_with_timeout (cv : CvId) (timeout : Z) (isThread debug : bool)
    (s : State) (c : TaskId) :
  s_currentTask s = Some c →
  0 ≤ timeout ≤ INT32_MAX →
  (debug = true →
   isThread = true
   ∧ ∀ x, x ∈ s_timeouts s → m_waitUntil (tasks s !!! x) ≠ None) →
  let deadline := wrap_i32 (s_ticks s + timeout) in
  ∃ s1,
    serviceCallHandler (mkFrame (address cv) (wrap_u32 timeout) 0) Wait
      isThread debug s
    = doSwitch debug s1
    ∧ m_waitUntil (tasks s1 !!! c) = Some deadline
    ∧ (INT32_MIN ≤ s_ticks s + timeout ≤ INT32_MAX →
       deadline = s_ticks s + timeout)
    ∧ (INT32_MAX < s_ticks s + timeout < 2 ^ 32 + INT32_MIN →
       deadline = s_ticks s + timeout - 2 ^ 32)
    ∧ s_timeouts s1
      = insert_ordered (wakes_before (tasks s1)) c (s_timeouts s)
    ∧ m_waiting (tasks s1 !!! c) = Some cv
    ∧ m_waitingList (conditions s1 !!! cv)
      ≡ₚ c :: m_waitingList (conditions s !!! cv)
    ∧ s_ready s1 = s_ready s
    ∧ s_currentTask s1 = None.
Proof.
  intros Hc Ht Hd deadline. subst deadline.
  assert (wrap_i32 (wrap_u32 timeout) = timeout) as H1.
  { rewrite wrap_i32_wrap_u32, wrap_i32_small; unfold INT32_MIN, INT32_MAX in *; lia. }
  assert ((0 <=? timeout) = true) as H3 by lia.
  assert (isThread = true ∨ debug = false) as Hth.
  { destruct debug; [left; by apply Hd|by right]. }
  unfold serviceCallHandler, address, pointer.
  destruct Hth as [-> | ->]; msimp; rewrite ?H1, ?H3; msimp.
  all: rewrite timeouts_insertWhen_eq; msimp.
  all: try (intros Hdb x Hx; kred;
            destruct (decide (x = c)) as [->|Hne];
            [by rewrite lookup_total_insert_eq|];
            rewrite lookup_total_insert_ne by done;
            apply elem_of_cons in Hx as [?|Hx]; [done|]; by apply Hd).
  all: (eexists; split; [reflexivity|]); kred;
    rewrite ?lookup_total_insert_eq; tcb_red.
  all: repeat split; try done; try apply insert_ordered_perm;
    try apply wrap_i32_small; try apply wrap_i32_above.
  all: apply insert_ordered_ext; intros x y; unfold wakes_before.
  all: destruct (decide (x = c)) as [->|Hx], (decide (y = c)) as [->|Hy];
    by rewrite ?lookup_total_insert_eq, ?lookup_total_insert_ne by done.
Qed.

(** X22.  What the handler asserts about its caller: a debug build halts
    when [Sleep], [Switch] or [Wait] come from a handler, when [Sleep] or
    [Switch] come from inside a critical section, when [Sleep] or [Wait]
    come while no task is current, and on a service call number it does not
    know. *)
Theorem service_call_misuse (frame : StackFrame) (isThread : bool)
    (s : State) :
  let halts call thread :=
    serviceCallHandler frame call thread true s = Failed AssertionFailed in
  (halts Sleep false ∧ halts Switch false ∧ halts Wait false)
  ∧ (s_criticalSection s = true →
     halts Sleep isThread ∧ halts Switch isThread)
  ∧ (s_currentTask s = None → halts Sleep isThread ∧ halts Wait isThread)
  ∧ halts OtherCall isThread.
Proof.
  intros halts. subst halts. cbn beta.
  split; [by repeat split|]. split; [|split; [|done]].
  - intros Hcs. split; destruct isThread; unfold serviceCallHandler; by msimp.
  - intros Hc.
    destruct isThread, (s_criticalSection s) eqn:Hcs,
      (r0 frame =? 0) eqn:Hr; unfold serviceCallHandler; by msimp.
Qed.

Lemma service_call_misuse_witness :
  serviceCallHandler (mkFrame 10 0 0) Sleep true true
    (set_s_criticalSection true demo) = Failed AssertionFailed
  ∧ serviceCallHandler (mkFrame 10 0 0) Sleep true true
      (set_s_currentTask None demo) = Failed AssertionFailed.
Proof.
  split.
  - by apply (service_call_misuse (mkFrame 10 0 0) true
                (set_s_criticalSection true demo)).
  - by apply (service_call_misuse (mkFrame 10 0 0) true
                (set_s_currentTask None demo)).
Defined.

Lemma Wait_with_timeout_witness :
  ∃ s1, serviceCallHandler (mkFrame (address 7) (wrap_u32 40) 0) Wait true true
          demo = doSwitch true s1
        ∧ m_waitUntil (tasks s1 !!! 1%positive) = Some 40
        ∧ s_timeouts s1 = [1%positive]
        ∧ m_waiting (tasks s1 !!! 1%positive) = Some 7%positive.
Proof.
  destruct (Wait_with_timeout 7 40 true true demo 1)
    as (s1 & Hcall & Hw & _ & _ & Ht & Hm & _).
  - reflexivity.
  - by vm_compute.
  - intros _. split; [done|]. intros x Hx. by apply elem_of_nil in Hx.
  - exists s1. by repeat split.
Defined.

Lemma pendSv_runs_next_witness :
  ∃ s', pendSvHandler 4096 true
          (set_s_nextTask (Some 2%positive) (set_s_ticks 5 demo))
        = Done 0 s'
        ∧ s_currentTask s' = Some 2%positive
        ∧ m_lastStarted (tasks s' !!! 2%positive) = 5
        ∧ m_stackPointer (tasks s' !!! 1%positive) = 4096.
Proof.
  destruct (pendSv_runs_next 4096 true
              (set_s_nextTask (Some 2%positive) (set_s_ticks 5 demo)) 2)
    as (s' & Hcall & Hc & _ & _ & _ & _ & Hl & Hp & _); [done..|].
  exists s'. split; [exact Hcall|]. split; [done|]. split; [done|].
  by apply Hp.
Defined.

Lemma pendSv_idles_witness :
  ∃ s', pendSvHandler 4096 true demo = Done 0 s'
        ∧ s_idling s' = true ∧ s_previousTask s' = None
        ∧ m_stackPointer (tasks s' !!! 1%positive) = 4096.
Proof.
  destruct (pendSv_idles 4096 true demo)
    as (s' & Hcall & Hi & Hp & _ & _ & Hsp & _); [done|].
  exists s'. split; [exact Hcall|]. split; [done|]. split; [done|].
  by apply Hsp.
Defined.

(** X21.  [Wait] with a mutex and no timeout: the handler keeps the mutex in
    [m_mutex] of the caller, gives back the mask the mutex had raised and
    the critical section it held, puts the caller in the waiting list of the
    condition variable and ends in [doSwitch]; the mutex stays marked
    locked. *)
Theorem Wait_releases_mutex (cv : CvId) (m : MutexId) (timeout : Z)
    (isThread debug : bool) (s : State) (c : TaskId) :
  s_currentTask s = Some c →
  INT32_MIN ≤ timeout < 0 →
  m_locked (mutexes s !!! m) = true →
  m_criticalSection (mutexes s !!! m) = true →
  mutex_priority (mutexes s !!! m) ≠ Some 0 →
  (debug = true →
   isThread = true ∧ s_criticalSection s = true
   ∧ ∀ p, mutex_priority (mutexes s !!! m) = Some p →
          masked (wrap_u8 (basepri s)) = masked p) →
  ∃ s1,
    serviceCallHandler (mkFrame (address cv) (wrap_u32 timeout) (address m))
      Wait isThread debug s
    = doSwitch debug s1
    ∧ m_mutex (tasks s1 !!! c) = Some m
    ∧ m_waiting (tasks s1 !!! c) = Some cv
    ∧ m_waitUntil (tasks s1 !!! c) = m_waitUntil (tasks s !!! c)
    ∧ s_criticalSection s1 = false
    ∧ m_criticalSection (mutexes s1 !!! m) = false
    ∧ m_locked (mutexes s1 !!! m) = true
    ∧ basepri s1 = match mutex_priority (mutexes s !!! m) with
                   | Some _ => m_previousLock (mutexes s !!! m)
                   | None => basepri s
                   end
    ∧ s_timeouts s1 = s_timeouts s
    ∧ s_currentTask s1 = None.
Proof.
  intros Hc Ht Hl Hmc Hp Hd.
  assert (wrap_i32 (wrap_u32 timeout) = timeout) as H1.
  { rewrite wrap_i32_wrap_u32, wrap_i32_small; unfold INT32_MIN, INT32_MAX in *; lia. }
  assert ((0 <=? timeout) = false) as H3 by lia.
  assert (debug = false
          ∨ (debug = true ∧ isThread = true ∧ s_criticalSection s = true
             ∧ ∀ p, mutex_priority (mutexes s !!! m) = Some p →
                    masked (wrap_u8 (basepri s)) = masked p)) as Hd'.
  { destruct debug; [right; split; [done|]; by apply Hd|by left]. }
  clear Hd.
  destruct (mutexes s !!! m) as [lk pl cs pr] eqn:Hmx. cbn in Hl, Hmc, Hp, Hd' |- *.
  subst lk cs.
  unfold serviceCallHandler, address, pointer.
  destruct Hd' as [-> | (-> & -> & Hcs & Hb)].
  - destruct pr as [p|];
      [assert ((p =? 0) = false) as Hp0 by (apply Z.eqb_neq; congruence)|];
      unfold Mutex.releaseFromServiceCall, Mutex.disable_criticalSection,
        Mutex.restoreBasepri;
      repeat progress (msimp; rewrite ?H1, ?H3, ?Hp0).
    all: (eexists; split; [reflexivity|]); kred;
      rewrite ?lookup_total_insert_eq; tcb_red; kred; by repeat split.
  - destruct pr as [p|];
      [assert ((p =? 0) = false) as Hp0 by (apply Z.eqb_neq; congruence);
       assert ((masked (wrap_u8 (basepri s)) =? masked p) = true) as Hb'
         by (apply Z.eqb_eq; by apply Hb)|];
      unfold Mutex.releaseFromServiceCall, Mutex.disable_criticalSection,
        Mutex.restoreBasepri;
      repeat progress (msimp; rewrite ?H1, ?H3, ?Hp0, ?Hb').
    all: (eexists; split; [reflexivity|]); kred;
      rewrite ?lookup_total_insert_eq; tcb_red; kred; by repeat split.
Qed.

Lemma Wait_releases_mutex_witness :
  ∃ s1, serviceCallHandler (mkFrame (address 7) (wrap_u32 (-1)) (address 1))
          Wait true true
          (set_basepri 128 (set_s_criticalSection true
             (set_mutexes (<[1%positive := mkMutex true 0 true (Some 128)]> ∅)
                demo)))
        = doSwitch true s1
        ∧ m_mutex (tasks s1 !!! 1%positive) = Some 1%positive
        ∧ s_criticalSection s1 = false
        ∧ m_locked (mutexes s1 !!! 1%positive) = true
        ∧ basepri s1 = 0.
Proof.
  destruct (Wait_releases_mutex 7 1 (-1) true true
              (set_basepri 128 (set_s_criticalSection true
                 (set_mutexes (<[1%positive := mkMutex true 0 true (Some 128)]> ∅)
                    demo))) 1)
    as (s1 & Hcall & Hm & _ & _ & Hcs & _ & Hl & Hb & _); try done.
  - intros _. split; [done|]. split; [done|]. by intros p [= <-].
  - exists s1. by repeat split.
Defined.

(** ** [PriorityMutex::lock] and [unlock] *)

(** X23.  [lock] followed by [unlock], under the conditions [lock] asserts,
    gives back the masks and the critical section as they were; the mutex
    keeps what [lock] wrote in it: [m_locked] stays set. *)
Theorem lock_unlock_round_trip (m : MutexId) (debug : bool) (s : State) :
  lock_contract (mutexes s !!! m) s →
  (Mutex.lock (MutexAt m);; Mutex.unlock (MutexAt m)) debug s
  = Done tt (set_mutexes (<[m := used_mutex (mutexes s !!! m) s]> (mutexes s)) s).
Proof.
  intros (Hcs & Hsw & Hpm & Hb & Hmcs & Hp).
  assert (wrap_u8 (basepri s) = basepri s) as Hw.
  { unfold wrap_u8. apply Z.mod_small. lia. }
  unfold used_mutex.
  destruct (mutexes s !!! m) as [lk pl cs pr] eqn:Hm. cbn in Hmcs, Hp |- *.
  subst cs. destruct pr as [p|].
  - destruct (p =? 0) eqn:Hp0.
    + unfold Mutex.lock, Mutex.unlock; msimp.
      first [done|f_equal; state_eq].
    + destruct Hp as [->|[Hbp Hc]]; [done|].
      apply Z.leb_le in Hbp.
      destruct (isr s) as [c|] eqn:Hisr.
      * specialize (Hc c eq_refl). apply Z.leb_le in Hc.
        destruct debug; unfold Mutex.lock, Mutex.unlock;
          repeat progress (msimp; rewrite ?Hw, ?wrap_u8_masked);
          first [done|f_equal; state_eq].
      * clear Hc.
        destruct debug; unfold Mutex.lock, Mutex.unlock;
          repeat progress (msimp; rewrite ?Hw, ?wrap_u8_masked);
          first [done|f_equal; state_eq].
  - apply (bool_decide_eq_true_2 _) in Hp.
    unfold Mutex.lock, Mutex.unlock; msimp.
    first [done|f_equal; state_eq].
Qed.

Lemma lock_unlock_round_trip_witness :
  (Mutex.lock (MutexAt 1);; Mutex.unlock (MutexAt 1)) true
    (set_mutexes (<[1%positive := newMutex (Some 128)]> ∅) demo)
  = Done tt
      (set_mutexes (<[1%positive := mkMutex true 0 false (Some 128)]> ∅) demo).
Proof.
  rewrite (lock_unlock_round_trip 1 true
             (set_mutexes (<[1%positive := newMutex (Some 128)]> ∅) demo)).
  - reflexivity.
  - repeat split; try done. right. split; [by vm_compute|done].
Defined.

(** ** [TaskControlBlock::priority] *)

(** X24.  On a task that is not active, [priority] stores the priority and
    does nothing else, whatever list the task is linked in. *)
Theorem priority_of_inactive_task (t : TaskId) (p : Z) (debug : bool)
    (s : State) :
  m_active (tasks s !!! t) = false →
  0 ≤ basepri s < 256 →
  TaskControlBlock_priority t p debug s
  = Done tt (if p =? m_priority (tasks s !!! t) then s
             else set_tasks (<[t := set_m_priority p (tasks s !!! t)]> (tasks s)) s).
Proof.
  intros Ha Hb.
  assert (wrap_u8 (basepri s) = basepri s) as Hw.
  { unfold wrap_u8. apply Z.mod_small. lia. }
  destruct (p =? m_priority (tasks s !!! t)) eqn:Hp;
    unfold TaskControlBlock_priority, updatePriority; msimp; [done|].
  rewrite Hw. f_equal.
Qed.

Lemma priority_of_inactive_task_witness :
  TaskControlBlock_priority 2 255 true
    (set_tasks (<[2%positive := set_m_active false (demo_task 5)]> demo_tasks) demo)
  = Done tt
      (set_tasks (<[2%positive := set_m_priority 255
                                    (set_m_active false (demo_task 5))]>
                    demo_tasks) demo).
Proof.
  rewrite priority_of_inactive_task; [by vm_compute|done|done].
Defined.

Lemma erase_cons_perm (t : TaskId) l :
  t ∈ l → NoDup l → t :: EmbeddedList.erase t l ≡ₚ l.
Proof.
  intros (l1 & l2 & ->)%list_elem_of_split Hnd.
  rewrite erase_middle by done. by rewrite Permutation_middle.
Qed.

(** A task that gets another priority, or another task control block with
    the same priority, in a queue it is not in, then is inserted: the
    queue is in order for the new store. *)
Lemma ready_insert_ordered ts c tcb l :
  c ∉ l → priority_ordered ts l →
  priority_ordered (<[c := tcb]> ts)
    (insert_ordered (more_important (<[c := tcb]> ts)) c l).
Proof.
  intros Hc Hl. apply insert_ordered_sorted.
  - intros a b. apply priorityIsLower_asym.
  - intros a b d. apply priorityIsLower_trans.
  - eapply StronglySorted_ext; [|done].
    intros x y Hx Hy. unfold by_priority, more_important.
    rewrite !lookup_total_insert_ne; [done|set_solver..].
Qed.

(** X25.  On a ready task (active, neither current nor next, not waiting and
    with no deadline), [priority] stores the new priority and puts the task
    at its new place in the ready queue, which holds the same tasks and is
    in priority order if it was; when the task comes first, [doSwitch] is
    called. *)
Theorem priority_of_ready_task (t : TaskId) (p : Z) (debug : bool)
    (s : State) :
  m_active (tasks s !!! t) = true →
  s_currentTask s ≠ Some t → s_nextTask s ≠ Some t →
  m_waiting (tasks s !!! t) = None →
  m_waitUntil (tasks s !!! t) = None →
  p ≠ m_priority (tasks s !!! t) →
  let ts' := <[t := set_m_priority p (tasks s !!! t)]> (tasks s) in
  let ready' := insert_ordered (more_important ts') t
                  (EmbeddedList.erase t (s_ready s)) in
  TaskControlBlock_priority t p debug s
  = ((if bool_decide (head ready' = Some t) then doSwitch;; mret tt
      else mret tt);;
     CortexM.setBasepri (wrap_u8 (basepri s));; mret tt) debug
      (set_basepri kServiceCallPriority
         (set_s_ready ready' (set_tasks ts' s)))
  ∧ (t ∈ s_ready s → NoDup (s_ready s) → ready' ≡ₚ s_ready s)
  ∧ (priority_ordered (tasks s) (s_ready s) → priority_ordered ts' ready').
Proof.
  intros Ha Hc Hn Hw Hu Hp ts' ready'. split; [|split].
  - apply Z.eqb_neq in Hp.
    assert (bool_decide (Some t = s_currentTask s) = false) as Hc'.
    { apply bool_decide_eq_false. congruence. }
    assert (bool_decide (Some t = s_nextTask s) = false) as Hn'.
    { apply bool_decide_eq_false. congruence. }
    subst ready' ts'.
    unfold TaskControlBlock_priority, updatePriority. msimp.
    destruct (insert_ordered _ t _) as [|front rest] eqn:Hi.
    { exfalso. assert (t ∈ @nil TaskId) as Hin; [|by apply elem_of_nil in Hin].
      rewrite <- Hi. apply elem_of_insert_ordered. by left. }
    cbn [head].
    destruct (decide (front = t)) as [->|Hne].
    + rewrite !bool_decide_true by done. by msimp.
    + rewrite !bool_decide_false by congruence. by msimp.
  - intros Hin Hnd. unfold ready'. rewrite insert_ordered_perm.
    by apply erase_cons_perm.
  - intros Ho. apply ready_insert_ordered; [apply not_elem_of_erase|].
    by apply StronglySorted_erase.
Qed.

Lemma priority_of_ready_task_witness :
  ∃ s', TaskControlBlock_priority 3 1 true demo = Done tt s'
        ∧ s_currentTask s' = Some 1%positive
        ∧ s_ready s' = [3; 2]%positive
        ∧ m_priority (tasks s' !!! 3%positive) = 1.
Proof.
  destruct (priority_of_ready_task 3 1 true demo) as (Hcall & _); [done..|].
  rewrite Hcall. eexists. split; [by vm_compute|]. by vm_compute.
Defined.

(** ** [TaskControlBlock::priorityIsLower] *)

(** X26.  The comparison of the ready queue and of the waiting lists is a
    strict weak order: no task comes before itself, two tasks do not come
    before each other, the comparison is transitive, and so is its negation,
    and neither of two tasks comes before the other exactly when they have
    equal priorities and equal start times. *)
Theorem priorityIsLower_strict_weak_order (a b c : TaskControlBlock) :
  priorityIsLower a a = false
  ∧ (priorityIsLower a b = true → priorityIsLower b a = false)
  ∧ (priorityIsLower a b = true → priorityIsLower b c = true →
     priorityIsLower a c = true)
  ∧ (priorityIsLower a b = false → priorityIsLower b c = false →
     priorityIsLower a c = false)
  ∧ (priorityIsLower a b = false ∧ priorityIsLower b a = false ↔
     m_priority a = m_priority b ∧ m_lastStarted a = m_lastStarted b).
Proof.
  unfold priorityIsLower. repeat split; repeat case_match; lia.
Qed.

Lemma priorityIsLower_strict_weak_order_witness :
  priorityIsLower (demo_task 0) (demo_task 5) = true
  ∧ priorityIsLower (demo_task 5) (demo_task 0) = false.
Proof.
  split; [reflexivity|].
  destruct (priorityIsLower_strict_weak_order (demo_task 0) (demo_task 5)
              (demo_task 5)) as (_ & Hasym & _).
  by apply Hasym.
Defined.

(** ** [TaskControlBlock::start] *)

(** X27.  [start] on a task that is not active, that is in none of
    [s_allTasks], the ready queue and the waiting lists (its nodes are free,
    as [push_front] and [insertWhen] assert), and whose stack is a buffer of
    more words than a frame and a context: the task is made active, the
    entry and the name are recorded, the stack pointer is put a frame and a
    context below the last word of the stack, with [0xFFFFFFFD] in the [lr]
    of the context and [this] in the saved [r0], the task is linked in front
    of [s_allTasks] and in the ready queue by ordered insertion (which keeps
    the queue ordered), and, when the scheduler runs, a switch is asked for
    at once. *)
Theorem start_makes_ready (t : TaskId) (entry : nat) (name : Z)
    (debug : bool) (s : State) :
  m_active (tasks s !!! t) = false →
  t ∉ s_allTasks s →
  t ∉ s_ready s →
  (∀ cv, t ∉ m_waitingList (conditions s !!! cv)) →
  0 < m_stackBase (tasks s !!! t) →
  sizeof_StackFrame + sizeof_Context < m_stackSize (tasks s !!! t) →
  let tcb := tasks s !!! t in
  let tcb' := start_writes (address t) entry name debug (set_m_active true tcb) in
  let ts' := <[t := tcb']> (tasks s) in
  let s1 :=
    set_s_ready (insert_ordered (more_important ts') t (s_ready s))
      (set_s_allTasks (t :: s_allTasks s) (set_tasks ts' s)) in
  TaskControlBlock_start t entry name debug s
  = ((if s_isStarted s then triggerSoftSwitch else mret tt);; mret true)
      debug s1
  ∧ m_active tcb' = true
  ∧ m_entry tcb' = Some entry
  ∧ m_name tcb' = name
  ∧ m_priority tcb' = m_priority tcb
  ∧ m_stackPointer tcb'
    = m_stackBase tcb
      + 4 * (m_stackSize tcb - 1 - sizeof_StackFrame - sizeof_Context)
  ∧ m_stack tcb' !!! m_stackPointer tcb' = Word 4294967293
  ∧ saved_frame tcb' = Some (m_stackPointer tcb' + 4 * sizeof_Context)
  ∧ saved_r0 tcb' = Some (Word (address t))
  ∧ (priority_ordered (tasks s) (s_ready s) →
     priority_ordered ts' (s_ready s1)).
Proof.
  intros Ha Hall Hn Hcv Hbase Hsize tcb tcb' ts' s1.
  assert (m_stackPointer tcb'
          = m_stackBase tcb
            + 4 * (m_stackSize tcb - 1 - sizeof_StackFrame - sizeof_Context))
    as Hsp.
  { subst tcb'.
    destruct debug; cbn; unfold sizeof_StackFrame, sizeof_Context; lia. }
  assert (m_stack tcb' !!! m_stackPointer tcb' = Word 4294967293) as Hlr.
  { rewrite Hsp. subst tcb'.
    destruct debug; cbn; unfold sizeof_StackFrame, sizeof_Context.
    all: match goal with
         | |- <[?a := _]> _ !!! ?b = _ =>
             replace a with b by lia; apply lookup_total_insert_eq
         end. }
  assert (saved_frame tcb' = Some (m_stackPointer tcb' + 4 * sizeof_Context))
    as Hfr.
  { unfold saved_frame. rewrite Hlr.
    destruct (Z.eqb_spec (m_stackPointer tcb') 0) as [H0|_]; [|done].
    rewrite Hsp in H0. unfold sizeof_StackFrame, sizeof_Context, tcb in *. lia. }
  split; [|repeat split].
  - subst s1 ts' tcb' tcb.
    destruct (s_isStarted s) eqn:Hs;
      unfold TaskControlBlock_start, addTask; by msimp.
  - subst tcb'. by rewrite start_writes_active.
  - subst tcb'. by destruct debug.
  - subst tcb'. by destruct debug.
  - subst tcb'. by destruct debug.
  - exact Hsp.
  - exact Hlr.
  - exact Hfr.
  - unfold saved_r0. rewrite Hfr. cbn [fmap option_fmap option_map].
    f_equal. rewrite Hsp. subst tcb'.
    destruct debug; cbn; unfold sizeof_StackFrame, sizeof_Context in *.
    all: rewrite !lookup_total_insert_ne by lia.
    all: match goal with
         | |- <[?a := _]> _ !!! ?b = _ =>
             replace a with b by lia; apply lookup_total_insert_eq
         end.
  - intros Ho. by apply ready_insert_ordered.
Qed.

Lemma start_makes_ready_witness :
  ∃ s', TaskControlBlock_start 4 0 0 true
          (set_tasks (<[4%positive := set_m_priority 7 (newTCB 1000 64)]>
                        demo_tasks)
             (reset CortexM.M4 16000000))
        = Done true s'
        ∧ s_ready s' = [4%positive] ∧ s_allTasks s' = [4%positive]
        ∧ m_stackPointer (tasks s' !!! 4%positive) = 1180
        ∧ saved_r0 (tasks s' !!! 4%positive) = Some (Word (address 4)).
Proof.
  destruct (start_makes_ready 4 0 0 true
              (set_tasks (<[4%positive := set_m_priority 7 (newTCB 1000 64)]>
                            demo_tasks)
                 (reset CortexM.M4 16000000))) as (Hcall & _).
  - done.
  - apply not_elem_of_nil.
  - apply not_elem_of_nil.
  - intros cv. apply not_elem_of_nil.
  - by vm_compute.
  - by vm_compute.
  - rewrite Hcall. eexists. split; [by vm_compute|]. by vm_compute.
Defined.

(** ** [sleep_until] *)

(** X28.  [sleep_until(tp)], called by the current task in thread mode
    outside a critical section with [tp] less than an hour ahead, gives the
    task the deadline [tp + 1], links it in the timeout queue by ordered
    insertion, clears [s_currentTask] and calls [doSwitch]. *)
Theorem sleep_until_deadline (tp : Z) (debug : bool) (s : State) (c : TaskId) :
  s_currentTask s = Some c →
  s_isStarted s = true → isr s = None → s_criticalSection s = false →
  -1 ≤ tp - s_ticks s < 3600000 →
  INT32_MIN ≤ s_ticks s → tp + 1 ≤ INT32_MAX →
  (debug = true →
   ∀ x, x ∈ s_timeouts s → m_waitUntil (tasks s !!! x) ≠ None) →
  let tasks' := <[c := set_m_waitUntil (Some (tp + 1)) (tasks s !!! c)]> (tasks s) in
  sleep_until tp debug s
  = (doSwitch;; mret tt) debug
      (set_s_currentTask None
         (set_s_timeouts (insert_ordered (wakes_before tasks') c (s_timeouts s))
            (set_tasks tasks' s))).
Proof.
  intros Hc Hs Hi Hcs Ht Hlo Hhi Hd tasks'. subst tasks'.
  unfold INT32_MIN, INT32_MAX in *.
  assert (wrap_i32 (tp - s_ticks s) = tp - s_ticks s) as H0.
  { apply wrap_i32_small. unfold INT32_MIN, INT32_MAX. lia. }
  assert (wrap_i32 (wrap_i32 (wrap_u32 (tp - s_ticks s)) + 1)
          = tp - s_ticks s + 1) as H1.
  { rewrite wrap_i32_wrap_u32, H0, wrap_i32_small;
      unfold INT32_MIN, INT32_MAX; lia. }
  assert (wrap_i32 (s_ticks s + (tp - s_ticks s + 1)) = tp + 1) as H2.
  { rewrite wrap_i32_small; unfold INT32_MIN, INT32_MAX; lia. }
  assert ((tp - s_ticks s <? 3600000) = true) as H3 by lia.
  assert ((0 <=? tp - s_ticks s + 1) = true) as H4 by lia.
  pose proof Hi as Hi'. apply (bool_decide_eq_true_2 _) in Hi'.
  unfold sleep_until, sleep_for, now, svc, serviceCallHandler.
  repeat progress (msimp; rewrite ?H0, ?H1, ?H2, ?H3, ?H4).
  rewrite timeouts_insertWhen_eq; [by msimp|].
  intros Hdb x Hx; kred.
  destruct (decide (x = c)) as [->|Hne]; [by rewrite lookup_total_insert_eq|].
  rewrite lookup_total_insert_ne by done.
  apply elem_of_cons in Hx as [?|Hx]; [done|]. by apply Hd.
Qed.

Lemma sleep_until_deadline_witness :
  ∃ s', sleep_until 10 true demo = Done tt s'
        ∧ m_waitUntil (tasks s' !!! 1%positive) = Some 11
        ∧ s_timeouts s' = [1%positive].
Proof.
  rewrite (sleep_until_deadline 10 true demo 1); try done.
  - eexists. split; [by vm_compute|]. by vm_compute.
  - intros _ x Hx. by apply elem_of_nil in Hx.
Defined.

(** ** A task that yields *)

(** X29.  [Switch] from the running task, with the ready queue in priority
    order: the caller goes back into the queue behind its peers, and the
    front of the queue, which no ready task comes before, is picked.  When
    it is the caller itself, the call returns [false] and nothing has
    changed; else PendSV is requested, and its handler saves the stack
    pointer of the caller and makes the picked task the current one. *)
Theorem yield_runs_most_important (frame : StackFrame) (psp : Z)
    (debug : bool) (s : State) (c : TaskId) :
  s_isStarted s = true →
  s_currentTask s = Some c → s_previousTask s = Some c →
  s_nextTask s = None → s_criticalSection s = false →
  c ∉ s_ready s →
  priority_ordered (tasks s) (s_ready s) →
  (∀ x, x ∈ s_ready s →
     m_mutex (tasks s !!! x) = None
     ∧ (debug = true → m_active (tasks s !!! x) = true)) →
  ∃ front rest,
    insert_ordered (more_important (tasks s)) c (s_ready s) = front :: rest
    ∧ (∀ x, x ∈ rest → more_important (tasks s) x front = false)
    ∧ if bool_decide (front = c) then
        serviceCallHandler frame Switch true debug s = Done false s
      else
        ∃ s',
          (serviceCallHandler frame Switch true;; pendSvHandler psp) debug s
          = Done (m_stackPointer (tasks s !!! front)) s'
          ∧ s_currentTask s' = Some front
          ∧ s_ready s' = rest ∧ c ∈ rest
          ∧ m_stackPointer (tasks s' !!! c) = psp
          ∧ m_lastStarted (tasks s' !!! front) = s_ticks s.
Proof.
  intros Hs Hc Hp Hn Hcs Hcr Ho Hr.
  destruct (insert_ordered (more_important (tasks s)) c (s_ready s))
    as [|front rest] eqn:Hi.
  { exfalso. assert (c ∈ @nil TaskId) as Hin; [|by apply elem_of_nil in Hin].
    rewrite <- Hi. apply elem_of_insert_ordered. by left. }
  exists front, rest. split; [done|].
  assert (priority_ordered (tasks s) (front :: rest)) as Ho'.
  { rewrite <- Hi. by apply (requeue_ordered _ (Some c)). }
  split.
  { intros x Hx. apply StronglySorted_cons in Ho' as [Hf _].
    rewrite Forall_forall in Hf. by apply Hf. }
  assert (serviceCallHandler frame Switch true debug s = doSwitch_outcome s)
    as Hcall.
  { rewrite <- (doSwitch_immediate debug s Hs); [|by rewrite Hn|done].
    unfold serviceCallHandler. by msimp. }
  unfold doSwitch_outcome, requeue in Hcall. rewrite Hn, Hc, Hi in Hcall.
  destruct (decide (front = c)) as [Hfc|Hfc].
  - rewrite (bool_decide_true (front = c)) by done.
    rewrite Hfc in Hcall, Hi. rewrite bool_decide_true in Hcall by done.
    rewrite Hcall. f_equal.
    assert (rest = s_ready s) as ->.
    { destruct (s_ready s) as [|y l]; cbn in Hi; [by injection Hi|].
      destruct (more_important (tasks s) c y); [by injection Hi|].
      injection Hi as -> _. exfalso. apply Hcr. by left. }
    state_eq.
  - rewrite (bool_decide_false (front = c)) by done.
    rewrite bool_decide_false in Hcall by congruence.
    assert (front ∈ s_ready s ∧ c ∈ rest) as [Hfr Hcrest].
    { assert (front ∈ front :: rest) as Hf1 by left.
      assert (c ∈ front :: rest) as Hc1.
      { rewrite <- Hi. apply elem_of_insert_ordered. by left. }
      rewrite <- Hi in Hf1. apply elem_of_insert_ordered in Hf1 as [?|?];
        [done|]. apply elem_of_cons in Hc1 as [?|?]; [congruence|done]. }
    destruct (Hr front Hfr) as [Hm Ha].
    assert (m_active (tasks s !!! front) = true ∨ debug = false) as Ha'.
    { destruct debug; auto. }
    clear Ha Hr.
    unfold mbind at 1, M_bind at 1. rewrite Hcall.
    assert (<[c := set_m_stackPointer psp (tasks s !!! c)]> (tasks s) !!! front
            = tasks s !!! front) as Hne.
    { by rewrite lookup_total_insert_ne by congruence. }
    destruct (s_idling s) eqn:Hidl; destruct Ha' as [Ha| ->];
      unfold pendSvHandler; msimp; rewrite ?Hne; msimp;
      (eexists; split; [reflexivity|]); kred;
      rewrite ?lookup_total_insert_eq; tcb_red; repeat split; try done.
    all: by rewrite lookup_total_insert_ne, lookup_total_insert_eq by done.
Qed.

Lemma yield_runs_most_important_witness :
  ∃ s', (serviceCallHandler (mkFrame 0 0 0) Switch true;; pendSvHandler 4096)
          true (set_tasks (<[1%positive := demo_task 5]> demo_tasks) demo)
        = Done 0 s'
        ∧ s_currentTask s' = Some 2%positive
        ∧ s_ready s' = [1; 3]%positive.
Proof.
  destruct (yield_runs_most_important (mkFrame 0 0 0) 4096 true
              (set_tasks (<[1%positive := demo_task 5]> demo_tasks) demo) 1)
    as (front & rest & Hi & _ & H); try done.
  - by apply (bool_decide_unpack _).
  - repeat constructor.
  - apply Forall_forall. by repeat constructor.
  - vm_compute in Hi. injection Hi as <- <-.
    rewrite bool_decide_false in H by done.
    destruct H as (s' & Hcall & Hc & Hr & _).
    exists s'. by repeat split.
Defined.

Lemma pendSv_restores_mutex_witness :
  ∃ s', pendSvHandler 4096 true
          (set_mutexes (<[1%positive := newMutex (Some 128)]> ∅)
             (set_tasks (<[2%positive := set_m_mutex (Some 1%positive)
                                           (demo_task 5)]> demo_tasks)
                (set_s_nextTask (Some 2%positive) demo)))
        = Done (Z.shiftl 128 32) s'
        ∧ s_criticalSection s' = true
        ∧ m_mutex (tasks s' !!! 2%positive) = None
        ∧ m_criticalSection (mutexes s' !!! 1%positive) = true.
Proof.
  destruct (pendSv_restores_mutex 4096 true
              (set_mutexes (<[1%positive := newMutex (Some 128)]> ∅)
                 (set_tasks (<[2%positive := set_m_mutex (Some 1%positive)
                                               (demo_task 5)]> demo_tasks)
                    (set_s_nextTask (Some 2%positive) demo))) 2 1)
    as (s' & Hcall & _ & Hcs & Hm & _ & Hmc & _); try done.
  exists s'. by repeat split.
Defined.
